(** * TechMandates: scan results, activity feed and fix workflow

  A shallow embedding of the TypeScript sources that hold the findings of
  a repository scan, merge them into the recent-activity feed and drive
  the "Fix Now" workflow, together with the properties the specification
  states about them.

  Conventions.  React state is threaded explicitly: a handler is a function
  from the component state to the component state.  An [await] on a
  collaborator is modelled by the value the collaborator answers with (or
  the message of the error it throws).  JavaScript strings are [string],
  [undefined]/[null] is [None], and [a || b] on optional strings is
  [or_else]. *)

From Stdlib Require Import Ascii ZArith Lia DecimalString Permutation Sorted.
From stdpp Require Import list strings numbers.
Open Scope string_scope.

(** ** JavaScript helpers *)

Module JS.

(** [hay.includes(needle)]. *)
Fixpoint includes (hay needle : string) : bool :=
  String.prefix needle hay ||
  match hay with
  | EmptyString => false
  | String _ rest => includes rest needle
  end.

(** [s.startsWith(p)]. *)
Definition startsWith (s p : string) : bool := String.prefix p s.

(** Truthiness of an optional string: [undefined], [null] and the empty
    string are falsy. *)
Definition truthy (o : option string) : bool :=
  match o with
  | Some s => negb (String.eqb s "")
  | None => false
  end.

(** [a || d] where [a] is an optional string and [d] a string. *)
Definition or_else (a : option string) (d : string) : string :=
  match a with
  | Some s => if String.eqb s "" then d else s
  | None => d
  end.

(** [a || b] where both sides are optional strings. *)
Definition or_opt (a b : option string) : option string :=
  if truthy a then a else b.

(** A number inside a template literal. *)
Definition show (z : Z) : string := NilZero.string_of_int (Z.to_int z).

(** The double quote character, as a string. *)
Definition dquote : string := String (Ascii.ascii_of_nat 34) EmptyString.

(** What a thrown-or-returned computation yields: the value, or the
    message of the [Error] that was thrown. *)
Inductive completion (A : Type) : Type :=
| Returned (a : A)
| Threw (message : string).
Arguments Returned {A} a.
Arguments Threw {A} message.

(** Case analysis on every conditional of the goal. *)
Ltac case_ifs :=
  repeat match goal with
         | |- context [if ?b then _ else _] => destruct b
         end.

End JS.

Import JS.

(** ** The Vulnerabilities page and the security scan modal *)

Module Vulnerabilities.

(** One row of [scannedVulnerabilities].  [cvss] is kept in tenths. *)
Record Vulnerability : Type := {
  vuln_id : string;
  title : string;
  severity : string;
  cvss : Z;
  repository : string;
  repositoryId : string;
  platform : string;
  package : string;
  version : string;
  fixedIn : string;
  status : string;
  discoveredDate : string;
  description : string
}.

(** [{ ...v, status: s }]. *)
Definition with_status (s : string) (v : Vulnerability) : Vulnerability :=
  {| vuln_id := vuln_id v; title := title v; severity := severity v;
     cvss := cvss v; repository := repository v;
     repositoryId := repositoryId v; platform := platform v;
     package := package v; version := version v; fixedIn := fixedIn v;
     status := s; discoveredDate := discoveredDate v;
     description := description v |}.

(** A connected repository ([useRepositories]). *)
Record Repository : Type := {
  repo_id : string;
  repo_name : string;
  full_name : string;
  language : option string
}.

(** [repositories.find(r => r.id === id)]. *)
Definition find_repo (repositories : list Repository) (rid : string)
  : option Repository :=
  List.find (fun r => String.eqb (repo_id r) rid) repositories.

(** The toasts the page raises. *)
Inductive Toast : Type :=
| CreatingFix (pkg : string)
| FixPullRequestCreated (pullRequestNumber : Z) (pullRequestUrl : string)
    (pkg : string).

(** State of the error dialog. *)
Record ErrorDialogState : Type := {
  dialog_open : bool;
  dialog_error : string;
  dialog_repositoryName : option string
}.

(** The [useState] cells of the page that the handlers touch, and the
    toasts raised so far (oldest first). *)
Record Page : Type := {
  scannedVulnerabilities : list Vulnerability;
  isFixingVulnerability : option string;
  errorDialog : ErrorDialogState;
  toasts : list Toast
}.

Definition set_vulnerabilities (f : list Vulnerability -> list Vulnerability)
    (p : Page) : Page :=
  {| scannedVulnerabilities := f (scannedVulnerabilities p);
     isFixingVulnerability := isFixingVulnerability p;
     errorDialog := errorDialog p;
     toasts := toasts p |}.

Definition set_fixing (o : option string) (p : Page) : Page :=
  {| scannedVulnerabilities := scannedVulnerabilities p;
     isFixingVulnerability := o;
     errorDialog := errorDialog p;
     toasts := toasts p |}.

Definition set_errorDialog (d : ErrorDialogState) (p : Page) : Page :=
  {| scannedVulnerabilities := scannedVulnerabilities p;
     isFixingVulnerability := isFixingVulnerability p;
     errorDialog := d;
     toasts := toasts p |}.

Definition toast (t : Toast) (p : Page) : Page :=
  {| scannedVulnerabilities := scannedVulnerabilities p;
     isFixingVulnerability := isFixingVulnerability p;
     errorDialog := errorDialog p;
     toasts := toasts p ++ [t] |}.

(** [handleScanResults]: the batch handed over by the scan modal becomes
    the list. *)
Definition handleScanResults (results : list Vulnerability) (p : Page)
  : Page :=
  set_vulnerabilities (fun _ => results) p.

(** *** [SecurityScanModal.startSecurityScan] *)

(** The body of a scan reply: [result.data]. *)
Record ScanData : Type := {
  scan_success : bool;
  scan_vulnerabilities : option (list Vulnerability)
}.

(** What [apiClient.runSecurityScan] answers for a repository. *)
Definition ScanReply : Type := completion (option ScanData).

(** [{ ...vuln, repository: repo.name, repositoryId: repo.id,
      platform: "GitHub" }]. *)
Definition tag_with_repo (repo : Repository) (v : Vulnerability)
  : Vulnerability :=
  {| vuln_id := vuln_id v; title := title v; severity := severity v;
     cvss := cvss v; repository := repo_name repo;
     repositoryId := repo_id repo; platform := "GitHub";
     package := package v; version := version v; fixedIn := fixedIn v;
     status := status v; discoveredDate := discoveredDate v;
     description := description v |}.

Record ScanProgress : Type := {
  sp_repositoryId : string;
  sp_repositoryName : string;
  sp_isScanning : bool;
  sp_isComplete : bool;
  sp_vulnerabilitiesFound : nat
}.

(** The local variables and state of one run of the modal. *)
Record ScanRun : Type := {
  allResults : list Vulnerability;
  scanProgress : list ScanProgress;
  completedScans : nat
}.

Definition mark_scanning (rid : string) (ps : list ScanProgress)
  : list ScanProgress :=
  List.map (fun item =>
    if String.eqb (sp_repositoryId item) rid
    then {| sp_repositoryId := sp_repositoryId item;
            sp_repositoryName := sp_repositoryName item;
            sp_isScanning := true; sp_isComplete := sp_isComplete item;
            sp_vulnerabilitiesFound := sp_vulnerabilitiesFound item |}
    else item) ps.

Definition mark_complete (rid : string) (found : nat)
    (ps : list ScanProgress) : list ScanProgress :=
  List.map (fun item =>
    if String.eqb (sp_repositoryId item) rid
    then {| sp_repositoryId := sp_repositoryId item;
            sp_repositoryName := sp_repositoryName item;
            sp_isScanning := false; sp_isComplete := true;
            sp_vulnerabilitiesFound := found |}
    else item) ps.

(** One turn of the [for (const repositoryId of selectedRepositories)]
    loop; [scan] is the scanner collaborator. *)
Definition scan_one (repositories : list Repository)
    (scan : Repository -> ScanReply) (run : ScanRun) (rid : string)
  : ScanRun :=
  match find_repo repositories rid with
  | None => run (* continue *)
  | Some repo =>
      let scanning := mark_scanning rid (scanProgress run) in
      match scan repo with
      | Returned (Some {| scan_success := true;
                          scan_vulnerabilities := Some vulns |}) =>
          let repoVulnerabilities := List.map (tag_with_repo repo) vulns in
          {| allResults := allResults run ++ repoVulnerabilities;
             scanProgress :=
               mark_complete rid (length repoVulnerabilities) scanning;
             completedScans := S (completedScans run) |}
      | Returned _ | Threw _ =>
          {| allResults := allResults run;
             scanProgress := mark_complete rid 0 scanning;
             completedScans := S (completedScans run) |}
      end
  end.

Definition initialProgress (repositories : list Repository)
    (selectedRepositories : list string) : list ScanProgress :=
  List.map (fun rid =>
    {| sp_repositoryId := rid;
       sp_repositoryName :=
         match find_repo repositories rid with
         | Some repo => or_else (Some (repo_name repo)) "Unknown"
         | None => "Unknown"
         end;
       sp_isScanning := false; sp_isComplete := false;
       sp_vulnerabilitiesFound := 0 |}) selectedRepositories.

(** The batch [startSecurityScan] hands to [onScanResults]; nothing is
    handed over when no repository is selected. *)
Definition startSecurityScan (repositories : list Repository)
    (scan : Repository -> ScanReply) (selectedRepositories : list string)
  : option ScanRun :=
  match selectedRepositories with
  | [] => None
  | _ =>
      Some (fold_left (scan_one repositories scan) selectedRepositories
              {| allResults := [];
                 scanProgress :=
                   initialProgress repositories selectedRepositories;
                 completedScans := 0 |})
  end.

(** A scan from the page: the modal runs and its batch is handed to
    [handleScanResults]. *)
Definition run_security_scan (repositories : list Repository)
    (scan : Repository -> ScanReply) (selectedRepositories : list string)
    (p : Page) : Page :=
  match startSecurityScan repositories scan selectedRepositories with
  | Some run => handleScanResults (allResults run) p
  | None => p
  end.

(** *** [handleFixVulnerability] *)

(** [result.data] of [apiClient.fixVulnerability]. *)
Record FixData : Type := {
  fix_success : bool;
  pullRequestNumber : Z;
  pullRequestUrl : string
}.

Record FixResult : Type := {
  fix_data : option FixData;
  fix_error : option string
}.

(** What the fix collaborator answers: a result, or a thrown error (a
    response that is not ok makes [apiClient.request] throw). *)
Definition FixReply : Type := completion FixResult.

(** Up to the [await]: the row is recorded as the one being fixed and the
    first toast is raised. *)
Definition fix_begin (vuln : Vulnerability) (p : Page) : Page :=
  toast (CreatingFix (package vuln)) (set_fixing (Some (vuln_id vuln)) p).

(** [prev.map(v => v.id === vuln.id ? { ...v, status: 'in-progress' } : v)]. *)
Definition mark_in_progress (vuln : Vulnerability)
    (prev : list Vulnerability) : list Vulnerability :=
  List.map (fun v =>
    if String.eqb (vuln_id v) (vuln_id vuln)
    then with_status "in-progress" v
    else v) prev.

(** The [catch] block. *)
Definition fix_catch (repositories : list Repository) (vuln : Vulnerability)
    (message : string) (p : Page) : Page :=
  let repository := find_repo repositories (repositoryId vuln) in
  set_errorDialog
    {| dialog_open := true;
       dialog_error := message;
       dialog_repositoryName := option_map full_name repository |} p.

(** From the answer of the collaborator to the end of the handler. *)
Definition fix_settle (repositories : list Repository) (vuln : Vulnerability)
    (reply : FixReply) (p : Page) : Page :=
  let after :=
    match reply with
    | Returned r =>
        match fix_data r with
        | Some d =>
            if fix_success d
            then toast (FixPullRequestCreated (pullRequestNumber d)
                          (pullRequestUrl d) (package vuln))
                   (set_vulnerabilities (mark_in_progress vuln) p)
            else fix_catch repositories vuln
                   (or_else (fix_error r) "Failed to fix vulnerability") p
        | None =>
            fix_catch repositories vuln
              (or_else (fix_error r) "Failed to fix vulnerability") p
        end
    | Threw message => fix_catch repositories vuln message p
    end in
  (* finally *)
  set_fixing None after.

(** The whole handler, when nothing else happens during the [await]. *)
Definition handleFixVulnerability (repositories : list Repository)
    (vuln : Vulnerability) (reply : FixReply) (p : Page) : Page :=
  fix_settle repositories vuln reply (fix_begin vuln p).

(** The message the [catch] block receives, if the reply is a failure. *)
Definition failure_message (reply : FixReply) : option string :=
  match reply with
  | Returned r =>
      match fix_data r with
      | Some d =>
          if fix_success d then None
          else Some (or_else (fix_error r) "Failed to fix vulnerability")
      | None => Some (or_else (fix_error r) "Failed to fix vulnerability")
      end
  | Threw message => Some message
  end.

(** *** The "Fix Now" button *)

Inductive Button : Type :=
| NotRendered
| Rendered (disabled : bool).

(** [{vuln.status === 'open' && <Button disabled={isFixingVulnerability
    === vuln.id} onClick={() => handleFixVulnerability(vuln)} />}]. *)
Definition fix_button (p : Page) (vuln : Vulnerability) : Button :=
  if String.eqb (status vuln) "open"
  then Rendered
         match isFixingVulnerability p with
         | Some fixing => String.eqb fixing (vuln_id vuln)
         | None => false
         end
  else NotRendered.

Definition clickable (p : Page) (vuln : Vulnerability) : bool :=
  match fix_button p vuln with
  | Rendered false => true
  | _ => false
  end.

(** The page together with the fix requests that wait for their answer. *)
Record Session : Type := {
  page : Page;
  in_flight : list Vulnerability
}.

Inductive Event : Type :=
| Click (row : nat)                      (* "Fix Now" on a row of the list *)
| Settle (request : nat) (reply : FixReply) (* an awaited answer arrives *)
| ScanResults (results : list Vulnerability).  (* the scan modal reports *)

Definition step (repositories : list Repository) (s : Session) (e : Event)
  : Session :=
  match e with
  | Click row =>
      match scannedVulnerabilities (page s) !! row with
      | Some vuln =>
          if clickable (page s) vuln
          then {| page := fix_begin vuln (page s);
                  in_flight := in_flight s ++ [vuln] |}
          else s
      | None => s
      end
  | Settle request reply =>
      match in_flight s !! request with
      | Some vuln =>
          {| page := fix_settle repositories vuln reply (page s);
             in_flight := delete request (in_flight s) |}
      | None => s
      end
  | ScanResults results =>
      {| page := handleScanResults results (page s);
         in_flight := in_flight s |}
  end.

Definition run (repositories : list Repository) (s : Session)
    (es : list Event) : Session :=
  fold_left (step repositories) es s.

(** The order of the lifecycle states. *)
Definition rank (s : string) : option nat :=
  if String.eqb s "open" then Some 0
  else if String.eqb s "in-progress" then Some 1
  else if String.eqb s "resolved" then Some 2
  else None.

(** [forward a b]: going from status [a] to status [b] is no step back. *)
Definition forward (a b : string) : bool :=
  match rank a, rank b with
  | Some i, Some j => Nat.leb i j
  | _, _ => false
  end.

End Vulnerabilities.

(** ** The error dialog of the Vulnerabilities page *)

Module ErrorDialog.

Record Link : Type := {
  text : string;
  url : option string
}.

Record ErrorDetails : Type := {
  title : string;
  description : string;
  solutions : list string;
  links : list Link
}.

(** [s.split(sep)] for a one-character separator. *)
Fixpoint split (sep : ascii) (s : string) : list string :=
  match s with
  | EmptyString => [EmptyString]
  | String c rest =>
      if Ascii.eqb c sep then EmptyString :: split sep rest
      else match split sep rest with
           | h :: t => String c h :: t
           | [] => [String c EmptyString]
           end
  end.

(** An optional string inside a template literal. *)
Definition tmpl (o : option string) : string :=
  match o with
  | Some s => s
  | None => "undefined"
  end.

(** [repositoryName?.split('/')[1]]. *)
Definition second_segment (repositoryName : option string) : option string :=
  match repositoryName with
  | Some s => split "/"%char s !! 1
  | None => None
  end.

(** [repositoryName ? `https://github.com/${repositoryName}${suffix}`
    : undefined]. *)
Definition github_url (repositoryName : option string) (suffix : string)
  : option string :=
  if truthy repositoryName
  then Some ("https://github.com/" ++ tmpl repositoryName ++ suffix)
  else None.

Definition getErrorDetails (error : string) (repositoryName : option string)
  : ErrorDetails :=
  let isExternalRepo :=
    truthy repositoryName &&
    negb (startsWith (tmpl repositoryName) "KetsHacathons/") in
  if includes error "Failed to create branch: Forbidden" ||
     includes error "Resource not accessible by personal access token"
  then
    if isExternalRepo
    then
      {| title := "Cannot Fix External Repository";
         description :=
           "You don't have write access to " ++ dquote ++
           tmpl repositoryName ++ dquote ++
           ". You can only create vulnerability fixes for repositories you own or have collaborator access to.";
         solutions :=
           [ "You can only fix vulnerabilities in your own repositories";
             "Fork this repository to your account if you want to create a fix";
             "Contact the repository owner to report the vulnerability";
             "Focus on fixing vulnerabilities in repositories you control" ];
         links :=
           [ {| text := "Fork " ++ tmpl (second_segment repositoryName) ++
                        " Repository";
                url := github_url repositoryName "/fork" |};
             {| text := "Report Security Issue";
                url := github_url repositoryName "/security/advisories/new" |} ]
      |}
    else
      {| title := "GitHub Token Permissions Error";
         description :=
           "Your GitHub token doesn't have sufficient permissions to create branches and pull requests in your own repository.";
         solutions :=
           [ "Update your GitHub token with write permissions to Contents and Pull Requests";
             "Ensure your token hasn't expired";
             "For fine-grained tokens: grant 'Contents: Write' and 'Pull requests: Write' permissions";
             "For classic tokens: ensure 'repo' scope is selected" ];
         links :=
           [ {| text := "Update GitHub Token in Supabase";
                url := Some "https://supabase.com/dashboard/project/hbxbmrffzlmkuahhsfwx/settings/functions" |};
             {| text := "Create New GitHub Token";
                url := Some "https://github.com/settings/tokens" |} ]
      |}
  else if includes error "Failed to create pull request: Unprocessable Entity"
  then
    {| title := "Pull Request Creation Failed";
       description :=
         "Unable to create the pull request. This usually happens when there are conflicts or duplicate branches.";
       solutions :=
         [ "A branch with this name may already exist - check your repository";
           "Delete any existing fix branches and try again";
           "Ensure your repository allows pull requests from branches";
           "Verify your GitHub token has pull request write permissions" ];
       links :=
         [ {| text := "View Repository Branches";
              url := github_url repositoryName "/branches" |} ]
    |}
  else if includes error "Resource not accessible by personal access token"
  then
    {| title := "Repository Access Denied";
       description :=
         if isExternalRepo
         then "You don't have access to modify " ++ dquote ++
              tmpl repositoryName ++ dquote ++
              ". This is an external repository that you cannot directly fix."
         else "You don't have access to this repository or the token permissions are insufficient.";
       solutions :=
         if isExternalRepo
         then [ "You can only create fixes for repositories you own or collaborate on";
                "Fork the repository to your account to work on a fix";
                "Report the vulnerability to the repository maintainers";
                "Focus on vulnerabilities in your own repositories" ]
         else [ "Ensure you own the repository or are a collaborator";
                "Use a fine-grained token with specific repository access";
                "Check that your GitHub token hasn't been revoked" ];
       links :=
         if isExternalRepo
         then [ {| text := "Fork " ++ tmpl (second_segment repositoryName);
                   url := github_url repositoryName "/fork" |} ]
         else []
    |}
  else
    (* Generic error *)
    {| title := "Vulnerability Fix Failed";
       description :=
         "An unexpected error occurred while trying to create the vulnerability fix.";
       solutions :=
         [ "Check your internet connection";
           "Verify you have write access to the repository";
           "Ensure your GitHub token is valid and has proper permissions";
           "Try again in a few minutes" ];
       links := []
    |}.

(** What [<ErrorDialog error=... repositoryName=... />] shows for the state
    the page keeps. *)
Definition shown (d : Vulnerabilities.ErrorDialogState) : ErrorDetails :=
  getErrorDetails (Vulnerabilities.dialog_error d)
    (Vulnerabilities.dialog_repositoryName d).

(** The titles of the two answers to a missing write permission. *)
Definition permission_title (t : string) : bool :=
  String.eqb t "Cannot Fix External Repository" ||
  String.eqb t "GitHub Token Permissions Error".

(** The title of the generic answer. *)
Definition generic_title : string := "Vulnerability Fix Failed".

(** The message carries one of the two texts of GitHub by which the dialog
    recognises a refusal of write access. *)
Definition carries_refusal_text (error : string) : bool :=
  includes error "Failed to create branch: Forbidden" ||
  includes error "Resource not accessible by personal access token".

(** A link of the dialog can be followed when the repository is known:
    it has a text and, then, an address on the web. *)
Definition usable_link (repositoryName : option string) (l : Link) : Prop :=
  text l <> "" /\
  (truthy repositoryName = true ->
   exists u, url l = Some u /\ startsWith u "https://" = true).

End ErrorDialog.

(** ** The API client ([ApiClient.request]) *)

Module ApiClient.

Import Vulnerabilities.

(** What [fetch] resolves to for the fix request: [response.ok],
    [response.status], what [response.json()] gives for [detail] when the
    response is not ok (a text, or nothing), and what it gives for the body
    when it is ok. *)
Record HttpResponse : Type := {
  ok : bool;
  http_status : Z;
  errorData_detail : completion (option string);
  json : FixReply
}.

(** [request]: [response] is what [fetch] resolves to, or the error it
    rejects with.  A body that is no JSON counts as [{}]. *)
Definition request (response : completion HttpResponse) : FixReply :=
  match response with
  | Threw message => Threw message
  | Returned r =>
      if negb (ok r)
      then
        let detail :=
          match errorData_detail r with
          | Returned d => d
          | Threw _ => None
          end in
        Threw (or_else detail
                 ("HTTP error! status: " ++ show (http_status r)))
      else json r
  end.

(** The response is a refusal whose body gives no detail. *)
Definition refused_without_detail (r : HttpResponse) : bool :=
  negb (ok r) &&
  match errorData_detail r with
  | Returned d => negb (truthy d)
  | Threw _ => true
  end.

(** [c] occurs in [s]. *)
Definition has_char (c : ascii) (s : string) : bool :=
  existsb (Ascii.eqb c) (String.list_ascii_of_string s).

(** The characters a number is written with. *)
Definition digit_or_minus (c : ascii) : bool :=
  existsb (Ascii.eqb c)
    ["0"%char; "1"%char; "2"%char; "3"%char; "4"%char; "5"%char; "6"%char;
     "7"%char; "8"%char; "9"%char; "-"%char].

End ApiClient.

(** ** The recent-activity hook ([useRecentActivity], local-storage variant) *)

Module RecentActivity.

Inductive ActivityType : Type :=
| type_version | type_security | type_coverage | type_general.
Inductive ActivityStatus : Type := success | warning | error | pending.
Inductive Source : Type := database | local.

Record ActivityItem : Type := {
  act_id : string;
  type : ActivityType;
  title : string;
  description : string;
  timestamp : string;
  status : ActivityStatus;
  repository : option string;
  repository_id : option string;
  source : option Source
}.

(** A scan result as the hook reads it (the source types it [any]): every
    field it looks at, absent fields being [None].  A date string is kept as
    the instant it denotes, in milliseconds. *)
Record ScanResult : Type := {
  sr_id : string;
  scan_type : option string;
  sr_severity : option string;
  coverage_percentage : option Z;
  sr_status : option string;
  created_at : option Z;
  discoveredDate : option Z;
  sr_repository : option string;
  sr_repository_id : option string;
  sr_repositoryId : option string;
  sr_description : option string;
  package : option string;
  package_name : option string;
  technology : option string;
  currentVersion : option string;
  recommended_version : option string;
  targetVersion : option string;
  sr_title : option string
}.

(** An optional string inside a template literal. *)
Definition tmpl (o : option string) : string :=
  match o with
  | Some s => s
  | None => "undefined"
  end.

Definition str_is (o : option string) (s : string) : bool :=
  match o with
  | Some x => String.eqb x s
  | None => false
  end.

(** [n > 1 ? 's' : ''] *)
Definition plural (n : Z) : string := if (1 <? n)%Z then "s" else "".

(** [formatTimeAgo], with the clock reading [now] and the instant [date]. *)
Definition formatTimeAgo (now date : Z) : string :=
  let diffInMinutes := ((now - date) / (1000 * 60))%Z in
  if (diffInMinutes <? 1)%Z then "Just now"
  else if (diffInMinutes <? 60)%Z
  then show diffInMinutes ++ " minute" ++ plural diffInMinutes ++ " ago"
  else
    let diffInHours := (diffInMinutes / 60)%Z in
    if (diffInHours <? 24)%Z
    then show diffInHours ++ " hour" ++ plural diffInHours ++ " ago"
    else
      let diffInDays := (diffInHours / 24)%Z in
      if (diffInDays <? 7)%Z
      then show diffInDays ++ " day" ++ plural diffInDays ++ " ago"
      else
        let diffInWeeks := (diffInDays / 7)%Z in
        show diffInWeeks ++ " week" ++ plural diffInWeeks ++ " ago".

(** [scanResult.coverage_percentage || 0] *)
Definition coverage_of (scanResult : ScanResult) : Z :=
  match coverage_percentage scanResult with
  | Some c => c
  | None => 0
  end.

Definition getStatusFromScanResult (scanResult : ScanResult)
  : ActivityStatus :=
  if str_is (scan_type scanResult) "security" then
    if str_is (sr_severity scanResult) "critical" ||
       str_is (sr_severity scanResult) "high" then error
    else if str_is (sr_severity scanResult) "medium" then warning
    else success
  else if str_is (scan_type scanResult) "coverage" then
    let coverage := coverage_of scanResult in
    if (80 <=? coverage)%Z then success
    else if (70 <=? coverage)%Z then warning
    else error
  else if str_is (scan_type scanResult) "version" then
    if str_is (sr_status scanResult) "open" then warning else success
  else pending.

Section Clock.

(** The clock reading of the pass. *)
Variable now : Z.

(** [new Date(s).getTime()] of the JavaScript engine; [None] is [NaN]. *)
Variable Date_parse : string -> option Z.

(** [repositoryName] is [repository?.name]. *)
Definition generateActivityFromScanResult (scanResult : ScanResult)
    (repositoryName : option string) (src : Source) : ActivityItem :=
  let base_timestamp :=
    formatTimeAgo now
      match created_at scanResult, discoveredDate scanResult with
      | Some d, _ => d
      | None, Some d => d
      | None, None => now
      end in
  let base_repository :=
    or_else repositoryName
      (or_else (sr_repository scanResult) "Unknown Repository") in
  let base_repository_id :=
    or_opt (sr_repository_id scanResult) (sr_repositoryId scanResult) in
  let base_status := getStatusFromScanResult scanResult in
  let kind :=
    or_else (scan_type scanResult)
      (if truthy (sr_severity scanResult) then "security" else "version") in
  if String.eqb kind "security" then
    {| act_id := sr_id scanResult;
       type := type_security;
       title :=
         if str_is (sr_severity scanResult) "critical" ||
            str_is (sr_severity scanResult) "high"
         then "Critical vulnerability detected"
         else "Security issue found";
       description :=
         or_else (sr_description scanResult)
           (tmpl (sr_severity scanResult) ++ " severity vulnerability in " ++
            or_else (package scanResult)
              (or_else (package_name scanResult) "dependencies"));
       timestamp := base_timestamp;
       status := base_status;
       repository := Some base_repository;
       repository_id := base_repository_id;
       source := Some src |}
  else if String.eqb kind "coverage" then
    let coverage := coverage_of scanResult in
    {| act_id := sr_id scanResult;
       type := type_coverage;
       title :=
         if (80 <=? coverage)%Z then "Test coverage improved"
         else "Coverage analysis completed";
       description :=
         "Test coverage is " ++ show coverage ++ "% in " ++
         or_else repositoryName
           (or_else (sr_repository scanResult) "repository");
       timestamp := base_timestamp;
       status := base_status;
       repository := Some base_repository;
       repository_id := base_repository_id;
       source := Some src |}
  else if String.eqb kind "version" then
    {| act_id := sr_id scanResult;
       type := type_version;
       title :=
         if str_is (sr_status scanResult) "open" ||
            str_is (sr_status scanResult) "pending"
         then "Update available"
         else "Version upgrade completed";
       description :=
         if truthy (currentVersion scanResult) &&
            truthy (or_opt (recommended_version scanResult)
                      (targetVersion scanResult))
         then
           or_else (package_name scanResult)
             (or_else (technology scanResult) "Package") ++
           " can be upgraded from " ++ tmpl (currentVersion scanResult) ++
           " to " ++
           tmpl (or_opt (recommended_version scanResult)
                   (targetVersion scanResult))
         else
           or_else (sr_description scanResult)
             (or_else (technology scanResult) "Package" ++
              " upgrade available");
       timestamp := base_timestamp;
       status := base_status;
       repository := Some base_repository;
       repository_id := base_repository_id;
       source := Some src |}
  else
    {| act_id := sr_id scanResult;
       type := type_general;
       title := or_else (sr_title scanResult) "Scan completed";
       description :=
         or_else (sr_description scanResult) "General scan activity";
       timestamp := base_timestamp;
       status := base_status;
       repository := Some base_repository;
       repository_id := base_repository_id;
       source := Some src |}.

(** An entry of [scannedUpgrades] in local storage. *)
Record Upgrade : Type := {
  up_repository : option string;
  up_repositoryId : option string;
  up_technology : option string;
  up_currentVersion : option string;
  up_targetVersion : option string;
  up_status : option string
}.

(** Local storage: a key is absent ([None]), or holds JSON that parses
    ([Returned]) or makes [JSON.parse] throw ([Threw]). *)
Record LocalStorage : Type := {
  scannedVulnerabilities : option (completion (list ScanResult));
  scannedUpgrades : option (completion (list Upgrade))
}.

Definition upgrade_scan_result (upgrade : Upgrade) : ScanResult :=
  {| sr_id := "upgrade-" ++ tmpl (up_repositoryId upgrade) ++ "-" ++
              tmpl (up_technology upgrade);
     scan_type := Some "version";
     sr_severity := None;
     coverage_percentage := None;
     sr_status := up_status upgrade;
     created_at := Some now;
     discoveredDate := None;
     sr_repository := None;
     sr_repository_id := up_repositoryId upgrade;
     sr_repositoryId := None;
     sr_description := None;
     package := None;
     package_name := None;
     technology := up_technology upgrade;
     currentVersion := up_currentVersion upgrade;
     recommended_version := None;
     targetVersion := up_targetVersion upgrade;
     sr_title := None |}.

Definition loadPersistedData (ls : LocalStorage) : list ActivityItem :=
  match scannedVulnerabilities ls with
  | Some (Threw _) => []
  | savedVulnerabilities =>
      let vulnerabilities :=
        match savedVulnerabilities with
        | Some (Returned l) => l
        | _ => []
        end in
      match scannedUpgrades ls with
      | Some (Threw _) => []
      | savedUpgrades =>
          let upgrades :=
            match savedUpgrades with
            | Some (Returned l) => l
            | _ => []
            end in
          let vulnerabilityActivities :=
            List.map (fun vuln =>
              generateActivityFromScanResult vuln (sr_repository vuln) local)
              vulnerabilities in
          let upgradeActivities :=
            List.map (fun upgrade =>
              generateActivityFromScanResult (upgrade_scan_result upgrade)
                (up_repository upgrade) local) upgrades in
          (vulnerabilityActivities ++ upgradeActivities)%list
      end
  end.

(** One turn of the [reduce] that removes duplicates. *)
Definition dedupe_step (acc : list ActivityItem) (activity : ActivityItem)
  : list ActivityItem :=
  match list_find (fun a => act_id a = act_id activity) acc with
  | None => (acc ++ [activity])%list
  | Some (index, existing) =>
      match source activity, source existing with
      | Some database, Some local => <[index := activity]> acc
      | _, _ => acc
      end
  end.

Definition uniqueActivities (allActivities : list ActivityItem)
  : list ActivityItem :=
  fold_left dedupe_step allActivities [].

(** The number the comparator works with:
    [new Date(t.includes('ago') ? Date.now() : t).getTime()].  The source
    reads the clock once for each operand; here both operands get the
    reading [now], the clock does not advance during a sort. *)
Definition time_of (t : string) : option Z :=
  if includes t "ago" then Some now else Date_parse t.

(** The comparator [timeB - timeA]; [None] is [NaN]. *)
Definition compareFn (a b : ActivityItem) : option Z :=
  match time_of (timestamp a), time_of (timestamp b) with
  | Some timeA, Some timeB => Some (timeB - timeA)%Z
  | _, _ => None
  end.

(** [compareFn a b > 0]: [a] has to come after [b].  [NaN] counts as [0]. *)
Definition after (a b : ActivityItem) : bool :=
  match compareFn a b with
  | Some d => (0 <? d)%Z
  | None => false
  end.

(** [Array.prototype.sort] is stable; it is modelled by insertion. *)
Fixpoint insert_sorted (x : ActivityItem) (l : list ActivityItem)
  : list ActivityItem :=
  match l with
  | [] => [x]
  | y :: rest => if after x y then y :: insert_sorted x rest else x :: l
  end.

Definition sort (l : list ActivityItem) : list ActivityItem :=
  foldr insert_sorted [] l.

(** [uniqueActivities.sort(...).slice(0, 20)] *)
Definition sortedActivities (unique : list ActivityItem)
  : list ActivityItem :=
  take 20 (sort unique).

(** The state the hook returns. *)
Record Hook : Type := {
  activities : list ActivityItem;
  loading : bool;
  hook_error : option string
}.

(** The answer of the [scan_results] query: its rows, each with the name of
    the joined repository, and its error. *)
Record QueryAnswer : Type := {
  data : option (list (ScanResult * option string));
  scanError : option string
}.

Definition sample_activity : ActivityItem :=
  {| act_id := "sample-1";
     type := type_general;
     title := "Welcome to TechMandates";
     description :=
       "Connect repositories and run scans to see recent activity here";
     timestamp := "Just now";
     status := pending;
     repository := Some "Getting Started";
     repository_id := None;
     source := Some local |}.

(** The [catch] block of [fetchRecentActivity]. *)
Definition fetch_catch (ls : LocalStorage) : Hook :=
  let persistedActivities := loadPersistedData ls in
  {| activities :=
       match persistedActivities with
       | [] => [sample_activity]
       | _ => take 20 persistedActivities
       end;
     loading := false;
     hook_error := Some "Failed to fetch recent activity" |}.

(** [fetchRecentActivity]: [user] is the signed-in user's id, [reply] what
    the query answers, [h] the state before the pass. *)
Definition fetchRecentActivity (user : option string) (ls : LocalStorage)
    (reply : completion QueryAnswer) (h : Hook) : Hook :=
  match user with
  | None =>
      {| activities := take 20 (loadPersistedData ls);
         loading := false;
         hook_error := hook_error h |}
  | Some _ =>
      let persistedActivities := loadPersistedData ls in
      match reply with
      | Returned {| data := scanResults; scanError := None |} =>
          let databaseActivities :=
            List.map (fun row =>
              generateActivityFromScanResult (fst row) (snd row) database)
              (match scanResults with Some l => l | None => [] end) in
          let allActivities :=
            (persistedActivities ++ databaseActivities)%list in
          {| activities := sortedActivities (uniqueActivities allActivities);
             loading := false;
             hook_error := None |}
      | Returned {| scanError := Some _ |} | Threw _ => fetch_catch ls
      end
  end.

End Clock.

(** The feed length of the hook. *)
Definition feed_length : nat := 20.

End RecentActivity.

(** ** The version scan ([ScanUpdatesModal]) *)

Module ScanUpdates.

Import Vulnerabilities.

(** The catalog of known versions, latest first. *)
Definition technologyVersions : list (string * list string) :=
  [ ("Java", ["21.0.2"; "21.0.1"; "21.0.0"; "17.0.9"; "17.0.8"; "17.0.7";
              "17.0.6"; "17.0.5"; "11.0.21"; "11.0.20"; "11.0.19"; "8u392";
              "8u382"; "8u372"]);
    ("Angular", ["18"; "17"; "16"; "15"]);
    ("Python", ["3.12"; "3.11"; "3.10"; "3.9"]);
    ("TypeScript", ["5.3"; "5.2"; "5.1"; "5.0"; "4.9"]);
    ("Node.js", ["20"; "18"; "16"; "14"]);
    ("React", ["18"; "17"; "16"]);
    ("Vue.js", ["3.4"; "3.3"; "3.2"]);
    ("Next.js", ["14"; "13"; "12"]);
    ("Nuxt", ["3.8"; "3.7"; "3.6"]);
    ("Express", ["4.18"; "4.17"]);
    ("NestJS", ["10"; "9"; "8"]);
    ("Django", ["4.2"; "4.1"; "3.2"]);
    ("Flask", ["2.3"; "2.2"; "2.1"]);
    ("Spring Boot", ["3.2"; "3.1"; "3.0"; "2.7"]);
    (".NET", ["8.0"; "7.0"; "6.0"]);
    ("Go", ["1.21"; "1.20"; "1.19"]);
    ("Rust", ["1.75"; "1.74"; "1.73"]);
    ("PHP", ["8.3"; "8.2"; "8.1"; "8.0"]);
    ("Laravel", ["10"; "9"; "8"]);
    ("Ruby", ["3.2"; "3.1"; "3.0"]);
    ("Ruby on Rails", ["7.1"; "7.0"; "6.1"]) ].

Definition relevantTechnologies : list string :=
  ["Java"; "Angular"; "Python"; "TypeScript"; "Node.js"; "React"].

(** [technologyVersions[tech] || []] *)
Definition versions_of (tech : string) : list string :=
  match List.find (fun kv => String.eqb (fst kv) tech) technologyVersions with
  | Some kv => snd kv
  | None => []
  end.

(** [versions[0] || ""] *)
Definition latest_of (versions : list string) : string :=
  match versions with
  | v :: _ => v
  | [] => ""
  end.

(** [versions.includes(v)] *)
Definition version_in (v : string) (versions : list string) : bool :=
  existsb (String.eqb v) versions.

Record Technology : Type := {
  name : string;
  currentVersion : option string;
  availableVersions : list string;
  latestVersion : string;
  needsUpdate : bool
}.

Record RepositoryUpdate : Type := {
  repository : Repository;
  technologies : list Technology;
  isScanning : bool;
  scanned : bool
}.

Definition initializeScan (repositories : list Repository)
  : list RepositoryUpdate :=
  List.map (fun repo =>
    {| repository := repo;
       technologies :=
         List.map (fun tech =>
           {| name := tech;
              currentVersion := None;
              availableVersions := versions_of tech;
              latestVersion := latest_of (versions_of tech);
              needsUpdate := false |}) relevantTechnologies;
       isScanning := false;
       scanned := false |}) repositories.

(** The answer of the [detect-current-version] function. *)
Record DetectData : Type := {
  det_success : bool;
  det_currentVersion : option string
}.

Record DetectAnswer : Type := {
  det_data : option DetectData;
  det_error : option string
}.

(** [!error && data?.success && data.currentVersion]: the detected version
    when the guard passes. *)
Definition detected (reply : completion DetectAnswer) : option string :=
  match reply with
  | Returned {| det_data := Some d; det_error := None |} =>
      if det_success d && truthy (det_currentVersion d)
      then det_currentVersion d
      else None
  | _ => None
  end.

(** [currentVersion !== latestVersion &&
     availableVersions.includes(currentVersion)] *)
Definition needs_update (technology currentVersion : string) : bool :=
  let availableVersions := versions_of technology in
  let latestVersion := latest_of availableVersions in
  negb (String.eqb currentVersion latestVersion) &&
  version_in currentVersion availableVersions.

(** The state update after one detection. *)
Definition record_detection (repoIndex : nat) (technology : string)
    (reply : completion DetectAnswer) (prev : list RepositoryUpdate)
  : list RepositoryUpdate :=
  match detected reply with
  | Some currentVersion =>
      let needsUpdate := needs_update technology currentVersion in
      imap (fun index item =>
        if Nat.eqb index repoIndex
        then
          {| repository := repository item;
             technologies :=
               List.map (fun tech =>
                 if String.eqb (name tech) technology
                 then {| name := name tech;
                         currentVersion := Some currentVersion;
                         availableVersions := availableVersions tech;
                         latestVersion := latestVersion tech;
                         needsUpdate := needsUpdate |}
                 else tech) (technologies item);
             isScanning := isScanning item;
             scanned := scanned item |}
        else item) prev
  | None => prev
  end.

Definition set_scanning (repoIndex : nat) (prev : list RepositoryUpdate)
  : list RepositoryUpdate :=
  imap (fun index item =>
    if Nat.eqb index repoIndex
    then {| repository := repository item;
            technologies := technologies item;
            isScanning := true;
            scanned := scanned item |}
    else item) prev.

Definition set_scanned (repoIndex : nat) (prev : list RepositoryUpdate)
  : list RepositoryUpdate :=
  imap (fun index item =>
    if Nat.eqb index repoIndex
    then {| repository := repository item;
            technologies := technologies item;
            isScanning := false;
            scanned := true |}
    else item) prev.

(** What the detection function answers for a repository (by its place in
    [repositories]) and a technology. *)
Definition Detector : Type := nat -> Repository -> string ->
                              completion DetectAnswer.

(** The body of the outer loop for one repository. *)
Definition scan_repository (detect : Detector) (prev : list RepositoryUpdate)
    (indexed : nat * Repository) : list RepositoryUpdate :=
  let '(repoIndex, repo) := indexed in
  set_scanned repoIndex
    (fold_left (fun st technology =>
                  record_detection repoIndex technology
                    (detect repoIndex repo technology) st)
       relevantTechnologies (set_scanning repoIndex prev)).

Definition getPriorityForTechnology (technology : string) : string :=
  if existsb (String.eqb technology) ["Java"; "Spring Boot"; ".NET"]
  then "high"
  else if existsb (String.eqb technology)
            ["Angular"; "React"; "Vue.js"; "Next.js"]
  then "medium"
  else "low".

Record UpgradeResult : Type := {
  ur_repository : string;
  ur_repositoryId : string;
  ur_platform : string;
  ur_technology : string;
  ur_currentVersion : string;
  ur_targetVersion : string;
  ur_status : string;
  ur_priority : string
}.

(** The results built for the parent component out of a state. *)
Definition upgradeResults (repositoryUpdates : list RepositoryUpdate)
  : list UpgradeResult :=
  flat_map (fun repoUpdate =>
    flat_map (fun tech =>
      match currentVersion tech with
      | Some v =>
          if needsUpdate tech && truthy (Some v)
          then [ {| ur_repository := repo_name (repository repoUpdate);
                    ur_repositoryId := repo_id (repository repoUpdate);
                    ur_platform := "GitHub";
                    ur_technology := name tech;
                    ur_currentVersion := v;
                    ur_targetVersion := latestVersion tech;
                    ur_status := "pending";
                    ur_priority := getPriorityForTechnology (name tech) |} ]
          else []
      | None => []
      end) (technologies repoUpdate)) repositoryUpdates.

(** The modal: the state cell and the scanning flag. *)
Record Modal : Type := {
  repositoryUpdates : list RepositoryUpdate;
  modal_isScanning : bool
}.

(** [scanAllRepositories]: the state after the scan and what is handed to
    [onScanResults].  The handler reads [repositoryUpdates] of the render it
    was created in, so the results are built from the state the scan
    started with.  The progress percentage is not part of the model. *)
Definition scanAllRepositories (repositories : list Repository)
    (detect : Detector) (m : Modal) : Modal * option (list UpgradeResult) :=
  if modal_isScanning m then (m, None)
  else
    let final :=
      fold_left (scan_repository detect)
        (imap (fun i repo => (i, repo)) repositories)
        (repositoryUpdates m) in
    ({| repositoryUpdates := final; modal_isScanning := false |},
     Some (upgradeResults (repositoryUpdates m))).

(** The modal is opened on [repositories], then scans are started one after
    the other, each with its own answers of the detection function. *)
Definition opened (repositories : list Repository) : Modal :=
  {| repositoryUpdates := initializeScan repositories;
     modal_isScanning := false |}.

Definition after_scans (repositories : list Repository)
    (scans : list Detector) : Modal :=
  fold_left (fun m detect => fst (scanAllRepositories repositories detect m))
    scans (opened repositories).

End ScanUpdates.

(** ** The bulk fix function ([improve-coverage]) *)

Module ImproveCoverage.

Record Repo : Type := {
  id : string;
  name : string;
  full_name : string;
  language : string;
  currentCoverage : Z
}.

(** An entry of [results]. *)
Record Result : Type := {
  repositoryId : string;
  success : bool;
  error : option string;
  branchName : option string;
  pullRequestUrl : option string;
  pullRequestNumber : option Z;
  suggestedTests : option nat;
  estimatedCoverage : option Z
}.

Definition failed (repo : Repo) (message : string) : Result :=
  {| repositoryId := id repo; success := false; error := Some message;
     branchName := None; pullRequestUrl := None; pullRequestNumber := None;
     suggestedTests := None; estimatedCoverage := None |}.

Record TestFile : Type := {
  path : string;
  component : string;
  content : string
}.

(** The reply to the first request: [repoResponse.ok] and what
    [repoResponse.json()] gives for [default_branch]. *)
Record RepoResponse : Type := {
  repo_ok : bool;
  default_branch : completion string
}.

(** The reply to the pull request: [prResponse.ok] and what
    [prResponse.json()] gives for [html_url] and [number]. *)
Record PrResponse : Type := {
  pr_ok : bool;
  pr_data : completion (string * Z)
}.

(** What GitHub, the clock and the random generator answer while one
    repository is processed.  Each request may throw.  [get_base_sha] stands
    for the request of the default branch's ref, its [json()] and the read
    of [object.sha]; [create_branch] for the request that creates the ref,
    whose response the code does not look at; [generateTestFiles] and
    [createOrUpdateFile] for the two helpers, which only talk to GitHub. *)
Record GitHub : Type := {
  get_repo : completion RepoResponse;
  date_now : Z;
  get_base_sha : string -> completion string;
  create_branch : string -> string -> completion unit;
  generateTestFiles : completion (list TestFile);
  createOrUpdateFile : TestFile -> string -> completion unit;
  create_pull_request : string -> string -> completion PrResponse;
  random_bonus : Z
}.

(** Statements of the loop body: they read and extend [results] and may
    throw; what was pushed before a throw stays pushed. *)
Definition Stmt (A : Type) : Type :=
  list Result -> completion A * list Result.

Definition ret {A} (a : A) : Stmt A := fun results => (Returned a, results).

Definition bind {A B} (m : Stmt A) (k : A -> Stmt B) : Stmt B :=
  fun results =>
    match m results with
    | (Returned a, results') => k a results'
    | (Threw message, results') => (Threw message, results')
    end.

Notation "'let*' x := m 'in' k" := (bind m (fun x => k))
  (at level 10, x name, m at level 100, k at level 200,
   format "'[v' 'let*'  x  :=  m  'in' '/' k ']'").

(** [await] on a request. *)
Definition await {A} (c : completion A) : Stmt A := fun results => (c, results).

(** [results.push(r)] *)
Definition push (r : Result) : Stmt unit :=
  fun results => (Returned tt, (results ++ [r])%list).

(** [try { body } catch (error) { handler(error.message) }] *)
Definition try_catch (body : Stmt unit) (handler : string -> Stmt unit)
  : Stmt unit :=
  fun results =>
    match body results with
    | (Returned tt, results') => (Returned tt, results')
    | (Threw message, results') => handler message results'
    end.

(** [for (const testFile of testFiles) await createOrUpdateFile(...)] *)
Fixpoint upload_all (gh : GitHub) (branch : string) (testFiles : list TestFile)
  : Stmt unit :=
  match testFiles with
  | [] => ret tt
  | testFile :: rest =>
      let* _ := await (createOrUpdateFile gh testFile branch) in
      upload_all gh branch rest
  end.

(** Whether the uploads of a repository's test files go through. *)
Definition uploaded (gh : GitHub) (branch : string)
    (testFiles : list TestFile) : completion unit :=
  fst (upload_all gh branch testFiles []).

(** [Math.min(repo.currentCoverage + 15 + Math.floor(Math.random() * 15),
    95)] *)
Definition estimate (gh : GitHub) (repo : Repo) : Z :=
  Z.min (currentCoverage repo + 15 + random_bonus gh) 95.

(** The body of [for (const repo of repositories)]. *)
Definition process (gh : GitHub) (repo : Repo) : Stmt unit :=
  try_catch
    (let* repoResponse := await (get_repo gh) in
     if negb (repo_ok repoResponse)
     then push (failed repo "Failed to access repository") (* continue *)
     else
       let* defaultBranch := await (default_branch repoResponse) in
       let branch := "improve-coverage-" ++ show (date_now gh) in
       let* baseSha := await (get_base_sha gh defaultBranch) in
       let* _ := await (create_branch gh branch baseSha) in
       let* testFiles := await (generateTestFiles gh) in
       let* _ := upload_all gh branch testFiles in
       let* prResponse :=
         await (create_pull_request gh branch defaultBranch) in
       if pr_ok prResponse
       then
         let* prData := await (pr_data prResponse) in
         push {| repositoryId := id repo;
                 success := true;
                 error := None;
                 branchName := Some branch;
                 pullRequestUrl := Some (fst prData);
                 pullRequestNumber := Some (snd prData);
                 suggestedTests := Some (length testFiles);
                 estimatedCoverage := Some (estimate gh repo) |}
       else push (failed repo "Failed to create pull request"))
    (fun message => push (failed repo message)).

(** The loop over the request's repositories; [world i] is what the outside
    answers while the [i]-th repository is processed.  A statement of the
    body never leaves the loop: what [process] returns is dropped. *)
Fixpoint process_all (world : nat -> GitHub) (i : nat)
    (repositories : list Repo) (results : list Result) : list Result :=
  match repositories with
  | [] => results
  | repo :: rest =>
      process_all world (S i) rest (snd (process (world i) repo results))
  end.

(** The response of the function. *)
Inductive Response : Type :=
| Cors
| BadRequest (message : string)
| ServerError (message : string)
| Ok (results : list Result).

(** [serve]: [body] is what [req.json()] gives for [repositories] (or the
    error it throws), [githubToken] the environment's token. *)
Definition serve (method : string)
    (body : completion (option (list Repo))) (githubToken : option string)
    (world : nat -> GitHub) : Response :=
  if String.eqb method "OPTIONS" then Cors
  else
    match body with
    | Threw _ => ServerError "Internal server error"
    | Returned None | Returned (Some []) =>
        BadRequest "No repositories provided"
    | Returned (Some repositories) =>
        if truthy githubToken
        then Ok (process_all world 0 repositories [])
        else ServerError "GitHub token not configured"
    end.

(** What processing [repo] on its own leaves in [results]. *)
Definition alone (gh : GitHub) (repo : Repo) : list Result :=
  snd (process gh repo []).

End ImproveCoverage.

(** ** Vocabulary of the statements, and the data of the examples *)

Module Scenario.

Import Vulnerabilities.

(** The findings a repository's scan contributes to the batch. *)
Definition batch_of (repositories : list Repository)
    (scan : Repository -> ScanReply) (rid : string) : list Vulnerability :=
  match find_repo repositories rid with
  | Some repo =>
      match scan repo with
      | Returned (Some {| scan_success := true;
                          scan_vulnerabilities := Some vulns |}) =>
          List.map (tag_with_repo repo) vulns
      | _ => []
      end
  | None => []
  end.

(** [f] is a finding of another repository or of another advisory: its
    natural key differs from [vuln]'s. *)
Definition other_finding (vuln f : Vulnerability) : Prop :=
  vuln_id f <> vuln_id vuln \/ repositoryId f <> repositoryId vuln.

(** How many requests for the finding [fid] wait for their answer. *)
Definition pending_requests (s : Session) (fid : string) : nat :=
  length (filter (fun v => vuln_id v = fid) (in_flight s)).

Definition finding (fid rid st : string) : Vulnerability :=
  {| vuln_id := fid;
     title := "SQL Injection vulnerability in Spring Security";
     severity := "critical";
     cvss := 98;
     repository := rid;
     repositoryId := rid;
     platform := "GitHub";
     package := "spring-security-core";
     version := "5.7.2";
     fixedIn := "6.1.0";
     status := st;
     discoveredDate := "2024-08-04";
     description :=
       "Authentication bypass through SQL injection in login endpoint" |}.

Definition repo (rid : string) : Repository :=
  {| repo_id := rid; repo_name := rid;
     full_name := "acme/" ++ rid; language := Some "Java" |}.

Definition closed_dialog : ErrorDialogState :=
  {| dialog_open := false; dialog_error := "";
     dialog_repositoryName := None |}.

Definition page_with (l : list Vulnerability) : Page :=
  {| scannedVulnerabilities := l;
     isFixingVulnerability := None;
     errorDialog := closed_dialog;
     toasts := [] |}.

Definition session_with (l : list Vulnerability) : Session :=
  {| page := page_with l; in_flight := [] |}.

(** The collaborator answers with pull request 42. *)
Definition pr42 : FixReply :=
  Returned
    {| fix_data :=
         Some {| fix_success := true; pullRequestNumber := 42;
                 pullRequestUrl := "https://github.com/acme/widgets/pull/42" |};
       fix_error := None |}.

(** The collaborator refuses for lack of write access. *)
Definition forbidden : FixReply :=
  Threw "Failed to create branch: Forbidden".

(** The service refuses with the status [n] and a body without detail. *)
Definition refusal (n : Z) : ApiClient.HttpResponse :=
  {| ApiClient.ok := false;
     ApiClient.http_status := n;
     ApiClient.errorData_detail := Returned None;
     ApiClient.json := Threw "Unexpected end of JSON input" |}.

(** A scanner that finds [found] in the repository [rid] and fails on every
    other one. *)
Definition scanner (rid : string) (found : list Vulnerability)
  : Repository -> ScanReply :=
  fun r =>
    if String.eqb (repo_id r) rid
    then Returned (Some {| scan_success := true;
                           scan_vulnerabilities := Some found |})
    else Threw "HTTP error! status: 500".

End Scenario.

Module FeedScenario.

Import RecentActivity.

Definition has_id (k : string) (a : ActivityItem) : bool :=
  String.eqb (act_id a) k.

Definition from_database (a : ActivityItem) : bool :=
  match source a with
  | Some database => true
  | _ => false
  end.

Definition from_local (a : ActivityItem) : bool :=
  match source a with
  | Some local => true
  | _ => false
  end.

(** The entry that stands for the id [k] after duplicates are removed from
    [l]: the first entry with that id, unless it is a local one and a
    database entry with the id exists, which then takes its place. *)
Definition winner (k : string) (l : list ActivityItem)
  : option ActivityItem :=
  match List.find (has_id k) l with
  | None => None
  | Some first =>
      if from_local first
      then match List.find (fun a => has_id k a && from_database a) l with
           | Some d => Some d
           | None => Some first
           end
      else Some first
  end.

(** [ks.includes(k)] *)
Definition mem_ids (k : string) (ks : list string) : bool :=
  existsb (String.eqb k) ks.

(** The ids of [ks] without repetition, each at its first place. *)
Fixpoint first_ids (ks : list string) : list string :=
  match ks with
  | [] => []
  | k :: rest =>
      k :: List.filter (fun k' => negb (String.eqb k' k)) (first_ids rest)
  end.

(** What holds of the list [u] kept after the entries [l] were read. *)
Record deduplicated (l u : list ActivityItem) : Prop := {
  one_per_id : NoDup (List.map act_id u);
  winners : forall a, In a u -> winner (act_id a) l = Some a;
  all_ids : forall a, In a l -> In (act_id a) (List.map act_id u)
}.

(** The query did not deliver: it threw, or answered with an error. *)
Definition query_failed (reply : completion QueryAnswer) : bool :=
  match reply with
  | Returned {| scanError := None |} => false
  | _ => true
  end.

(** The order the specification asks of two neighbours of the feed:
    later discovery first, equal discovery times by id. *)
Definition in_feed_order (discoveredAt : string -> Z) (a b : ActivityItem)
  : Prop :=
  (discoveredAt (act_id b) < discoveredAt (act_id a))%Z \/
  (discoveredAt (act_id a) = discoveredAt (act_id b) /\
   String.leb (act_id a) (act_id b) = true).

(** A clock reading, in milliseconds. *)
Definition noon : Z := 1722772800000.

(** A security scan result with the id [k], created at [t]. *)
Definition row (k : string) (t : Z) : ScanResult :=
  {| sr_id := k;
     scan_type := Some "security";
     sr_severity := Some "high";
     coverage_percentage := None;
     sr_status := Some "open";
     created_at := Some t;
     discoveredDate := None;
     sr_repository := None;
     sr_repository_id := Some "r1";
     sr_repositoryId := None;
     sr_description := Some "Remote code execution through unsafe deserialization";
     package := Some "jackson-databind";
     package_name := None;
     technology := None;
     currentVersion := None;
     recommended_version := None;
     targetVersion := None;
     sr_title := None |}.

Definition empty_storage : LocalStorage :=
  {| scannedVulnerabilities := None; scannedUpgrades := None |}.

Definition idle (feed : list ActivityItem) : Hook :=
  {| activities := feed; loading := false; hook_error := None |}.

(** An engine that parses no string as a date. *)
Definition no_date : string -> option Z := fun _ => None.

End FeedScenario.

Module CoverageScenario.

Import ImproveCoverage.

Definition widgets : Repo :=
  {| id := "r1"; name := "widgets"; full_name := "acme/widgets";
     language := "Java"; currentCoverage := 60 |}.

Definition gadgets : Repo :=
  {| id := "r2"; name := "gadgets"; full_name := "acme/gadgets";
     language := "Python"; currentCoverage := 72 |}.

(** GitHub answers every request, the pull request gets number [n]. *)
Definition cooperative (n : Z) : GitHub :=
  {| get_repo := Returned {| repo_ok := true;
                             default_branch := Returned "main" |};
     date_now := 1722772800000;
     get_base_sha := fun _ => Returned "3f1c2ab";
     create_branch := fun _ _ => Returned tt;
     generateTestFiles :=
       Returned [ {| path := "src/test/java/MainTest.java";
                     component := "Main class";
                     content := "import org.junit.jupiter.api.Test;" |} ];
     createOrUpdateFile := fun _ _ => Returned tt;
     create_pull_request := fun _ _ =>
       Returned {| pr_ok := true;
                   pr_data :=
                     Returned ("https://github.com/acme/gadgets/pull/7", n) |};
     random_bonus := 4 |}.

(** The network fails on the first request. *)
Definition unreachable : GitHub :=
  {| get_repo := Threw "error sending request";
     date_now := 1722772800000;
     get_base_sha := fun _ => Threw "error sending request";
     create_branch := fun _ _ => Threw "error sending request";
     generateTestFiles := Threw "error sending request";
     createOrUpdateFile := fun _ _ => Threw "error sending request";
     create_pull_request := fun _ _ => Threw "error sending request";
     random_bonus := 0 |}.

(** The first repository cannot be reached, the second one can. *)
Definition first_fails : nat -> GitHub :=
  fun i => match i with O => unreachable | _ => cooperative 7 end.

End CoverageScenario.

Module VersionScenario.

Import Vulnerabilities ScanUpdates.

(** The detected version of [tech] is a catalog version of the technology
    other than the first, latest one. *)
Definition behind_latest (tech : Technology) : Prop :=
  exists v, currentVersion tech = Some v /\
            In v (versions_of (name tech)) /\
            v <> latest_of (versions_of (name tech)).

(** What every row of the modal's state satisfies. *)
Definition consistent (tech : Technology) : Prop :=
  availableVersions tech = versions_of (name tech) /\
  latestVersion tech = latest_of (versions_of (name tech)) /\
  needsUpdate tech =
    match currentVersion tech with
    | Some v => needs_update (name tech) v
    | None => false
    end.

Definition all_consistent (st : list RepositoryUpdate) : Prop :=
  Forall (fun repoUpdate => Forall consistent (technologies repoUpdate)) st.

(** An upgrade result names a catalog version that is not the latest one,
    and targets the latest one. *)
Definition sound_result (r : UpgradeResult) : Prop :=
  In (ur_currentVersion r) (versions_of (ur_technology r)) /\
  ur_currentVersion r <> ur_targetVersion r /\
  ur_targetVersion r = latest_of (versions_of (ur_technology r)).

Definition widgets : Repository :=
  {| repo_id := "r1"; repo_name := "widgets";
     full_name := "acme/widgets"; language := Some "Java" |}.

Definition answers (v : string) : completion DetectAnswer :=
  Returned {| det_data := Some {| det_success := true;
                                   det_currentVersion := Some v |};
              det_error := None |}.

(** Java 17.0.9 (in the catalog, not the latest), Angular 19 (not in the
    catalog), Python 3.12 (the latest); nothing else is detected. *)
Definition detector : Detector :=
  fun _ _ technology =>
    if String.eqb technology "Java" then answers "17.0.9"
    else if String.eqb technology "Angular" then answers "19"
    else if String.eqb technology "Python" then answers "3.12"
    else Threw "detection failed".

End VersionScenario.

(** ** The metrics of the Vulnerabilities page *)

Module SecurityMetrics.

Import Vulnerabilities.

(** A metric's value is a number or a text. *)
Inductive Value : Type :=
| Num (n : Z)
| Str (s : string).

(** A card of the metrics row (without its icon). *)
Record Metric : Type := {
  m_title : string;
  m_value : Value;
  m_description : string;
  m_variant : string;
  m_trend : option (Z * string)
}.

(** [scannedVulnerabilities.filter(v => v.severity === s).length] *)
Definition count_severity (s : string) (l : list Vulnerability) : Z :=
  Z.of_nat (length (List.filter (fun v => String.eqb (severity v) s) l)).

(** The [score] of [calculateSecurityMetrics]. *)
Definition securityScore (l : list Vulnerability) : Z :=
  let critical := count_severity "critical" l in
  let high := count_severity "high" l in
  let medium := count_severity "medium" l in
  let low := count_severity "low" l in
  let score := 100%Z in
  let score := (score - critical * 30)%Z in
  let score := (score - high * 15)%Z in
  let score := (score - medium * 5)%Z in
  let score := (score - low * 1)%Z in
  Z.max 0 score.

Definition getScoreGrade (score : Z) : string :=
  if (90 <=? score)%Z then "A+"
  else if (80 <=? score)%Z then "A"
  else if (70 <=? score)%Z then "B+"
  else if (60 <=? score)%Z then "B"
  else if (50 <=? score)%Z then "C+"
  else if (40 <=? score)%Z then "C"
  else if (30 <=? score)%Z then "D"
  else "F".

Definition no_data (t : string) (v : Value) (d : string) : Metric :=
  {| m_title := t; m_value := v; m_description := d;
     m_variant := "secondary"; m_trend := None |}.

Definition calculateSecurityMetrics (l : list Vulnerability) : list Metric :=
  match l with
  | [] =>
      [ no_data "Critical Issues" (Num 0)
          "No scan data available - run scan to see vulnerabilities";
        no_data "High Priority" (Num 0)
          "No scan data available - run scan to see vulnerabilities";
        no_data "Medium/Low" (Num 0)
          "No scan data available - run scan to see vulnerabilities";
        no_data "Security Score" (Str "N/A") "Run scan to calculate score" ]
  | _ =>
      let critical := count_severity "critical" l in
      let high := count_severity "high" l in
      let medium := count_severity "medium" l in
      let low := count_severity "low" l in
      let score := securityScore l in
      [ {| m_title := "Critical Issues";
           m_value := Num critical;
           m_description :=
             if (0 <? critical)%Z then "Require immediate attention"
             else "No critical issues found";
           m_variant := if (0 <? critical)%Z then "destructive" else "success";
           m_trend :=
             if (0 <? critical)%Z then None else Some (100%Z, "improvement") |};
        {| m_title := "High Priority";
           m_value := Num high;
           m_description :=
             if (0 <? high)%Z then "Fix within 7 days"
             else "No high priority issues";
           m_variant := if (0 <? high)%Z then "warning" else "success";
           m_trend :=
             if (0 <? high)%Z then None else Some (50%Z, "improvement") |};
        {| m_title := "Medium/Low";
           m_value := Num (medium + low);
           m_description :=
             if (0 <? medium + low)%Z then "Schedule for next sprint"
             else "No medium/low issues";
           m_variant := if (0 <? medium + low)%Z then "secondary" else "success";
           m_trend :=
             if (0 <? medium + low)%Z then None
             else Some (25%Z, "improvement") |};
        {| m_title := "Security Score";
           m_value := Str (getScoreGrade score);
           m_description := show score ++ "/100 - Overall security rating";
           m_variant :=
             if (70 <=? score)%Z then "success"
             else if (50 <=? score)%Z then "warning"
             else "destructive";
           m_trend :=
             if (70 <=? score)%Z then Some (25%Z, "improvement") else None |} ]
  end.

(** The place of a grade on the scale, best first. *)
Definition grade_rank (g : string) : nat :=
  if String.eqb g "A+" then 0
  else if String.eqb g "A" then 1
  else if String.eqb g "B+" then 2
  else if String.eqb g "B" then 3
  else if String.eqb g "C+" then 4
  else if String.eqb g "C" then 5
  else if String.eqb g "D" then 6
  else 7.

(** [vulnerabilities.filter(v => v.status !== 'resolved').length], the
    number on the "active" badge. *)
Definition active_count (l : list Vulnerability) : nat :=
  length (List.filter (fun v => negb (String.eqb (status v) "resolved")) l).

End SecurityMetrics.

(** ** The selection and the progress list of the security scan modal *)

Module ScanModal.

Import Vulnerabilities.

(** [prev.includes(repositoryId)] *)
Definition selected_in (prev : list string) (repositoryId : string) : bool :=
  existsb (String.eqb repositoryId) prev.

(** [handleRepositoryToggle] *)
Definition handleRepositoryToggle (repositoryId : string) (prev : list string)
  : list string :=
  if selected_in prev repositoryId
  then List.filter (fun i => negb (String.eqb i repositoryId)) prev
  else (prev ++ [repositoryId])%list.

Definition selectAllRepositories (repositories : list Repository)
  : list string :=
  List.map repo_id repositories.

Definition deselectAllRepositories : list string := [].



(** What the modal shows for a repository: "Waiting", the spinner, or the
    badge with the number of issues. *)
Inductive Shown : Type :=
| Waiting
| Scanning
| Complete (issues : nat)
| ScanningAndComplete (issues : nat).

Definition shown (item : ScanProgress) : Shown :=
  match sp_isScanning item, sp_isComplete item with
  | false, false => Waiting
  | true, false => Scanning
  | false, true => Complete (sp_vulnerabilitiesFound item)
  | true, true => ScanningAndComplete (sp_vulnerabilitiesFound item)
  end.



End ScanModal.

(** ** Vocabulary for runs of the fix workflow *)

Module FixRuns.

Import Vulnerabilities.

Definition is_scan (e : Event) : bool :=
  match e with
  | ScanResults _ => true
  | _ => false
  end.

(** [v'] is [v], or [v] with its status set to [in-progress]. *)
Definition kept_or_in_progress (v v' : Vulnerability) : Prop :=
  v' = v \/ v' = with_status "in-progress" v.

(** The reply is a success: it carries [data.success]. *)
Definition succeeded (reply : FixReply) : bool :=
  match failure_message reply with
  | Some _ => false
  | None => true
  end.

Definition is_failed_settle (e : Event) : bool :=
  match e with
  | Settle _ reply => negb (succeeded reply)
  | Click _ => true
  | ScanResults _ => false
  end.

End FixRuns.

(** ** The realtime subscription of the recent-activity hook *)

Module FeedUpdates.

Import RecentActivity.

(** The callback of the [INSERT] subscription: [payload] is the new row,
    [repository] the answer of the repository lookup ([None] when the row
    belongs to no repository of the user, otherwise the repository's name).
    The feed is left alone when the lookup finds nothing. *)
Definition on_insert (now : Z) (payload : ScanResult)
    (repository : option (option string)) (prev : list ActivityItem)
  : list ActivityItem :=
  match repository with
  | Some repositoryName =>
      let newActivity :=
        generateActivityFromScanResult now payload repositoryName database in
      let filtered :=
        List.filter
          (fun a => negb (String.eqb (act_id a) (act_id newActivity))) prev in
      take 20 (newActivity :: filtered)
  | None => prev
  end.

(** The activities the rows of a query answer are turned into. *)
Definition database_activities (now : Z)
    (rows : option (list (ScanResult * option string)))
  : list ActivityItem :=
  List.map (fun r => generateActivityFromScanResult now (fst r) (snd r)
                       database)
    (match rows with Some l => l | None => [] end).

(** The comparator of the sort with the clock as the source reads it, once
    for each operand whose timestamp contains [ago]: [readA] and [readB] are
    what the two calls of [Date.now()] return, [Date_parse] is
    [new Date(s).getTime()] of the engine, [None] is [NaN]. *)
Definition time_at (Date_parse : string -> option Z) (reading : Z)
    (t : string) : option Z :=
  if includes t "ago" then Some reading else Date_parse t.

Definition compare_at (Date_parse : string -> option Z) (readA readB : Z)
    (a b : ActivityItem) : option Z :=
  match time_at Date_parse readA (timestamp a),
        time_at Date_parse readB (timestamp b) with
  | Some timeA, Some timeB => Some (timeB - timeA)%Z
  | _, _ => None
  end.

(** The id the hook gives to the activity of a stored upgrade. *)
Definition upgrade_id (u : Upgrade) : string :=
  "upgrade-" ++ tmpl (up_repositoryId u) ++ "-" ++ tmpl (up_technology u).

(** A critical finding in the shape of the rows of the Vulnerabilities
    page, which have no [scan_type]. *)
Definition stored_critical : ScanResult :=
  {| sr_id := "CVE-2024-1001"; scan_type := None;
     sr_severity := Some "critical"; coverage_percentage := None;
     sr_status := Some "open"; created_at := None;
     discoveredDate := Some (FeedScenario.noon - 86400000)%Z;
     sr_repository := Some "widgets"; sr_repository_id := None;
     sr_repositoryId := Some "r1"; sr_description := None;
     package := Some "spring-security-core"; package_name := None;
     technology := None; currentVersion := None;
     recommended_version := None; targetVersion := None;
     sr_title := None |}.

End FeedUpdates.

(** ** The results and the test files of the bulk fix function *)

Module CoverageResults.

Import ImproveCoverage.

(** A result is either a success with every field of the pull request and
    no error, or a failure with an error and nothing else. *)
Definition well_formed (r : Result) : Prop :=
  if success r
  then error r = None /\
       (exists b, branchName r = Some b) /\
       (exists t, suggestedTests r = Some t) /\
       (exists c, estimatedCoverage r = Some c /\ (c <= 95)%Z)
  else (exists m, error r = Some m) /\
       branchName r = None /\ pullRequestUrl r = None /\
       pullRequestNumber r = None /\ suggestedTests r = None /\
       estimatedCoverage r = None.

(** The newline character, as a string. *)
Definition nl : string := String (Ascii.ascii_of_nat 10) EmptyString.

(** The lines of a template literal, each closed by a newline. *)
Definition unlines (lines : list string) : string :=
  fold_right (fun line rest => line ++ nl ++ rest) "" lines.

Definition generateJavaScriptTest (componentName : string) : string :=
  unlines
    [ "// Unit tests for " ++ componentName;
      "describe('" ++ componentName ++ "', () => {";
      "  test('should be defined', () => {";
      "    expect(" ++ componentName ++ ").toBeDefined();";
      "  });";
      "";
      "  test('should handle basic functionality', () => {";
      "    // Add your test logic here";
      "    expect(true).toBe(true);";
      "  });";
      "";
      "  test('should handle edge cases', () => {";
      "    // Add edge case tests here";
      "    expect(true).toBe(true);";
      "  });";
      "});" ].

Definition generatePythonTest : string :=
  unlines
    [ "import unittest";
      "";
      "class TestMain(unittest.TestCase):";
      "    def test_basic_functionality(self):";
      "        " ++ dquote ++ dquote ++ dquote ++ "Test basic functionality." ++
        dquote ++ dquote ++ dquote;
      "        self.assertTrue(True)";
      "    ";
      "    def test_edge_cases(self):";
      "        " ++ dquote ++ dquote ++ dquote ++ "Test edge cases." ++
        dquote ++ dquote ++ dquote;
      "        self.assertTrue(True)";
      "";
      "if __name__ == '__main__':";
      "    unittest.main()" ].

Definition generateJavaTest : string :=
  unlines
    [ "import org.junit.jupiter.api.Test;";
      "import static org.junit.jupiter.api.Assertions.*;";
      "";
      "public class MainTest {";
      "    ";
      "    @Test";
      "    public void testBasicFunctionality() {";
      "        assertTrue(true);";
      "    }";
      "    ";
      "    @Test";
      "    public void testEdgeCases() {";
      "        assertTrue(true);";
      "    }";
      "}" ].

Definition generateGenericTest : string :=
  unlines
    [ "// Integration tests";
      "describe('Integration Tests', () => {";
      "  test('should pass basic integration test', () => {";
      "    expect(true).toBe(true);";
      "  });";
      "});" ].

(** [s.endsWith(suffix)] *)
Definition endsWith (s suffix : string) : bool :=
  (String.length suffix <=? String.length s)%nat &&
  String.eqb
    (String.substring (String.length s - String.length suffix)
       (String.length suffix) s) suffix.

(** [name.replace(/\.(js|ts)$/, '')] *)
Definition strip_extension (name : string) : string :=
  if endsWith name ".js" || endsWith name ".ts"
  then String.substring 0 (String.length name - 3) name
  else name.

(** The filter of the JavaScript and TypeScript branch. *)
Definition testable (name : string) : bool :=
  (includes name "src" || endsWith name ".js" || endsWith name ".ts") &&
  negb (includes name "test") && negb (includes name "spec").

(** The reply to the request of the repository's contents:
    [contentsResponse.ok] and the names of the entries
    [contentsResponse.json()] lists (or the error it throws). *)
Record ContentsResponse : Type := {
  contents_ok : bool;
  contents : completion (list string)
}.

Definition js_test_file (name : string) : TestFile :=
  let fileName := strip_extension name in
  {| path := "tests/" ++ fileName ++ ".test.js";
     component := fileName;
     content := generateJavaScriptTest fileName |}.

(** [generateTestFiles], for a repository of the given language and the
    reply to the contents request. *)
Definition generateTestFiles (language : string)
    (contentsResponse : completion ContentsResponse)
  : completion (list TestFile) :=
  match contentsResponse with
  | Threw m => Threw m
  | Returned response =>
      if negb (contents_ok response) then Returned []
      else
        match contents response with
        | Threw m => Threw m
        | Returned names =>
            if String.eqb language "JavaScript" ||
               String.eqb language "TypeScript"
            then
              let srcFiles := List.filter testable names in
              Returned (List.map js_test_file (take 3 srcFiles))
            else if String.eqb language "Python"
            then Returned [ {| path := "tests/test_main.py";
                               component := "main module";
                               content := generatePythonTest |} ]
            else if String.eqb language "Java"
            then Returned [ {| path := "src/test/java/MainTest.java";
                               component := "Main class";
                               content := generateJavaTest |} ]
            else Returned [ {| path := "tests/integration_test.js";
                               component := "integration";
                               content := generateGenericTest |} ]
        end
  end.

(** A world in which the test files of the [i]-th repository are the ones
    [generateTestFiles] makes from the reply [replies i]. *)
Definition generates (world : nat -> GitHub) (repositories : list Repo)
    (replies : nat -> completion ContentsResponse) : Prop :=
  forall i repo, repositories !! i = Some repo ->
    ImproveCoverage.generateTestFiles (world i) =
    generateTestFiles (language repo) (replies i).

(** A repository written in JavaScript whose listing has five entries. *)
Definition dashboard : Repo :=
  {| id := "r3"; name := "dashboard"; full_name := "acme/dashboard";
     language := "JavaScript"; currentCoverage := 85 |}.

Definition listing : completion ContentsResponse :=
  Returned {| contents_ok := true;
              contents := Returned ["index.js"; "latest.js"; "README.md";
                                    "src"; "app.ts"; "util.js"] |}.

(** GitHub answers every request; the test files are generated from the
    listing. *)
Definition listed : GitHub :=
  {| get_repo := Returned {| repo_ok := true;
                             default_branch := Returned "main" |};
     date_now := 1722772800000;
     get_base_sha := fun _ => Returned "3f1c2ab";
     create_branch := fun _ _ => Returned tt;
     ImproveCoverage.generateTestFiles :=
       generateTestFiles "JavaScript" listing;
     createOrUpdateFile := fun _ _ => Returned tt;
     create_pull_request := fun _ _ =>
       Returned {| pr_ok := true;
                   pr_data :=
                     Returned ("https://github.com/acme/dashboard/pull/3",
                               3%Z) |};
     random_bonus := 11 |}.

End CoverageResults.

(** ** The rows of the update scan and the counts shown above them *)

Module ScanRows.

Import Vulnerabilities ScanUpdates.

(** [repositoryUpdates.reduce((total, repo) =>
      total + repo.technologies.filter(tech => tech.needsUpdate).length, 0)] *)
Definition getTotalUpdatesAvailable
    (repositoryUpdates : list RepositoryUpdate) : nat :=
  fold_left (fun total repo =>
               total + length (List.filter needsUpdate (technologies repo)))
    repositoryUpdates 0.

(** [repositoryUpdates.filter(repo =>
      repo.technologies.some(tech => tech.needsUpdate)).length] *)
Definition getRepositoriesWithUpdates
    (repositoryUpdates : list RepositoryUpdate) : nat :=
  length (List.filter (fun repo => existsb needsUpdate (technologies repo))
            repositoryUpdates).

(** A technology after the answer for it has come in: a detected version
    replaces the version and the flag, anything else leaves the row as it
    was. *)
Definition scanned_technology (reply : completion DetectAnswer)
    (tech : Technology) : Technology :=
  match detected reply with
  | Some v =>
      {| name := name tech;
         currentVersion := Some v;
         availableVersions := availableVersions tech;
         latestVersion := latestVersion tech;
         needsUpdate := needs_update (name tech) v |}
  | None => tech
  end.

(** A repository's row after its turn of a scan. *)
Definition scanned_row (detect : Detector) (index : nat)
    (item : RepositoryUpdate) : RepositoryUpdate :=
  {| repository := repository item;
     technologies :=
       List.map (fun tech =>
                   scanned_technology
                     (detect index (repository item) (name tech)) tech)
         (technologies item);
     isScanning := false;
     scanned := true |}.

(** [prev.map((item, index) => index === repoIndex ? f(item) : item)] *)
Definition at_row (repoIndex : nat) (f : RepositoryUpdate -> RepositoryUpdate)
    (prev : list RepositoryUpdate) : list RepositoryUpdate :=
  imap (fun index item => if Nat.eqb index repoIndex then f item else item)
    prev.

(** The three updates of a row during its turn. *)
Definition start (item : RepositoryUpdate) : RepositoryUpdate :=
  {| repository := repository item; technologies := technologies item;
     isScanning := true; scanned := scanned item |}.

Definition finish (item : RepositoryUpdate) : RepositoryUpdate :=
  {| repository := repository item; technologies := technologies item;
     isScanning := false; scanned := true |}.

Definition upd (technology v : string) (tech : Technology) : Technology :=
  if String.eqb (name tech) technology
  then {| name := name tech;
          currentVersion := Some v;
          availableVersions := availableVersions tech;
          latestVersion := latestVersion tech;
          needsUpdate := needs_update technology v |}
  else tech.

Definition row_record (technology : string) (reply : completion DetectAnswer)
    (item : RepositoryUpdate) : RepositoryUpdate :=
  match detected reply with
  | Some v =>
      {| repository := repository item;
         technologies := List.map (upd technology v) (technologies item);
         isScanning := isScanning item;
         scanned := scanned item |}
  | None => item
  end.

Definition tech_step (d : string -> option string)
    (techs : list Technology) (technology : string) : list Technology :=
  match d technology with
  | Some v => List.map (upd technology v) techs
  | None => techs
  end.

(** The turn of one row. *)
Definition row_scan (detect : Detector) (repoIndex : nat) (repo : Repository)
    (item : RepositoryUpdate) : RepositoryUpdate :=
  finish
    (fold_left (fun r technology =>
                  row_record technology (detect repoIndex repo technology) r)
       relevantTechnologies (start item)).

(** The rows of the modal belong to [repositories], in their order, and
    each has the six technologies. *)
Definition shaped (repositories : list Repository)
    (st : list RepositoryUpdate) : Prop :=
  List.map repository st = repositories /\
  Forall (fun item => List.map name (technologies item) = relevantTechnologies)
    st.

(** No detection succeeds. *)
Definition offline : Detector := fun _ _ _ => Threw "Failed to fetch".

End ScanRows.

(** ** The metric cards of the versions page *)

Module VersionMetrics.

Import ScanUpdates SecurityMetrics.

(** A card of the versions page (without its icon); the last card has no
    variant. *)
Record Card : Type := {
  title : string;
  value : Value;
  description : string;
  variant : option string;
  trend : option (Z * string)
}.

(** [handleScanResults]: the results of a scan replace the page's
    upgrades. *)
Definition handleScanResults (results : list UpgradeResult)
    (scannedUpgrades : list UpgradeResult) : list UpgradeResult :=
  results.

(** [new Set(ids).size] *)
Definition set_size (ids : list string) : Z :=
  Z.of_nat (length (remove_dups ids)).

Definition technology_card (label technology : string)
    (scannedUpgrades : list UpgradeResult) : Card :=
  let projects :=
    List.filter (fun upgrade => String.eqb (ur_technology upgrade) technology)
      scannedUpgrades in
  let n := Z.of_nat (length projects) in
  {| title := label;
     value := Num n;
     description :=
       if (0 <? n)%Z then show n ++ " need upgrade to latest version"
       else "All " ++ technology ++ " projects up to date";
     variant := Some (if (0 <? n)%Z then "warning" else "success");
     trend := None |}.

Section Rounding.

(** [Math.round((a / b) * 100)], in the arithmetic of the engine. *)
Variable percent : Z -> Z -> Z.

Definition calculateMetrics (scannedUpgrades : list UpgradeResult)
  : list Card :=
  match scannedUpgrades with
  | [] =>
      [ {| title := "Java Projects"; value := Num 0;
           description := "No scan data available - run scan to see details";
           variant := Some "secondary"; trend := None |};
        {| title := "Angular Projects"; value := Num 0;
           description := "No scan data available - run scan to see details";
           variant := Some "secondary"; trend := None |};
        {| title := "Python Projects"; value := Num 0;
           description := "No scan data available - run scan to see details";
           variant := Some "secondary"; trend := None |};
        {| title := "Up-to-date"; value := Str "0%";
           description := "No scan data available";
           variant := None; trend := None |} ]
  | _ =>
      let scannedRepoIds :=
        List.map ur_repositoryId scannedUpgrades in
      let totalScannedRepos := set_size scannedRepoIds in
      let reposNeedingUpdates :=
        List.map ur_repositoryId scannedUpgrades in
      let upToDateRepos :=
        (totalScannedRepos - set_size reposNeedingUpdates)%Z in
      let upToDatePercentage :=
        if (0 <? totalScannedRepos)%Z
        then percent upToDateRepos totalScannedRepos
        else 0%Z in
      [ technology_card "Java Projects" "Java" scannedUpgrades;
        technology_card "Angular Projects" "Angular" scannedUpgrades;
        technology_card "Python Projects" "Python" scannedUpgrades;
        {| title := "Up-to-date";
           value := Str (show upToDatePercentage ++ "%");
           description :=
             show upToDateRepos ++ " of " ++ show totalScannedRepos ++
             " scanned repositories";
           variant := None;
           trend :=
             if (75 <=? upToDatePercentage)%Z
             then Some ((upToDatePercentage - 60)%Z, "improvement")
             else None |} ]
  end.

End Rounding.

(** Rounding of the exact quotient, halves upwards. *)
Definition exact_percent (a b : Z) : Z := ((200 * a + b) / (2 * b))%Z.

(** The number of upgrades of a technology in the list. *)
Definition upgrades_of (technology : string)
    (scannedUpgrades : list UpgradeResult) : nat :=
  length (List.filter
            (fun upgrade => String.eqb (ur_technology upgrade) technology)
            scannedUpgrades).

End VersionMetrics.

(** ** The detection of the current version *)

Module DetectVersion.

Import JS ScanUpdates.

(** A value read from the parsed [package.json]: nothing (or another falsy
    value), a string, or a truthy value that is no string. *)
Inductive Field : Type :=
| Missing
| Text (s : string)
| NotText.

Definition field_truthy (f : Field) : bool :=
  match f with
  | Missing => false
  | Text s => negb (String.eqb s "")
  | NotText => true
  end.

(** The fields of [package.json] the function reads. *)
Record PackageJson : Type := {
  devDependencies_typescript : Field;
  dependencies_typescript : Field;
  dependencies_angular_core : Field;
  engines_node : Field;
  dependencies_react : Field
}.

(** The regular expressions matched against [pom.xml], [build.gradle],
    [pyproject.toml] and [runtime.txt]. *)
Inductive Pattern : Type :=
| pom_java_version_detailed
| pom_java_version
| pom_compiler_source_detailed
| pom_compiler_source
| gradle_source_detailed
| gradle_source
| pyproject_python
| runtime_python.

(** [/[\^~]/] *)
Definition is_caret_or_tilde (c : ascii) : bool :=
  Ascii.eqb c "^"%char || Ascii.eqb c "~"%char.

(** [/[>=<^~]/] *)
Definition is_range_character (c : ascii) : bool :=
  Ascii.eqb c ">"%char || Ascii.eqb c "="%char || Ascii.eqb c "<"%char ||
  Ascii.eqb c "^"%char || Ascii.eqb c "~"%char.

(** [s.replace(/[...]/, '')]: without the [g] flag the first character of
    the class is removed, and only that one. *)
Fixpoint remove_first (class : ascii -> bool) (s : string) : string :=
  match s with
  | EmptyString => EmptyString
  | String c rest =>
      if class c then rest else String c (remove_first class rest)
  end.

(** [s.split('.')[0]] *)
Fixpoint before_dot (s : string) : string :=
  match s with
  | EmptyString => EmptyString
  | String c rest =>
      if Ascii.eqb c "."%char then EmptyString
      else String c (before_dot rest)
  end.

(** [f.replace(re, '')] on a field: a value that is no string has no such
    method. *)
Definition replace (class : ascii -> bool) (f : Field) : completion string :=
  match f with
  | Text s => Returned (remove_first class s)
  | _ => Threw "replace is not a function"
  end.

Definition has_dot (s : string) : bool :=
  existsb (Ascii.eqb "."%char) (String.list_ascii_of_string s).

Section Engine.

(** [getFileContent] for a path of the repository: the decoded content, or
    [null] when the response is not ok or anything throws. *)
Variable getFileContent : string -> option string.

(** [JSON.parse] and the reads of the fields; it throws when the content is
    no JSON. *)
Variable JSON_parse : string -> completion PackageJson.

(** [content.match(re)]: the first group of the first match, if any. *)
Variable match_group : Pattern -> string -> option string.

(** The first of the patterns that matches. *)
Fixpoint first_match (patterns : list Pattern) (content : string)
  : option string :=
  match patterns with
  | [] => None
  | re :: rest =>
      match match_group re content with
      | Some v => Some v
      | None => first_match rest content
      end
  end.

(** [const f = await getFileContent(path); if (f) { ... patterns ... }] *)
Definition in_file (path : string) (patterns : list Pattern)
  : option string :=
  match getFileContent path with
  | Some content =>
      if truthy (Some content) then first_match patterns content else None
  | None => None
  end.

(** The branches that read [package.json]. *)
Definition in_package (read : PackageJson -> completion (option string))
  : completion (option string) :=
  match getFileContent "package.json" with
  | Some packageFile =>
      if truthy (Some packageFile)
      then match JSON_parse packageFile with
           | Returned packageJson => read packageJson
           | Threw message => Threw message
           end
      else Returned None
  | None => Returned None
  end.

(** [if (f) return f.replace(re, '')], then [otherwise]. *)
Definition cleaned (class : ascii -> bool) (f : Field)
    (otherwise : completion (option string)) : completion (option string) :=
  if field_truthy f
  then match replace class f with
       | Returned v => Returned (Some v)
       | Threw message => Threw message
       end
  else otherwise.

(** The body of the [try] of [detectCurrentVersion]. *)
Definition detection (technology : string) : completion (option string) :=
  if String.eqb technology "Java" then
    match in_file "pom.xml"
            [pom_java_version_detailed; pom_java_version;
             pom_compiler_source_detailed; pom_compiler_source] with
    | Some v => Returned (Some v)
    | None =>
        Returned (in_file "build.gradle" [gradle_source_detailed; gradle_source])
    end
  else if String.eqb technology "TypeScript" then
    in_package (fun packageJson =>
      cleaned is_caret_or_tilde (devDependencies_typescript packageJson)
        (cleaned is_caret_or_tilde (dependencies_typescript packageJson)
           (Returned None)))
  else if String.eqb technology "Angular" then
    in_package (fun packageJson =>
      if field_truthy (dependencies_angular_core packageJson)
      then match replace is_caret_or_tilde
                   (dependencies_angular_core packageJson) with
           | Returned version => Returned (Some (before_dot version))
           | Threw message => Threw message
           end
      else Returned None)
  else if String.eqb technology "Node.js" then
    in_package (fun packageJson =>
      cleaned is_range_character (engines_node packageJson) (Returned None))
  else if String.eqb technology "Python" then
    match in_file "pyproject.toml" [pyproject_python] with
    | Some v => Returned (Some v)
    | None => Returned (in_file "runtime.txt" [runtime_python])
    end
  else if String.eqb technology "React" then
    in_package (fun packageJson =>
      cleaned is_caret_or_tilde (dependencies_react packageJson)
        (Returned None))
  else Returned None.

(** [detectCurrentVersion]: whatever is thrown gives [null]. *)
Definition detectCurrentVersion (technology : string) : option string :=
  match detection technology with
  | Returned v => v
  | Threw _ => None
  end.

(** The answer of the function once the repository is found, as the scan
    receives it. *)
Definition answer (technology : string) : completion DetectAnswer :=
  Returned {| det_data :=
                Some {| det_success := true;
                        det_currentVersion :=
                          detectCurrentVersion technology |};
              det_error := None |}.

End Engine.

(** A repository whose only file is a [package.json] with the given
    fields. *)
Definition only_package (path : string) : option string :=
  if String.eqb path "package.json" then Some "{ ... }" else None.

Definition frontend : PackageJson :=
  {| devDependencies_typescript := Text "^5.2.2";
     dependencies_typescript := Missing;
     dependencies_angular_core := Text "^17.3.1";
     engines_node := Text ">=18";
     dependencies_react := Text "^17.0.2" |}.

Definition no_match : Pattern -> string -> option string :=
  fun _ _ => None.

End DetectVersion.

(** ** The security scan function *)

Module SecurityScan.

Import JS.

(** A finding as the function reports it; [cvss] in tenths. *)
Record Finding : Type := {
  id : string;
  title : string;
  severity : string;
  cvss : Z;
  package : string;
  version : string;
  fixedIn : string;
  status : string;
  discoveredDate : string;
  description : string
}.

(** The table of known findings by language; [today] is the date the
    module was loaded on. *)
Definition mockVulnerabilities (today : string)
  : list (string * list Finding) :=
  [ ("Java",
     [ {| id := "CVE-2024-1001";
          title := "SQL Injection vulnerability in Spring Security";
          severity := "critical"; cvss := 98;
          package := "spring-security-core";
          version := "5.7.2"; fixedIn := "6.1.0"; status := "open";
          discoveredDate := today;
          description :=
            "Authentication bypass through SQL injection in login endpoint" |};
       {| id := "CVE-2024-1002";
          title := "Deserialization vulnerability in Jackson";
          severity := "high"; cvss := 85;
          package := "jackson-databind";
          version := "2.14.2"; fixedIn := "2.15.0"; status := "open";
          discoveredDate := today;
          description :=
            "Remote code execution through unsafe deserialization" |};
       {| id := "CVE-2024-1003";
          title := "Path traversal in Commons IO";
          severity := "medium"; cvss := 61;
          package := "commons-io";
          version := "2.11.0"; fixedIn := "2.11.1"; status := "open";
          discoveredDate := today;
          description :=
            "Directory traversal allows reading arbitrary files" |} ]);
    ("TypeScript",
     [ {| id := "CVE-2024-2001";
          title := "Cross-site scripting in Angular";
          severity := "high"; cvss := 75;
          package := "@angular/common";
          version := "16.0.0"; fixedIn := "16.2.1"; status := "open";
          discoveredDate := today;
          description := "XSS vulnerability in user input validation" |};
       {| id := "CVE-2024-2002";
          title := "Prototype pollution in lodash";
          severity := "medium"; cvss := 56;
          package := "lodash";
          version := "4.17.20"; fixedIn := "4.17.21"; status := "open";
          discoveredDate := today;
          description :=
            "Prototype pollution vulnerability in merge function" |} ]);
    ("JavaScript",
     [ {| id := "CVE-2024-3001";
          title := "Remote code execution in Node.js";
          severity := "critical"; cvss := 92;
          package := "node";
          version := "18.0.0"; fixedIn := "18.17.1"; status := "open";
          discoveredDate := today;
          description := "RCE through malicious package import" |} ]);
    ("Python",
     [ {| id := "CVE-2024-4001";
          title := "SQL injection in Django ORM";
          severity := "high"; cvss := 81;
          package := "Django";
          version := "4.1.0"; fixedIn := "4.2.5"; status := "open";
          discoveredDate := today;
          description := "SQL injection through raw query parameters" |};
       {| id := "CVE-2024-4002";
          title := "Insecure deserialization in pickle";
          severity := "critical"; cvss := 98;
          package := "pickle";
          version := "0.7.0"; fixedIn := "0.7.1"; status := "open";
          discoveredDate := today;
          description :=
            "Remote code execution through unsafe pickle loads" |} ]) ].

(** The members every object inherits, with the [length] the function
    reads from them ([0] where it is [0] or undefined). *)
Definition inherited : list (string * nat) :=
  [ ("constructor", 1); ("__defineGetter__", 2); ("__defineSetter__", 2);
    ("hasOwnProperty", 1); ("__lookupGetter__", 1); ("__lookupSetter__", 1);
    ("isPrototypeOf", 1); ("propertyIsEnumerable", 1); ("toString", 0);
    ("valueOf", 0); ("__proto__", 0); ("toLocaleString", 0) ].

Fixpoint assoc {A} (key : string) (l : list (string * A)) : option A :=
  match l with
  | [] => None
  | (k, x) :: rest => if String.eqb k key then Some x else assoc key rest
  end.

(** [Object.values(mockVulnerabilities).flat()] *)
Definition allVulns (today : string) : list Finding :=
  concat (List.map snd (mockVulnerabilities today)).

(** The random choices of one request. *)
Record Dice : Type := {
  (** [Math.floor(Math.random() * (languageVulns.length + 1))] *)
  numVulns : nat;
  (** [[...l].sort(() => 0.5 - Math.random())] *)
  shuffled : list Finding -> list Finding;
  (** [Math.random() > 0.7] *)
  occasionally : bool;
  (** [Math.floor(Math.random() * allVulns.length)] *)
  randomIndex : nat
}.

Record ScanRequest : Type := {
  repositoryId : string;
  repositoryName : string;
  fullName : string;
  language : option string
}.

Record Summary : Type := {
  total : nat;
  critical : nat;
  high : nat;
  medium : nat;
  low : nat
}.

(** The body of a successful response (without [scanDate]). *)
Record Answer : Type := {
  ans_repositoryId : string;
  ans_repositoryName : string;
  vulnerabilities : list Finding;
  summary : Summary
}.

Inductive Response : Type :=
| Cors
| Ok (answer : Answer)
| ServerError (message : string).

(** The findings chosen from the repository's language. *)
Definition ofLanguage (dice : Dice) (today : string)
    (language : option string) : completion (list Finding) :=
  if truthy language
  then
    match language with
    | Some l =>
        match assoc l (mockVulnerabilities today) with
        | Some languageVulns =>
            if Nat.ltb 0 (length languageVulns)
            then Returned (take (numVulns dice)
                             (shuffled dice languageVulns))
            else Returned []
        | None =>
            match assoc l inherited with
            | Some n =>
                if Nat.ltb 0 n
                then Threw "languageVulns is not iterable"
                else Returned []
            | None => Returned []
            end
        end
    | None => Returned []
    end
  else Returned [].

Definition asDependency (randomVuln : Finding) : Finding :=
  {| id := id randomVuln; title := title randomVuln;
     severity := severity randomVuln; cvss := cvss randomVuln;
     package := package randomVuln ++ "-dep";
     version := version randomVuln; fixedIn := fixedIn randomVuln;
     status := status randomVuln;
     discoveredDate := discoveredDate randomVuln;
     description := description randomVuln |}.

(** The finding from another language that is added occasionally. *)
Definition withOther (dice : Dice) (today : string)
    (foundVulnerabilities : list Finding) : list Finding :=
  if occasionally dice
  then
    match allVulns today !! randomIndex dice with
    | Some randomVuln =>
        if negb (existsb (fun v => String.eqb (id v) (id randomVuln))
                   foundVulnerabilities)
        then (foundVulnerabilities ++ [asDependency randomVuln])%list
        else foundVulnerabilities
    | None => foundVulnerabilities
    end
  else foundVulnerabilities.

Definition count (s : string) (l : list Finding) : nat :=
  length (List.filter (fun v => String.eqb (severity v) s) l).

Definition serve (dice : Dice) (today method : string)
    (body : completion ScanRequest) : Response :=
  if String.eqb method "OPTIONS" then Cors
  else
    match body with
    | Threw message => ServerError (or_else (Some message) "Security scan failed")
    | Returned request =>
        match ofLanguage dice today (language request) with
        | Threw message =>
            ServerError (or_else (Some message) "Security scan failed")
        | Returned found =>
            let foundVulnerabilities := withOther dice today found in
            Ok {| ans_repositoryId := repositoryId request;
                  ans_repositoryName := repositoryName request;
                  vulnerabilities := foundVulnerabilities;
                  summary :=
                    {| total := length foundVulnerabilities;
                       critical := count "critical" foundVulnerabilities;
                       high := count "high" foundVulnerabilities;
                       medium := count "medium" foundVulnerabilities;
                       low := count "low" foundVulnerabilities |} |}
        end
    end.

(** The findings of the table for a language, none for any other one. *)
Definition known (today : string) (language : option string)
  : list Finding :=
  match language with
  | Some l =>
      match assoc l (mockVulnerabilities today) with
      | Some languageVulns => languageVulns
      | None => []
      end
  | None => []
  end.

(** A finding of the table, as it is or marked as a dependency. *)
Definition from_table (today : string) (v : Finding) : Prop :=
  exists m, In m (allVulns today) /\ (v = m \/ v = asDependency m).

(** Dice that reverse the findings, take two and add the last entry of the
    table. *)
Definition loaded : Dice :=
  {| numVulns := 2; shuffled := @rev Finding; occasionally := true;
     randomIndex := 7 |}.

Definition java_request : ScanRequest :=
  {| repositoryId := "r1"; repositoryName := "widgets";
     fullName := "acme/widgets"; language := Some "Java" |}.

End SecurityScan.

(** * Properties *)

(** ** Scan batches and the list of findings *)

Module ScanFacts.

Import Vulnerabilities Scenario.

Lemma scan_one_results repositories scan run rid :
  allResults (scan_one repositories scan run rid) =
  (allResults run ++ batch_of repositories scan rid)%list.
Proof.
  unfold scan_one, batch_of.
  destruct (find_repo repositories rid) as [r|]; simpl.
  - destruct (scan r) as [[[[] [vulns|]]|]|message]; simpl;
      rewrite ?app_nil_r; reflexivity.
  - rewrite app_nil_r. reflexivity.
Qed.

Lemma scan_loop_results repositories scan selected run :
  allResults (fold_left (scan_one repositories scan) selected run) =
  (allResults run ++ flat_map (batch_of repositories scan) selected)%list.
Proof.
  revert run. induction selected as [|rid rest IH]; intros run; simpl.
  - rewrite app_nil_r. reflexivity.
  - rewrite IH, scan_one_results, <- app_assoc. reflexivity.
Qed.

(** The batch of a run is what the selected repositories' scans returned,
    in the order of the selection; a repository whose scan failed, or that
    is not selected, contributes nothing. *)
Lemma startSecurityScan_results repositories scan selected run :
  startSecurityScan repositories scan selected = Some run ->
  allResults run = flat_map (batch_of repositories scan) selected.
Proof.
  unfold startSecurityScan. destruct selected as [|rid rest]; [discriminate|].
  intros [= <-].
  exact (scan_loop_results repositories scan (rid :: rest) _).
Qed.

(** C1, as the specification states it, at the scenario of its section 8:
    the store holds A, B and C, all open, for one repository and the scan of
    that repository returns A and C only.  B is not moved to [resolved]: no
    row of the list carries B's id any more. *)
Lemma omitted_finding_is_dropped_not_resolved :
  let A := finding "CVE-2024-1001" "r" "open" in
  let B := finding "CVE-2024-1002" "r" "open" in
  let C := finding "CVE-2024-1003" "r" "open" in
  let before := page_with [A; B; C] in
  let after := run_security_scan [repo "r"] (scanner "r" [A; C]) ["r"] before in
  In B (scannedVulnerabilities before) /\
  status B = "open" /\
  ~ (exists f, In f (scannedVulnerabilities after) /\
               vuln_id f = vuln_id B /\ status f = "resolved").
Proof.
  cbv zeta. split; [|split].
  - right; left; reflexivity.
  - reflexivity.
  - intros (f & Hin & Hid & _). vm_compute in Hin.
    destruct Hin as [<-|[<-|[]]]; vm_compute in Hid; discriminate.
Qed.

(** C1, amended: a scan batch replaces the list of findings.  The new list
    is the batch, that is the findings returned for the selected
    repositories whose scan succeeded, stored as returned; a stored finding
    whose id the batch omits is gone from the list (dropped, not resolved);
    nothing else of the page changes and no entry is emitted; the handler
    takes no completeness flag, so every batch is handled this way. *)
Theorem scan_batch_replaces_findings repositories scan selected run before :
  startSecurityScan repositories scan selected = Some run ->
  let after := run_security_scan repositories scan selected before in
  scannedVulnerabilities after = allResults run /\
  allResults run = flat_map (batch_of repositories scan) selected /\
  (forall f, In f (scannedVulnerabilities before) ->
     (forall g, In g (allResults run) -> vuln_id g <> vuln_id f) ->
     forall g, In g (scannedVulnerabilities after) -> vuln_id g <> vuln_id f) /\
  toasts after = toasts before /\
  errorDialog after = errorDialog before /\
  isFixingVulnerability after = isFixingVulnerability before.
Proof.
  intros Hrun after. subst after. unfold run_security_scan. rewrite Hrun.
  simpl. repeat split; auto using startSecurityScan_results.
Qed.

Lemma scan_batch_replaces_findings_witness :
  let A := finding "CVE-2024-1001" "r" "open" in
  let B := finding "CVE-2024-1002" "r" "open" in
  let C := finding "CVE-2024-1003" "r" "open" in
  scannedVulnerabilities
    (run_security_scan [repo "r"] (scanner "r" [A; C]) ["r"]
       (page_with [A; B; C])) = [A; C].
Proof.
  cbv zeta.
  pose proof (scan_batch_replaces_findings [repo "r"]
    (scanner "r" [finding "CVE-2024-1001" "r" "open";
                  finding "CVE-2024-1003" "r" "open"]) ["r"]
    _ (page_with [finding "CVE-2024-1001" "r" "open";
                  finding "CVE-2024-1002" "r" "open";
                  finding "CVE-2024-1003" "r" "open"]) eq_refl) as H.
  cbv zeta in H. destruct H as [H _]. rewrite H. vm_compute. reflexivity.
Defined.

End ScanFacts.

(** ** The fix workflow *)

Module FixFacts.

Import Vulnerabilities Scenario.

Lemma with_status_id s v : vuln_id (with_status s v) = vuln_id v.
Proof. reflexivity. Qed.

(** A successful reply: every row carrying the id of the clicked finding is
    set to [in-progress], every other row is kept as it is. *)
Lemma mark_in_progress_spec vuln prev :
  Forall2 (fun v v' =>
             if String.eqb (vuln_id v) (vuln_id vuln)
             then v' = with_status "in-progress" v
             else v' = v)
          prev (mark_in_progress vuln prev).
Proof.
  unfold mark_in_progress. induction prev as [|v rest IH]; simpl.
  - constructor.
  - constructor; [|exact IH]. destruct (String.eqb _ _); reflexivity.
Qed.

Lemma mark_in_progress_lookup vuln prev i v :
  prev !! i = Some v ->
  mark_in_progress vuln prev !! i =
  Some (if String.eqb (vuln_id v) (vuln_id vuln)
        then with_status "in-progress" v else v).
Proof.
  intros H. unfold mark_in_progress.
  rewrite list_lookup_fmap, H. reflexivity.
Qed.

Lemma fix_success_page repositories vuln r d p :
  fix_data r = Some d -> fix_success d = true ->
  handleFixVulnerability repositories vuln (Returned r) p =
  {| scannedVulnerabilities :=
       mark_in_progress vuln (scannedVulnerabilities p);
     isFixingVulnerability := None;
     errorDialog := errorDialog p;
     toasts :=
       toasts p ++ [CreatingFix (package vuln);
                    FixPullRequestCreated (pullRequestNumber d)
                      (pullRequestUrl d) (package vuln)] |}.
Proof.
  intros Hd Hs. unfold handleFixVulnerability, fix_settle, fix_begin.
  rewrite Hd, Hs. unfold set_fixing, toast, set_vulnerabilities; simpl.
  rewrite <- app_assoc. reflexivity.
Qed.

Lemma fix_failure_page repositories vuln reply message p :
  failure_message reply = Some message ->
  handleFixVulnerability repositories vuln reply p =
  {| scannedVulnerabilities := scannedVulnerabilities p;
     isFixingVulnerability := None;
     errorDialog :=
       {| dialog_open := true;
          dialog_error := message;
          dialog_repositoryName :=
            option_map full_name
              (find_repo repositories (repositoryId vuln)) |};
     toasts := toasts p ++ [CreatingFix (package vuln)] |}.
Proof.
  unfold handleFixVulnerability, fix_settle, fix_begin, failure_message.
  destruct reply as [r|m].
  - destruct (fix_data r) as [d|].
    + destruct (fix_success d); [discriminate|]. intros [= <-]. reflexivity.
    + intros [= <-]. reflexivity.
  - intros [= <-]. reflexivity.
Qed.

(** C3.  The code at the failing input: two repositories report the same
    advisory; the fix of the first one's finding succeeds with pull request
    42.  The finding of the second repository, for which no pull request
    exists, is moved to [in-progress] as well. *)
Example fix_marks_the_same_advisory_in_another_repository :
  let mine := finding "CVE-2024-1001" "r1" "open" in
  let other := finding "CVE-2024-1001" "r2" "open" in
  let after :=
    handleFixVulnerability [repo "r1"; repo "r2"] mine pr42
      (page_with [mine; other]) in
  other_finding mine other /\
  List.map (fun v => (repositoryId v, status v))
    (scannedVulnerabilities after) =
  [("r1", "in-progress"); ("r2", "in-progress")] /\
  toasts after =
  [CreatingFix "spring-security-core";
   FixPullRequestCreated 42 "https://github.com/acme/widgets/pull/42"
     "spring-security-core"].
Proof.
  cbv zeta. split; [|split].
  - right. vm_compute. discriminate.
  - vm_compute. reflexivity.
  - vm_compute. reflexivity.
Qed.

(** C9.  The code at the failing input: the advisory is resolved in one
    repository and open in another one; the fix of the open finding
    succeeds.  The resolved finding goes back to [in-progress]. *)
Example fix_moves_a_resolved_finding_back :
  let mine := finding "CVE-2024-1001" "r1" "open" in
  let other := finding "CVE-2024-1001" "r2" "resolved" in
  let before := page_with [other; mine] in
  let after := handleFixVulnerability [repo "r1"; repo "r2"] mine pr42 before in
  clickable before mine = true /\
  List.map status (scannedVulnerabilities before) = ["resolved"; "open"] /\
  List.map status (scannedVulnerabilities after) =
  ["in-progress"; "in-progress"] /\
  forward "resolved" "in-progress" = false.
Proof. cbv zeta. repeat split; vm_compute; reflexivity. Qed.

(** A needle that occurs in a text starts with a character of the text. *)
Lemma includes_first_char hay c rest :
  includes hay (String c rest) = true -> ApiClient.has_char c hay = true.
Proof.
  unfold ApiClient.has_char.
  induction hay as [|h hay IH]; cbn [includes String.prefix]; [discriminate|].
  cbn [String.list_ascii_of_string existsb].
  destruct (ascii_dec c h) as [->|Hne].
  - rewrite Ascii.eqb_refl. reflexivity.
  - intros H. apply orb_true_iff in H. destruct H as [H|H].
    + discriminate.
    + rewrite (IH H). apply orb_true_r.
Qed.

Lemma has_char_app c a b :
  ApiClient.has_char c (a ++ b) =
  ApiClient.has_char c a || ApiClient.has_char c b.
Proof.
  unfold ApiClient.has_char. induction a as [|h a IH]; [reflexivity|].
  simpl. rewrite IH, orb_assoc. reflexivity.
Qed.

(** A number in a template literal is written with digits and a sign. *)
Lemma string_of_uint_chars d :
  forallb ApiClient.digit_or_minus
    (String.list_ascii_of_string (NilEmpty.string_of_uint d)) = true.
Proof.
  induction d; cbn [NilEmpty.string_of_uint String.list_ascii_of_string
                    forallb]; [reflexivity|..]; rewrite IHd; reflexivity.
Qed.

Lemma show_chars z :
  forallb ApiClient.digit_or_minus (String.list_ascii_of_string (show z))
  = true.
Proof.
  unfold show, NilZero.string_of_int, NilZero.string_of_uint.
  destruct (Z.to_int z) as [d|d].
  - destruct d; try apply string_of_uint_chars. reflexivity.
  - cbn [String.list_ascii_of_string forallb].
    destruct d; try apply string_of_uint_chars. reflexivity.
Qed.

Lemma has_char_show c z :
  ApiClient.digit_or_minus c = false -> ApiClient.has_char c (show z) = false.
Proof.
  intros Hc. unfold ApiClient.has_char.
  pose proof (show_chars z) as H. rewrite forallb_forall in H.
  destruct (existsb _ _) eqn:E; [|reflexivity].
  apply existsb_exists in E. destruct E as (x & Hx & Heq).
  apply Ascii.eqb_eq in Heq. subst x. rewrite (H c Hx) in Hc. discriminate.
Qed.

(** The message [request] makes of a status never carries one of the texts
    the dialog looks for. *)
Lemma http_error_not_included n c rest :
  ApiClient.digit_or_minus c = false ->
  ApiClient.has_char c "HTTP error! status: " = false ->
  includes ("HTTP error! status: " ++ show n) (String c rest) = false.
Proof.
  intros Hd Hp.
  destruct (includes _ _) eqn:E; [|reflexivity].
  apply includes_first_char in E.
  rewrite has_char_app, Hp, (has_char_show c n Hd) in E. discriminate.
Qed.

Lemma http_error_details n repositoryName :
  ErrorDialog.getErrorDetails ("HTTP error! status: " ++ show n)
    repositoryName =
  ErrorDialog.getErrorDetails "" repositoryName.
Proof.
  unfold ErrorDialog.getErrorDetails.
  rewrite !http_error_not_included by reflexivity. reflexivity.
Qed.

(** What [request] throws for a refusal without detail. *)
Lemma refused_without_detail_message r :
  ApiClient.refused_without_detail r = true ->
  ApiClient.request (Returned r) =
  Threw ("HTTP error! status: " ++ show (ApiClient.http_status r)).
Proof.
  unfold ApiClient.refused_without_detail, ApiClient.request.
  intros H. apply andb_prop in H. destruct H as [-> H].
  destruct (ApiClient.errorData_detail r) as [[d|]|m]; try reflexivity.
  unfold or_else. simpl in H. apply negb_true_iff, negb_false_iff in H.
  rewrite H. reflexivity.
Qed.

(** The answer of the dialog is never blank. *)
Lemma details_are_structured error repositoryName :
  let detail := ErrorDialog.getErrorDetails error repositoryName in
  ErrorDialog.title detail <> "" /\
  ErrorDialog.description detail <> "" /\
  length (ErrorDialog.solutions detail) = 4 /\
  Forall (fun s => s <> "") (ErrorDialog.solutions detail) /\
  Forall (ErrorDialog.usable_link repositoryName) (ErrorDialog.links detail).
Proof.
  cbv zeta. unfold ErrorDialog.getErrorDetails, ErrorDialog.usable_link,
    ErrorDialog.github_url.
  destruct (includes error "Failed to create branch: Forbidden") eqn:E1;
  destruct (includes error
              "Resource not accessible by personal access token") eqn:E2;
  cbn [orb];
  destruct (truthy repositoryName) eqn:Ht; cbn [andb];
  case_ifs; cbn [ErrorDialog.title ErrorDialog.description
                 ErrorDialog.solutions ErrorDialog.links length];
  (split; [discriminate|]); (split; [discriminate|]);
  (split; [reflexivity|]);
  (split; [repeat constructor; discriminate|]);
  repeat constructor; cbn [ErrorDialog.text ErrorDialog.url];
  try discriminate; intros _; eexists; split; reflexivity.
Qed.

(** The dialog gives one of its two permission answers exactly for a
    message that carries one of the two texts. *)
Lemma permission_title_iff message repositoryName :
  ErrorDialog.permission_title
    (ErrorDialog.title (ErrorDialog.getErrorDetails message repositoryName))
  = ErrorDialog.carries_refusal_text message.
Proof.
  unfold ErrorDialog.carries_refusal_text, ErrorDialog.getErrorDetails.
  destruct (includes message "Failed to create branch: Forbidden") eqn:E1;
  destruct (includes message
              "Resource not accessible by personal access token") eqn:E2;
  cbn [orb]; case_ifs; reflexivity.
Qed.

(** C4, as the specification states it, at a concrete failure: the finding
    is open and the service refuses the fix with status 403 and a body
    without detail.  The finding stays open, but the refusal is not
    surfaced as a permission failure: the dialog gives the generic answer,
    the same in every part as for a failure with status 500. *)
Lemma forbidden_without_detail_is_answered_generically :
  let mine := finding "CVE-2024-1001" "widgets" "open" in
  let after n :=
    handleFixVulnerability [repo "widgets"] mine
      (ApiClient.request (Returned (refusal n))) (page_with [mine]) in
  List.map status (scannedVulnerabilities (after 403%Z)) = ["open"] /\
  dialog_error (errorDialog (after 403%Z)) = "HTTP error! status: 403" /\
  ErrorDialog.title (ErrorDialog.shown (errorDialog (after 403%Z))) =
    "Vulnerability Fix Failed" /\
  ErrorDialog.permission_title
    (ErrorDialog.title (ErrorDialog.shown (errorDialog (after 403%Z)))) =
    false /\
  ErrorDialog.shown (errorDialog (after 403%Z)) =
  ErrorDialog.shown (errorDialog (after 500%Z)).
Proof.
  cbv zeta. repeat split; vm_compute; reflexivity.
Qed.

(** C4, amended: when the collaborator fails (it throws, or answers
    without [success]), the list of findings is left as it was, so the
    finding stays [open] and nothing reaches [in-progress]; the failure is
    recorded in the error dialog with its message and the repository; the
    dialog derives structured detail from it: a title, a description, four
    suggestions, none of them blank, and links that can be followed when
    the repository is known.  A refusal of write access is recognised by
    its text alone: the dialog gives one of its two permission answers
    exactly when the message carries one of GitHub's two refusal texts, so
    a refusal that the API client reports without detail, as
    [HTTP error! status: 403], gets the generic answer like any other
    status. *)
Theorem failed_fix_leaves_the_finding_open repositories vuln reply message p :
  failure_message reply = Some message ->
  let after := handleFixVulnerability repositories vuln reply p in
  let detail := ErrorDialog.shown (errorDialog after) in
  scannedVulnerabilities after = scannedVulnerabilities p /\
  (forall i, scannedVulnerabilities p !! i = Some vuln ->
     status vuln = "open" ->
     exists v, scannedVulnerabilities after !! i = Some v /\
               status v = "open") /\
  dialog_open (errorDialog after) = true /\
  dialog_error (errorDialog after) = message /\
  dialog_repositoryName (errorDialog after) =
    option_map full_name (find_repo repositories (repositoryId vuln)) /\
  toasts after = (toasts p ++ [CreatingFix (package vuln)])%list /\
  isFixingVulnerability after = None /\
  ErrorDialog.title detail <> "" /\
  ErrorDialog.description detail <> "" /\
  length (ErrorDialog.solutions detail) = 4 /\
  Forall (fun s => s <> "") (ErrorDialog.solutions detail) /\
  Forall (ErrorDialog.usable_link (dialog_repositoryName (errorDialog after)))
    (ErrorDialog.links detail) /\
  ErrorDialog.permission_title (ErrorDialog.title detail) =
    ErrorDialog.carries_refusal_text message /\
  (forall r, reply = ApiClient.request (Returned r) ->
     ApiClient.refused_without_detail r = true ->
     message = "HTTP error! status: " ++ show (ApiClient.http_status r) /\
     detail = ErrorDialog.getErrorDetails ""
                (dialog_repositoryName (errorDialog after)) /\
     ErrorDialog.title detail = ErrorDialog.generic_title).
Proof.
  intros Hfail after detail. subst detail after.
  rewrite (fix_failure_page _ _ _ _ _ Hfail).
  cbn [scannedVulnerabilities errorDialog toasts isFixingVulnerability
       dialog_open dialog_error dialog_repositoryName].
  unfold ErrorDialog.shown.
  cbn [dialog_error dialog_repositoryName].
  set (name := option_map full_name
                 (find_repo repositories (repositoryId vuln))).
  destruct (details_are_structured message name)
    as (Ht & Hd & Hn & Hs & Hl).
  split; [reflexivity|]. split.
  { intros i Hi Hopen. exists vuln. split; assumption. }
  split; [reflexivity|]. split; [reflexivity|]. split; [reflexivity|].
  split; [reflexivity|]. split; [reflexivity|].
  split; [exact Ht|]. split; [exact Hd|]. split; [exact Hn|].
  split; [exact Hs|]. split; [exact Hl|].
  split; [apply permission_title_iff|].
  intros r Hr Hrefused.
  rewrite (refused_without_detail_message r Hrefused) in Hr. subst reply.
  injection Hfail as <-.
  rewrite http_error_details.
  split; [reflexivity|]. split; [reflexivity|].
  unfold ErrorDialog.getErrorDetails. reflexivity.
Qed.

Lemma failed_fix_leaves_the_finding_open_witness :
  let mine := finding "CVE-2024-1001" "widgets" "open" in
  let after :=
    handleFixVulnerability [repo "widgets"] mine forbidden (page_with [mine]) in
  let late :=
    handleFixVulnerability [repo "widgets"] mine
      (ApiClient.request (Returned (refusal 403))) (page_with [mine]) in
  List.map status (scannedVulnerabilities after) = ["open"] /\
  ErrorDialog.title (ErrorDialog.shown (errorDialog after)) =
    "Cannot Fix External Repository" /\
  ErrorDialog.title (ErrorDialog.shown (errorDialog late)) =
    "Vulnerability Fix Failed".
Proof.
  cbv zeta.
  pose proof (failed_fix_leaves_the_finding_open [repo "widgets"]
    (finding "CVE-2024-1001" "widgets" "open") forbidden
    "Failed to create branch: Forbidden"
    (page_with [finding "CVE-2024-1001" "widgets" "open"]) eq_refl) as H.
  pose proof (failed_fix_leaves_the_finding_open [repo "widgets"]
    (finding "CVE-2024-1001" "widgets" "open")
    (ApiClient.request (Returned (refusal 403)))
    "HTTP error! status: 403"
    (page_with [finding "CVE-2024-1001" "widgets" "open"]) eq_refl) as H'.
  cbv zeta in H, H'. destruct H as (H & _).
  do 13 (destruct H' as (_ & H')).
  destruct (H' (refusal 403) eq_refl eq_refl) as (_ & _ & Hg).
  rewrite H. split; [vm_compute; reflexivity|].
  split; [vm_compute; reflexivity | exact Hg].
Defined.

Lemma clickable_iff p vuln :
  clickable p vuln = true <->
  status vuln = "open" /\ isFixingVulnerability p <> Some (vuln_id vuln).
Proof.
  unfold clickable, fix_button.
  destruct (String.eqb (status vuln) "open") eqn:Hs.
  - apply String.eqb_eq in Hs.
    destruct (isFixingVulnerability p) as [fixing|].
    + destruct (String.eqb fixing (vuln_id vuln)) eqn:Hf.
      * apply String.eqb_eq in Hf. subst fixing.
        split; [discriminate|]. intros [_ H]. congruence.
      * apply String.eqb_neq in Hf.
        split; [|reflexivity]. intros _. split; [assumption|congruence].
    + split; [|reflexivity]. intros _. split; [assumption|discriminate].
  - apply String.eqb_neq in Hs. split; [discriminate|]. intros [H _]. tauto.
Qed.

Lemma not_clickable_while_fixing p vuln :
  isFixingVulnerability p = Some (vuln_id vuln) -> clickable p vuln = false.
Proof.
  intros H. destruct (clickable p vuln) eqn:E; [|reflexivity].
  apply clickable_iff in E. tauto.
Qed.

(** C7, as the specification states it, fails when another finding is
    clicked in between: A and B are open; "Fix Now" is clicked on A, then
    on B, then on A again while the first request for A still waits for its
    answer.  The second request for A is accepted, two requests for A are
    pending, and both end with a pull request. *)
Lemma second_request_accepted_while_first_is_pending :
  let A := finding "CVE-2024-1001" "r1" "open" in
  let B := finding "CVE-2024-1002" "r1" "open" in
  let s := run [repo "r1"] (session_with [A; B]) [Click 0; Click 1] in
  let s' := step [repo "r1"] s (Click 0) in
  let final := run [repo "r1"] s' [Settle 0 pr42; Settle 1 pr42] in
  pending_requests s "CVE-2024-1001" = 1 /\
  in_flight s' = [A; B; A] /\
  pending_requests s' "CVE-2024-1001" = 2 /\
  in_flight final = [B] /\
  toasts (page final) =
    [CreatingFix "spring-security-core"; CreatingFix "spring-security-core";
     CreatingFix "spring-security-core";
     FixPullRequestCreated 42 "https://github.com/acme/widgets/pull/42"
       "spring-security-core";
     FixPullRequestCreated 42 "https://github.com/acme/widgets/pull/42"
       "spring-security-core"] /\
  ~ (pending_requests s "CVE-2024-1001" > 0 -> s' = s).
Proof.
  cbv zeta. repeat (split; [vm_compute; reflexivity|]).
  intros H. assert (Hs : pending_requests
    (run [repo "r1"]
       (session_with [finding "CVE-2024-1001" "r1" "open";
                      finding "CVE-2024-1002" "r1" "open"])
       [Click 0; Click 1]) "CVE-2024-1001" > 0) by (vm_compute; lia).
  specialize (H Hs). apply (f_equal in_flight) in H.
  vm_compute in H. discriminate.
Qed.

(** C7, amended: a fix can be requested for a finding only while its status
    is [open] and it is not the finding the page records as being fixed;
    otherwise the button is absent or disabled and a click changes nothing
    (no error is raised, nothing is queued).  An accepted click starts one
    request, records the finding as being fixed, and a click on the same
    finding right after it is not accepted. *)
Theorem fix_is_offered_for_open_findings_only repositories s row vuln :
  scannedVulnerabilities (page s) !! row = Some vuln ->
  (clickable (page s) vuln = true <->
   status vuln = "open" /\
   isFixingVulnerability (page s) <> Some (vuln_id vuln)) /\
  (clickable (page s) vuln = false ->
   step repositories s (Click row) = s) /\
  (clickable (page s) vuln = true ->
   let s' := step repositories s (Click row) in
   in_flight s' = (in_flight s ++ [vuln])%list /\
   scannedVulnerabilities (page s') = scannedVulnerabilities (page s) /\
   isFixingVulnerability (page s') = Some (vuln_id vuln) /\
   step repositories s' (Click row) = s').
Proof.
  intros Hrow. split; [apply clickable_iff|]. split.
  - intros Hc. unfold step. rewrite Hrow, Hc. reflexivity.
  - intros Hc.
    assert (Hstep : step repositories s (Click row) =
                    {| page := fix_begin vuln (page s);
                       in_flight := in_flight s ++ [vuln] |}).
    { unfold step. rewrite Hrow, Hc. reflexivity. }
    cbv zeta. rewrite Hstep. simpl. repeat split.
    unfold step; simpl. rewrite Hrow.
    rewrite not_clickable_while_fixing; reflexivity.
Qed.

Lemma fix_is_offered_for_open_findings_only_witness :
  let A := finding "CVE-2024-1001" "r1" "open" in
  let s := session_with [A] in
  clickable (page s) A = true /\
  step [repo "r1"] (step [repo "r1"] s (Click 0)) (Click 0) =
  step [repo "r1"] s (Click 0).
Proof.
  cbv zeta.
  pose proof (fix_is_offered_for_open_findings_only [repo "r1"]
    (session_with [finding "CVE-2024-1001" "r1" "open"]) 0
    (finding "CVE-2024-1001" "r1" "open") eq_refl) as (_ & _ & H).
  split; [reflexivity|]. apply (H eq_refl).
Defined.

End FixFacts.

(** ** The recent-activity feed *)

Module FeedFacts.

Import RecentActivity FeedScenario.

(** C2, as the specification states it, at a concrete pass: the feed shows
    one entry, nothing is persisted locally, and the query throws.  After
    the pass the feed is not what it was (it shows the welcome entry), and
    the reported error is a fixed text that does not carry the cause. *)
Lemma failed_pass_replaces_the_feed :
  let entry := generateActivityFromScanResult noon (row "s1" noon)
                 (Some "widgets") database in
  let before := idle [entry] in
  let after := fetchRecentActivity noon no_date (Some "u1") empty_storage
                 (Threw "database is locked") before in
  activities after <> activities before /\
  activities after = [sample_activity] /\
  hook_error after = Some "Failed to fetch recent activity".
Proof.
  cbv zeta. split; [|split]; try reflexivity.
  vm_compute. discriminate.
Qed.

(** C2, amended: when the query fails during a pass of a signed-in user,
    no database row is merged; the feed becomes the first 20 locally
    persisted activities or, when there is none, the single welcome entry;
    the error reported is the fixed text [Failed to fetch recent activity],
    whatever the cause; the loading flag is cleared.  The result does not
    depend on the feed before the pass. *)
Theorem failed_pass_falls_back_to_persisted_data
    now Date_parse user ls reply before :
  query_failed reply = true ->
  let after :=
    fetchRecentActivity now Date_parse (Some user) ls reply before in
  activities after =
    match loadPersistedData now ls with
    | [] => [sample_activity]
    | persisted => take feed_length persisted
    end /\
  hook_error after = Some "Failed to fetch recent activity" /\
  loading after = false.
Proof.
  intros Hfail after. subst after. unfold fetchRecentActivity.
  destruct reply as [[rows [cause|]]|cause]; simpl in Hfail;
    try discriminate; unfold fetch_catch; simpl;
    (split; [|split; reflexivity]);
    destruct (loadPersistedData now ls); reflexivity.
Qed.

Lemma failed_pass_falls_back_to_persisted_data_witness :
  activities
    (fetchRecentActivity noon no_date (Some "u1") empty_storage
       (Threw "database is locked") (idle [])) = [sample_activity].
Proof.
  pose proof (failed_pass_falls_back_to_persisted_data noon no_date "u1"
    empty_storage (Threw "database is locked") (idle []) eq_refl) as H.
  cbv zeta in H. destruct H as [H _]. rewrite H. reflexivity.
Defined.

(** *** Removal of duplicates *)

Lemma find_app {A} (f : A -> bool) l1 l2 :
  List.find f (l1 ++ l2) =
  match List.find f l1 with
  | Some x => Some x
  | None => List.find f l2
  end.
Proof.
  induction l1 as [|x l1 IH]; simpl; [reflexivity|].
  destruct (f x); [reflexivity|exact IH].
Qed.

Lemma find_none_iff {A} (f : A -> bool) l :
  List.find f l = None <-> forall x, In x l -> f x = false.
Proof.
  split.
  - apply find_none.
  - induction l as [|x l IH]; simpl; [reflexivity|]. intros H.
    rewrite (H x (or_introl eq_refl)). apply IH. intros y Hy.
    apply H. right. exact Hy.
Qed.

Lemma has_id_true k a : has_id k a = true <-> act_id a = k.
Proof. apply String.eqb_eq. Qed.

Lemma has_id_false k a : has_id k a = false <-> act_id a <> k.
Proof. apply String.eqb_neq. Qed.

(** How the winner of an id changes when one more entry is read. *)
Lemma winner_snoc k l x :
  winner k (l ++ [x]) =
  match winner k l with
  | None => if has_id k x then Some x else None
  | Some w =>
      if has_id k x && from_database x && from_local w
      then Some x else Some w
  end.
Proof.
  unfold winner. rewrite !find_app. simpl.
  destruct (List.find (has_id k) l) as [first|] eqn:Hfirst.
  - destruct (from_local first) eqn:Hloc.
    + destruct (List.find (fun a => has_id k a && from_database a) l)
        as [d|] eqn:Hd.
      * apply find_some in Hd. destruct Hd as [_ Hd].
        apply andb_prop in Hd. destruct Hd as [_ Hd].
        assert (from_local d = false) as ->.
        { unfold from_database, from_local in *.
          destruct (source d) as [[]|]; congruence. }
        rewrite andb_false_r. reflexivity.
      * rewrite Hloc, andb_true_r.
        destruct (has_id k x && from_database x); reflexivity.
    + rewrite Hloc, andb_false_r. reflexivity.
  - destruct (has_id k x) eqn:Hx; [|reflexivity].
    destruct (from_local x) eqn:Hloc; [|reflexivity].
    assert (List.find (fun a => has_id k a && from_database a) l = None)
      as ->.
    { apply find_none_iff. intros y Hy.
      rewrite (find_none _ _ Hfirst y Hy). reflexivity. }
    simpl.
    assert (from_database x = false) as ->.
    { unfold from_database, from_local in *.
      destruct (source x) as [[]|]; congruence. }
    reflexivity.
Qed.

Lemma uniqueActivities_snoc l x :
  uniqueActivities (l ++ [x]) = dedupe_step (uniqueActivities l) x.
Proof. unfold uniqueActivities. rewrite fold_left_app. reflexivity. Qed.

Lemma winner_none_not_in k l :
  (forall a, In a l -> act_id a <> k) -> winner k l = None.
Proof.
  intros H. unfold winner.
  assert (List.find (has_id k) l = None) as ->; [|reflexivity].
  apply find_none_iff. intros a Ha. apply has_id_false, H, Ha.
Qed.

Lemma NoDup_map_same_key (u : list ActivityItem) a b :
  NoDup (List.map act_id u) -> In a u -> In b u ->
  act_id a = act_id b -> a = b.
Proof.
  induction u as [|c u IH]; simpl; [tauto|].
  intros Hnd Ha Hb Heq.
  apply list.NoDup_cons in Hnd. destruct Hnd as [Hc Hnd].
  rewrite list_elem_of_In in Hc.
  destruct Ha as [<-|Ha], Hb as [<-|Hb].
  - reflexivity.
  - exfalso. apply Hc. rewrite Heq. apply in_map, Hb.
  - exfalso. apply Hc. rewrite <- Heq. apply in_map, Ha.
  - apply IH; assumption.
Qed.

Lemma insert_same_key (u : list ActivityItem) i e x :
  u !! i = Some e -> act_id x = act_id e ->
  List.map act_id (<[i := x]> u) = List.map act_id u.
Proof.
  revert i. induction u as [|c u IH]; intros [|i] Hi Hx; simpl in *;
    try discriminate.
  - injection Hi as ->. rewrite Hx. reflexivity.
  - f_equal. apply IH; assumption.
Qed.

Lemma in_insert (u : list ActivityItem) i e x a :
  u !! i = Some e -> In a (<[i := x]> u) -> a = x \/ (In a u /\ a <> e) \/
  (In a u /\ exists j, j <> i /\ u !! j = Some a).
Proof.
  intros Hi Ha. apply list_elem_of_In, list_elem_of_lookup in Ha.
  destruct Ha as [j Hj].
  destruct (decide (i = j)) as [->|Hne].
  - rewrite list_lookup_insert_eq in Hj
      by (eapply lookup_lt_Some; exact Hi).
    left. congruence.
  - rewrite list_lookup_insert_ne in Hj by exact Hne.
    right. right. split.
    + apply list_elem_of_In, list_elem_of_lookup. eauto.
    + exists j. split; [congruence|exact Hj].
Qed.

Lemma NoDup_map_lookup (u : list ActivityItem) i j a b :
  NoDup (List.map act_id u) -> u !! i = Some a -> u !! j = Some b ->
  act_id a = act_id b -> i = j.
Proof.
  intros Hnd Hi Hj Heq.
  apply (NoDup_lookup (List.map act_id u) i j (act_id a)).
  - exact Hnd.
  - change (List.map act_id u) with (act_id <$> u).
    rewrite list_lookup_fmap, Hi. reflexivity.
  - change (List.map act_id u) with (act_id <$> u).
    rewrite list_lookup_fmap, Hj, Heq. reflexivity.
Qed.

Lemma dedupe_step_keeps l u x :
  deduplicated l u -> deduplicated (l ++ [x]) (dedupe_step u x).
Proof.
  intros [Hnd Hwin Hids]. unfold dedupe_step.
  destruct (list_find (fun a => act_id a = act_id x) u) as [[i e]|] eqn:Hfind.
  - apply list_find_Some in Hfind. destruct Hfind as (Hi & He & _).
    assert (Hein : In e u).
    { apply list_elem_of_In, list_elem_of_lookup. eauto. }
    assert (Hwe : winner (act_id x) l = Some e).
    { rewrite <- He. apply Hwin, Hein. }
    assert (Hother : forall a, In a u -> act_id a <> act_id x ->
                       winner (act_id a) (l ++ [x]) = Some a).
    { intros a Ha Hne. rewrite winner_snoc, (Hwin a Ha).
      assert (has_id (act_id a) x = false) as ->; [|reflexivity].
      apply has_id_false. congruence. }
    assert (Hidsx : forall a, In a (l ++ [x]) ->
                      In (act_id a) (List.map act_id u)).
    { intros a Ha. apply in_app_or in Ha. destruct Ha as [Ha|[<-|[]]].
      - apply Hids, Ha.
      - rewrite <- He. apply in_map, Hein. }
    assert (Hkeep : forall a, In a u ->
              (has_id (act_id x) x && from_database x && from_local e = false) ->
              winner (act_id a) (l ++ [x]) = Some a).
    { intros a Ha Hc.
      destruct (String.eqb (act_id a) (act_id x)) eqn:Hax.
      - apply String.eqb_eq in Hax.
        assert (a = e) as -> by
          (apply (NoDup_map_same_key u); congruence).
        rewrite He, winner_snoc, Hwe, Hc. reflexivity.
      - apply String.eqb_neq in Hax. apply Hother; assumption. }
    destruct (source x) as [[]|] eqn:Hsx;
      [destruct (source e) as [[]|] eqn:Hse|..].
    + (* database over database *)
      split; auto. intros a Ha. apply Hkeep; [exact Ha|].
      unfold from_local. rewrite Hse. apply andb_false_r.
    + (* database over local: the entry is replaced in its place *)
      split.
      * rewrite (insert_same_key u i e x Hi (eq_sym He)). exact Hnd.
      * intros a Ha.
        destruct (in_insert u i e x a Hi Ha) as [->|[[Hau Hne]|[Hau Hj]]].
        -- rewrite winner_snoc, Hwe.
           unfold from_database, from_local. rewrite Hsx, Hse.
           assert (has_id (act_id x) x = true) as ->
             by (apply has_id_true; reflexivity).
           reflexivity.
        -- apply Hother; [exact Hau|]. intros Heq. apply Hne.
           apply (NoDup_map_same_key u); congruence.
        -- destruct Hj as (j & Hji & Hj). apply Hother; [exact Hau|].
           intros Heq. apply Hji.
           apply (NoDup_map_lookup u j i a e); congruence.
      * intros a Ha.
        rewrite (insert_same_key u i e x Hi (eq_sym He)). apply Hidsx, Ha.
    + split; auto. intros a Ha. apply Hkeep; [exact Ha|].
      unfold from_local. rewrite Hse. apply andb_false_r.
    + split; auto. intros a Ha. apply Hkeep; [exact Ha|].
      unfold from_database. rewrite Hsx.
      rewrite andb_false_r. reflexivity.
    + split; auto. intros a Ha. apply Hkeep; [exact Ha|].
      unfold from_database. rewrite Hsx.
      rewrite andb_false_r. reflexivity.
  - apply list_find_None in Hfind.
    assert (Hfresh : ~ In (act_id x) (List.map act_id u)).
    { intros Hin. apply in_map_iff in Hin. destruct Hin as (a & Ha & Hau).
      rewrite Forall_forall in Hfind.
      exact (Hfind a Hau Ha). }
    split.
    + rewrite map_app. simpl. apply list.NoDup_app.
      split; [exact Hnd|]. split.
      * intros k Hk Hk'. apply list_elem_of_In in Hk.
        apply list_elem_of_In in Hk'. destruct Hk' as [<-|[]].
        apply Hfresh, Hk.
      * apply NoDup_singleton.
    + intros a Ha. apply in_app_or in Ha. destruct Ha as [Ha|[<-|[]]].
      * rewrite winner_snoc, (Hwin a Ha).
        assert (has_id (act_id a) x = false) as ->; [|reflexivity].
        apply has_id_false. intros Heq. apply Hfresh. rewrite Heq.
        apply in_map, Ha.
      * rewrite winner_snoc, winner_none_not_in.
        -- assert (has_id (act_id x) x = true) as ->
             by (apply has_id_true; reflexivity).
           reflexivity.
        -- intros b Hb Heq. apply Hfresh. rewrite <- Heq. apply Hids, Hb.
    + intros a Ha. rewrite map_app. apply in_or_app.
      apply in_app_or in Ha. destruct Ha as [Ha|[<-|[]]].
      * left. apply Hids, Ha.
      * right. left. reflexivity.
Qed.

Lemma uniqueActivities_deduplicated l :
  deduplicated l (uniqueActivities l).
Proof.
  induction l as [|x l IH] using rev_ind.
  - split; simpl; [apply NoDup_nil_2|tauto..].
  - rewrite uniqueActivities_snoc. apply dedupe_step_keeps, IH.
Qed.

Lemma local_winner_no_database k l w x :
  winner k l = Some w -> from_local w = true ->
  In x l -> act_id x = k -> from_database x = false.
Proof.
  unfold winner. intros Hw Hloc Hx Hk.
  destruct (List.find (has_id k) l) as [first|] eqn:Hfirst; [|discriminate].
  destruct (from_local first) eqn:Hf.
  - destruct (List.find (fun a => has_id k a && from_database a) l)
      as [d|] eqn:Hd.
    + injection Hw as ->. apply find_some in Hd. destruct Hd as [_ Hd].
      apply andb_prop in Hd. destruct Hd as [_ Hd].
      unfold from_database, from_local in *.
      destruct (source w) as [[]|]; congruence.
    + pose proof (find_none _ _ Hd x Hx) as Hn. simpl in Hn.
      apply has_id_true in Hk. rewrite Hk in Hn. exact Hn.
  - injection Hw as ->. congruence.
Qed.

(** Reading again an entry that was read before changes nothing. *)
Lemma dedupe_step_again l u x :
  deduplicated l u -> In x l -> dedupe_step u x = u.
Proof.
  intros [Hnd Hwin Hids] Hx. unfold dedupe_step.
  destruct (list_find (fun a => act_id a = act_id x) u) as [[i e]|] eqn:Hfind.
  - apply list_find_Some in Hfind. destruct Hfind as (Hi & He & _).
    destruct (source x) as [[]|] eqn:Hsx; try reflexivity.
    destruct (source e) as [[]|] eqn:Hse; try reflexivity.
    exfalso.
    assert (Hein : In e u).
    { apply list_elem_of_In, list_elem_of_lookup. eauto. }
    assert (Hd : from_database x = false).
    { apply (local_winner_no_database (act_id e) l e x).
      - apply Hwin, Hein.
      - unfold from_local. rewrite Hse. reflexivity.
      - exact Hx.
      - congruence. }
    unfold from_database in Hd. rewrite Hsx in Hd. discriminate.
  - exfalso. apply list_find_None in Hfind.
    pose proof (Hids x Hx) as Hin. apply in_map_iff in Hin.
    destruct Hin as (a & Ha & Hau).
    rewrite Forall_forall in Hfind. exact (Hfind a Hau Ha).
Qed.

Lemma uniqueActivities_twice l :
  uniqueActivities (l ++ l) = uniqueActivities l.
Proof.
  unfold uniqueActivities. rewrite fold_left_app.
  pose proof (uniqueActivities_deduplicated l) as Hd.
  unfold uniqueActivities in Hd.
  assert (H : forall l', (forall x, In x l' -> In x l) ->
            fold_left dedupe_step l' (fold_left dedupe_step l []) =
            fold_left dedupe_step l []).
  { induction l' as [|x l' IH]; intros Hsub; simpl; [reflexivity|].
    rewrite (dedupe_step_again l _ x Hd) by (apply Hsub; left; reflexivity).
    apply IH. intros y Hy. apply Hsub. right. exact Hy. }
  apply H. auto.
Qed.

(** *** The order of the de-duplicated entries *)

Lemma mem_ids_true k ks : mem_ids k ks = true <-> In k ks.
Proof.
  unfold mem_ids. rewrite existsb_exists. split.
  - intros (x & Hx & Heq). apply String.eqb_eq in Heq. subst x. exact Hx.
  - intros Hk. exists k. split; [exact Hk|apply String.eqb_refl].
Qed.

Lemma mem_ids_false k ks : mem_ids k ks = false <-> ~ In k ks.
Proof.
  rewrite <- mem_ids_true. destruct (mem_ids k ks); split; congruence.
Qed.

Lemma first_ids_snoc ks k :
  first_ids (ks ++ [k]) =
  if mem_ids k ks then first_ids ks else (first_ids ks ++ [k])%list.
Proof.
  induction ks as [|a ks IH]; simpl; [reflexivity|].
  rewrite IH. unfold mem_ids at 2. simpl. fold (mem_ids k ks).
  destruct (String.eqb k a) eqn:Hka; simpl.
  - apply String.eqb_eq in Hka. subst a.
    destruct (mem_ids k ks); [reflexivity|].
    rewrite List.filter_app. simpl. rewrite String.eqb_refl. simpl.
    rewrite app_nil_r. reflexivity.
  - destruct (mem_ids k ks); [reflexivity|].
    rewrite List.filter_app. simpl. rewrite Hka. reflexivity.
Qed.

Lemma dedupe_step_ids u x :
  List.map act_id (dedupe_step u x) =
  if mem_ids (act_id x) (List.map act_id u)
  then List.map act_id u
  else (List.map act_id u ++ [act_id x])%list.
Proof.
  unfold dedupe_step.
  destruct (list_find (fun a => act_id a = act_id x) u) as [[i e]|] eqn:Hfind.
  - apply list_find_Some in Hfind. destruct Hfind as (Hi & He & _).
    assert (mem_ids (act_id x) (List.map act_id u) = true) as ->.
    { apply mem_ids_true. rewrite <- He. apply in_map.
      apply list_elem_of_In, list_elem_of_lookup. eauto. }
    destruct (source x) as [[]|]; try reflexivity.
    destruct (source e) as [[]|]; try reflexivity.
    apply (insert_same_key u i e x Hi (eq_sym He)).
  - apply list_find_None in Hfind. rewrite Forall_forall in Hfind.
    assert (mem_ids (act_id x) (List.map act_id u) = false) as ->.
    { apply mem_ids_false. intros Hin. apply in_map_iff in Hin.
      destruct Hin as (a & Ha & Hau). exact (Hfind a Hau Ha). }
    apply map_app.
Qed.

Lemma first_ids_mem k ks : mem_ids k (first_ids ks) = mem_ids k ks.
Proof.
  induction ks as [|a ks IH] using rev_ind; [reflexivity|].
  rewrite first_ids_snoc.
  destruct (mem_ids a ks) eqn:Ha.
  - rewrite IH. unfold mem_ids. rewrite existsb_app. simpl.
    fold (mem_ids k ks). rewrite orb_false_r.
    destruct (String.eqb k a) eqn:Hk; [|symmetry; apply orb_false_r].
    apply String.eqb_eq in Hk. subst k. rewrite Ha. reflexivity.
  - unfold mem_ids. rewrite !existsb_app.
    fold (mem_ids k (first_ids ks)) (mem_ids k ks). rewrite IH. reflexivity.
Qed.

(** The entries are kept in the order in which their ids were first read. *)
Lemma uniqueActivities_ids l :
  List.map act_id (uniqueActivities l) = first_ids (List.map act_id l).
Proof.
  induction l as [|x l IH] using rev_ind; [reflexivity|].
  rewrite uniqueActivities_snoc, dedupe_step_ids, map_app. simpl.
  rewrite first_ids_snoc, IH, first_ids_mem. reflexivity.
Qed.

(** C5, as the specification states it, at a concrete pass: the locally
    persisted entry of a scan result is read first, the database entry of
    the same result second.  The feed keeps the second one. *)
Lemma database_entry_replaces_the_first_occurrence :
  let first := generateActivityFromScanResult noon (row "s1" noon)
                 (Some "widgets") local in
  let second := generateActivityFromScanResult noon (row "s1" noon)
                  (Some "widgets") database in
  act_id first = act_id second /\
  uniqueActivities [first; second] = [second] /\
  ~ (forall a, In a (uniqueActivities [first; second]) ->
       List.find (has_id (act_id a)) [first; second] = Some a).
Proof.
  cbv zeta. split; [reflexivity|]. split; [vm_compute; reflexivity|].
  intros H. specialize (H _ (or_introl eq_refl)).
  vm_compute in H. discriminate.
Qed.

(** C5, amended: after duplicates are removed the feed holds exactly one
    entry for every id of the input and none else; the entry kept for an id
    is the first one read with it, except that a local first entry gives way
    to the first database entry with the same id; the entries stand in the
    order in which their ids were first read; reading the same entries a
    second time leaves the list as it is. *)
Theorem one_entry_per_id_database_preferred l :
  List.NoDup (List.map act_id (uniqueActivities l)) /\
  (forall k, In k (List.map act_id (uniqueActivities l)) <->
             In k (List.map act_id l)) /\
  (forall a, In a (uniqueActivities l) -> winner (act_id a) l = Some a) /\
  (forall a first, In a (uniqueActivities l) ->
     List.find (has_id (act_id a)) l = Some first ->
     from_local first = false -> a = first) /\
  List.map act_id (uniqueActivities l) = first_ids (List.map act_id l) /\
  uniqueActivities (l ++ l) = uniqueActivities l.
Proof.
  destruct (uniqueActivities_deduplicated l) as [Hnd Hwin Hids].
  split; [apply NoDup_ListNoDup, Hnd|].
  split; [|split; [exact Hwin|split; [|split]]].
  - intros k. split.
    + intros Hk. apply in_map_iff in Hk. destruct Hk as (a & <- & Ha).
      pose proof (Hwin a Ha) as Hw. unfold winner in Hw.
      destruct (List.find (has_id (act_id a)) l) as [first|] eqn:Hf;
        [|discriminate].
      apply find_some in Hf. destruct Hf as [Hin Hid].
      apply has_id_true in Hid. rewrite <- Hid. apply in_map, Hin.
    + intros Hk. apply in_map_iff in Hk. destruct Hk as (a & <- & Ha).
      apply Hids, Ha.
  - intros a first Ha Hfirst Hloc. pose proof (Hwin a Ha) as Hw.
    unfold winner in Hw. rewrite Hfirst, Hloc in Hw. congruence.
  - apply uniqueActivities_ids.
  - apply uniqueActivities_twice.
Qed.

Lemma one_entry_per_id_database_preferred_witness :
  let a := generateActivityFromScanResult noon (row "s1" noon)
             (Some "widgets") database in
  uniqueActivities [a; a] = [a].
Proof.
  cbv zeta.
  destruct (one_entry_per_id_database_preferred
    [generateActivityFromScanResult noon (row "s1" noon)
       (Some "widgets") database]) as (_ & _ & _ & _ & _ & H).
  simpl app in H. rewrite H. vm_compute. reflexivity.
Defined.

(** *** Order and length of the feed *)

Section Sorting.

Variable now : Z.
Variable Date_parse : string -> option Z.

Lemma insert_sorted_perm x l : Permutation (insert_sorted now Date_parse x l) (x :: l).
Proof.
  induction l as [|y l IH]; simpl; [reflexivity|].
  destruct (after now Date_parse x y); [|reflexivity].
  rewrite IH. apply perm_swap.
Qed.

Lemma sort_perm l : Permutation (sort now Date_parse l) l.
Proof.
  induction l as [|x l IH]; simpl; [reflexivity|].
  unfold RecentActivity.sort in *. simpl.
  rewrite insert_sorted_perm. apply perm_skip, IH.
Qed.

Lemma sort_length l : length (sort now Date_parse l) = length l.
Proof. apply Permutation_length, sort_perm. Qed.

(** Entries the comparator does not separate keep their order. *)
Lemma sort_ties l :
  (forall a b, In a l -> In b l -> after now Date_parse a b = false) -> sort now Date_parse l = l.
Proof.
  induction l as [|x l IH]; intros H; [reflexivity|].
  unfold RecentActivity.sort in *. simpl. rewrite IH.
  - destruct l as [|y l]; simpl; [reflexivity|].
    rewrite (H x y); [reflexivity|left; reflexivity|right; left; reflexivity].
  - intros a b Ha Hb. apply H; right; assumption.
Qed.

End Sorting.

Lemma includes_app_r a b needle :
  includes b needle = true -> includes (a ++ b) needle = true.
Proof.
  intros H. induction a as [|c a IH]; simpl; [exact H|].
  rewrite IH. apply orb_true_r.
Qed.

Lemma winner_in k l a : winner k l = Some a -> In a l.
Proof.
  unfold winner.
  destruct (List.find (has_id k) l) as [first|] eqn:Hf; [|discriminate].
  destruct (from_local first).
  - destruct (List.find (fun a => has_id k a && from_database a) l)
      as [d|] eqn:Hd; intros [= <-].
    + apply find_some in Hd. tauto.
    + apply find_some in Hf. tauto.
  - intros [= <-]. apply find_some in Hf. tauto.
Qed.

Lemma uniqueActivities_subset l a : In a (uniqueActivities l) -> In a l.
Proof.
  intros Ha. destruct (uniqueActivities_deduplicated l) as [_ Hwin _].
  eapply winner_in, Hwin, Ha.
Qed.

(** C6, as the specification states it, at a concrete pass: the query
    returns two results created at the same instant, five minutes before
    the pass, [s2] before [s1].  The feed keeps them in that order, whatever
    the engine's date parser does: the tie is not broken by id. *)
Lemma feed_ties_are_not_ordered_by_id :
  let t := (noon - 300000)%Z in
  let rows := [(row "s2" t, Some "widgets"); (row "s1" t, Some "widgets")] in
  ~ exists Date_parse,
      StronglySorted (in_feed_order (fun _ => t))
        (activities
           (fetchRecentActivity noon Date_parse (Some "u1") empty_storage
              (Returned {| data := Some rows; scanError := None |})
              (idle []))).
Proof.
  cbv zeta. intros [Date_parse H].
  apply StronglySorted_inv in H. destruct H as [_ H].
  apply Forall_inv in H. destruct H as [H|[_ H]].
  - lia.
  - vm_compute in H. discriminate.
Qed.

(** C6, amended: the feed a successful pass emits is the first 20 entries
    of a stable reordering of the de-duplicated entries.  It never has more
    than 20 entries (20 is a constant of the code) and has all of them when
    there are at most 20; each of its entries is a de-duplicated entry;
    entries that the comparator does not separate keep the order they were
    read in, no tie is broken by id. *)
Theorem feed_is_first_twenty_of_a_stable_reordering
    now Date_parse user ls rows before :
  let unique :=
    uniqueActivities
      (loadPersistedData now ls ++
       List.map (fun r => generateActivityFromScanResult now (fst r) (snd r)
                            database)
         (match rows with Some l => l | None => [] end)) in
  let feed :=
    activities
      (fetchRecentActivity now Date_parse (Some user) ls
         (Returned {| data := rows; scanError := None |}) before) in
  feed = take feed_length (sort now Date_parse unique) /\
  length feed = Nat.min feed_length (length unique) /\
  Permutation unique (feed ++ drop feed_length (sort now Date_parse unique)) /\
  (forall a, In a feed -> In a unique) /\
  ((forall a b, In a unique -> In b unique ->
      after now Date_parse a b = false) ->
   feed = take feed_length unique).
Proof.
  intros unique feed. subst feed. simpl. fold unique.
  unfold sortedActivities. fold feed_length.
  split; [reflexivity|]. split; [|split; [|split]].
  - rewrite length_take, sort_length. reflexivity.
  - rewrite take_drop. symmetry. apply sort_perm.
  - intros a Ha. apply (Permutation_in a (sort_perm now Date_parse unique)).
    apply list_elem_of_In. apply list_elem_of_In in Ha.
    apply elem_of_take in Ha. destruct Ha as (i & Hi & _).
    eapply list_elem_of_lookup_2, Hi.
  - intros H. rewrite sort_ties by exact H. reflexivity.
Qed.

Lemma feed_is_first_twenty_of_a_stable_reordering_witness :
  let t := (noon - 300000)%Z in
  let rows := [(row "s2" t, Some "widgets"); (row "s1" t, Some "widgets")] in
  List.map act_id
    (activities
       (fetchRecentActivity noon no_date (Some "u1") empty_storage
          (Returned {| data := Some rows; scanError := None |}) (idle [])))
  = ["s2"; "s1"].
Proof.
  cbv zeta.
  destruct (feed_is_first_twenty_of_a_stable_reordering noon no_date "u1"
    empty_storage
    (Some [(row "s2" (noon - 300000), Some "widgets");
           (row "s1" (noon - 300000), Some "widgets")]) (idle []))
    as (_ & _ & _ & _ & H).
  rewrite H.
  - vm_compute. reflexivity.
  - intros a b Ha Hb. vm_compute in Ha, Hb.
    destruct Ha as [<-|[<-|[]]], Hb as [<-|[<-|[]]]; vm_compute; reflexivity.
Defined.

End FeedFacts.

(** ** The bulk fix function *)

Module BulkFacts.

Import ImproveCoverage CoverageScenario.

(** Uploading the test files pushes nothing: it returns or throws and
    leaves [results] as it is. *)
Lemma upload_all_eq gh branch testFiles results :
  upload_all gh branch testFiles results =
  (uploaded gh branch testFiles, results).
Proof.
  unfold uploaded. induction testFiles as [|f rest IH]; simpl; [reflexivity|].
  unfold bind, await. destruct (createOrUpdateFile gh f branch) as [[]|m];
    [|reflexivity].
  rewrite IH. reflexivity.
Qed.

(** One turn of the loop pushes exactly one entry, for its repository, and
    the entry does not depend on what was pushed before. *)
Lemma process_pushes_one gh repo results :
  exists r, snd (process gh repo results) = (results ++ [r])%list /\
            repositoryId r = id repo /\
            alone gh repo = [r].
Proof.
  unfold alone, process, try_catch, bind, await, push.
  destruct (get_repo gh) as [repoResponse|m]; simpl; [|eauto].
  destruct (repo_ok repoResponse); simpl; [|eauto].
  destruct (default_branch repoResponse) as [defaultBranch|m]; simpl; [|eauto].
  destruct (get_base_sha gh defaultBranch) as [baseSha|m]; simpl; [|eauto].
  destruct (create_branch gh _ baseSha) as [[]|m]; simpl; [|eauto].
  destruct (generateTestFiles gh) as [testFiles|m]; simpl; [|eauto].
  rewrite !upload_all_eq.
  destruct (uploaded gh _ testFiles) as [[]|m]; simpl; [|eauto].
  destruct (create_pull_request gh _ defaultBranch) as [prResponse|m];
    simpl; [|eauto].
  destruct (pr_ok prResponse); simpl; [|eauto].
  destruct (pr_data prResponse) as [prData|m]; simpl; eauto.
Qed.

Lemma process_all_results world repositories : forall i results,
  exists added,
    process_all world i repositories results = (results ++ added)%list /\
    List.map repositoryId added = List.map id repositories /\
    forall j repo, repositories !! j = Some repo ->
      exists r, added !! j = Some r /\ alone (world (i + j)) repo = [r].
Proof.
  induction repositories as [|repo rest IH]; intros i results; simpl.
  - exists []. rewrite app_nil_r. repeat split. intros j r H.
    rewrite lookup_nil in H. discriminate.
  - destruct (process_pushes_one (world i) repo results) as (r & Hr & Hid & Ha).
    rewrite Hr.
    destruct (IH (S i) (results ++ [r])%list) as (added & Hadd & Hids & Hnth).
    exists (r :: added). split; [|split].
    + rewrite Hadd, <- app_assoc. reflexivity.
    + simpl. rewrite Hid, Hids. reflexivity.
    + intros [|j] repo' Hj; simpl in *.
      * injection Hj as <-. exists r. rewrite Nat.add_0_r. auto.
      * destruct (Hnth j repo' Hj) as (r' & Hr' & Ha').
        exists r'. split; [exact Hr'|].
        replace (i + S j) with (S i + j) by lia. exact Ha'.
Qed.

(** C8: the bulk function handles the repositories of a request one after
    the other, in the order of the list; whatever happens to one of them (it
    cannot be reached, a request throws, the pull request is refused), the
    loop goes on with the next; the caller gets one result per repository,
    in the same order, and the result of a repository is the one it gets
    when it is handled on its own. *)
Theorem every_repository_gets_its_own_result world repositories :
  let results := process_all world 0 repositories [] in
  List.map repositoryId results = List.map id repositories /\
  length results = length repositories /\
  (forall i repo, repositories !! i = Some repo ->
     exists r, results !! i = Some r /\
               alone (world i) repo = [r] /\
               repositoryId r = id repo) /\
  (forall token, repositories <> [] -> truthy (Some token) = true ->
     serve "POST" (Returned (Some repositories)) (Some token) world =
     Ok results).
Proof.
  intros results.
  assert (Hserve : forall token, repositories <> [] ->
            truthy (Some token) = true ->
            serve "POST" (Returned (Some repositories)) (Some token) world =
            Ok results).
  { intros token Hne Htoken.
    destruct repositories as [|repo rest]; [contradiction|].
    unfold serve. change (String.eqb "POST" "OPTIONS") with false.
    cbv iota. rewrite Htoken. reflexivity. }
  revert Hserve. subst results.
  destruct (process_all_results world repositories 0 [])
    as (added & -> & Hids & Hnth). simpl. intros Hserve.
  split; [exact Hids|]. split; [|split; [|exact Hserve]].
  - rewrite <- (length_map repositoryId added), Hids. apply length_map.
  - intros i repo Hi. destruct (Hnth i repo Hi) as (r & Hr & Ha).
    exists r. split; [exact Hr|]. split; [exact Ha|].
    assert (Hl : List.map repositoryId added !! i = Some (repositoryId r)).
    { change (List.map repositoryId added) with (repositoryId <$> added).
      rewrite list_lookup_fmap, Hr. reflexivity. }
    rewrite Hids in Hl.
    change (List.map id repositories) with (id <$> repositories) in Hl.
    rewrite list_lookup_fmap, Hi in Hl. simpl in Hl. congruence.
Qed.

Lemma every_repository_gets_its_own_result_witness :
  serve "POST" (Returned (Some [widgets; gadgets])) (Some "ghp_token")
    first_fails =
  Ok (process_all first_fails 0 [widgets; gadgets] []) /\
  List.map (fun r => (repositoryId r, success r))
    (process_all first_fails 0 [widgets; gadgets] []) =
  [("r1", false); ("r2", true)].
Proof.
  destruct (every_repository_gets_its_own_result first_fails
              [widgets; gadgets]) as (_ & _ & _ & H).
  split.
  - apply H; [discriminate|reflexivity].
  - vm_compute. reflexivity.
Defined.


End BulkFacts.

(** ** The version scan *)

Module VersionFacts.

Import Vulnerabilities ScanUpdates VersionScenario.

Lemma version_in_iff v versions : version_in v versions = true <-> In v versions.
Proof.
  unfold version_in. rewrite existsb_exists. split.
  - intros (x & Hx & Heq). apply String.eqb_eq in Heq. subst x. exact Hx.
  - intros Hv. exists v. split; [exact Hv|apply String.eqb_refl].
Qed.

(** The flag of one detection. *)
Lemma needs_update_iff technology v :
  needs_update technology v = true <->
  In v (versions_of technology) /\ v <> latest_of (versions_of technology).
Proof.
  unfold needs_update. rewrite andb_true_iff, negb_true_iff, version_in_iff.
  rewrite String.eqb_neq. tauto.
Qed.

Lemma consistent_flag tech :
  consistent tech -> (needsUpdate tech = true <-> behind_latest tech).
Proof.
  intros (_ & _ & Hflag). unfold behind_latest. rewrite Hflag.
  destruct (currentVersion tech) as [v|].
  - rewrite needs_update_iff. split.
    + intros [Hin Hne]. exists v. auto.
    + intros (v' & [= <-] & Hin & Hne). auto.
  - split; [discriminate|]. intros (v & Hv & _). discriminate.
Qed.

Lemma Forall_imap_keeps {A} (P : A -> Prop) (f : nat -> A -> A) l :
  (forall i x, P x -> P (f i x)) -> Forall P l -> Forall P (imap f l).
Proof.
  revert f. induction l as [|x l IH]; intros f Hf Hl; simpl.
  - constructor.
  - inversion Hl as [|? ? Hx Hl']; subst.
    constructor; [apply Hf, Hx|]. apply IH; [|exact Hl'].
    intros i y. apply Hf.
Qed.

Lemma initializeScan_consistent repositories :
  all_consistent (initializeScan repositories).
Proof.
  unfold all_consistent, initializeScan. apply Forall_forall.
  intros ru Hru. apply in_map_iff in Hru.
  destruct Hru as (r & <- & _). cbn [technologies].
  apply Forall_forall. intros t Ht. apply in_map_iff in Ht.
  destruct Ht as (n & <- & _). repeat split.
Qed.

Lemma record_detection_consistent repoIndex technology reply prev :
  all_consistent prev ->
  all_consistent (record_detection repoIndex technology reply prev).
Proof.
  intros H. unfold record_detection.
  destruct (detected reply) as [v|]; [|exact H].
  apply Forall_imap_keeps; [|exact H]. intros i ru Hru.
  destruct (Nat.eqb i repoIndex); [|exact Hru]. simpl.
  apply Forall_forall. intros t Ht.
  apply in_map_iff in Ht. destruct Ht as (t0 & <- & Ht0).
  rewrite Forall_forall in Hru.
  pose proof (Hru t0 Ht0) as (Ha & Hl & Hf).
  destruct (String.eqb (name t0) technology) eqn:Hn.
  - apply String.eqb_eq in Hn. subst technology. repeat split; assumption.
  - repeat split; assumption.
Qed.

Lemma set_scanning_consistent repoIndex prev :
  all_consistent prev -> all_consistent (set_scanning repoIndex prev).
Proof.
  intros H. apply Forall_imap_keeps; [|exact H]. intros i ru Hru.
  destruct (Nat.eqb i repoIndex); exact Hru.
Qed.

Lemma set_scanned_consistent repoIndex prev :
  all_consistent prev -> all_consistent (set_scanned repoIndex prev).
Proof.
  intros H. apply Forall_imap_keeps; [|exact H]. intros i ru Hru.
  destruct (Nat.eqb i repoIndex); exact Hru.
Qed.

Lemma scan_repository_consistent detect prev indexed :
  all_consistent prev -> all_consistent (scan_repository detect prev indexed).
Proof.
  intros H. destruct indexed as [repoIndex r]. unfold scan_repository.
  apply set_scanned_consistent.
  generalize (set_scanning_consistent repoIndex prev H).
  generalize (set_scanning repoIndex prev).
  induction relevantTechnologies as [|t ts IH]; intros st Hst; simpl.
  - exact Hst.
  - apply IH, record_detection_consistent, Hst.
Qed.

Lemma scanAllRepositories_consistent repositories detect m :
  all_consistent (repositoryUpdates m) ->
  all_consistent
    (repositoryUpdates (fst (scanAllRepositories repositories detect m))) /\
  (modal_isScanning m = false ->
   modal_isScanning (fst (scanAllRepositories repositories detect m)) = false).
Proof.
  intros H. unfold scanAllRepositories.
  destruct (modal_isScanning m); simpl; [split; [exact H|discriminate]|].
  split; [|reflexivity].
  generalize (imap (fun i r => (i, r)) repositories).
  revert H. generalize (repositoryUpdates m).
  intros st Hst l. revert st Hst.
  induction l as [|x l IH]; intros st Hst; simpl.
  - exact Hst.
  - apply IH, scan_repository_consistent, Hst.
Qed.

Lemma after_scans_consistent repositories scans :
  all_consistent (repositoryUpdates (after_scans repositories scans)) /\
  modal_isScanning (after_scans repositories scans) = false.
Proof.
  unfold after_scans.
  assert (H0 : all_consistent (repositoryUpdates (opened repositories)) /\
               modal_isScanning (opened repositories) = false).
  { split; [apply initializeScan_consistent|reflexivity]. }
  revert H0. generalize (opened repositories).
  induction scans as [|detect scans IH]; intros m [Hc Hs]; simpl.
  - split; assumption.
  - apply IH.
    destruct (scanAllRepositories_consistent repositories detect m Hc)
      as [Hc' Hs'].
    split; [exact Hc'|apply Hs', Hs].
Qed.

Lemma upgradeResults_sound st :
  all_consistent st -> Forall sound_result (upgradeResults st).
Proof.
  intros H. unfold upgradeResults. apply Forall_flat_map.
  eapply Forall_impl; [|exact H]. intros ru Hru. simpl.
  apply Forall_flat_map. eapply Forall_impl; [|exact Hru].
  intros t (Ha & Hl & Hf). simpl.
  destruct (currentVersion t) as [v|]; [|constructor].
  destruct (needsUpdate t) eqn:Hn; simpl; [|constructor].
  destruct (negb (String.eqb v "")); [|constructor].
  constructor; [|constructor].
  symmetry in Hf. apply needs_update_iff in Hf. destruct Hf as [Hin Hne].
  unfold sound_result; simpl. rewrite Hl. auto.
Qed.

(** C10: in every state the scan modal reaches, a technology is flagged as
    needing an update exactly when a current version was detected for it,
    that version is in the technology's catalog and it is not the catalog's
    first (latest) entry; nothing is flagged by a detection that delivers
    no version; and every upgrade result handed to the page, be it built
    from the state a scan starts with or from the state it ends with, names
    a catalog version that differs from its target, the latest one: a
    detected version that is not in the catalog is neither flagged nor
    reported. *)
Theorem update_flag_means_catalog_version_behind_latest
    repositories scans detect :
  let m := after_scans repositories scans in
  Forall (fun repoUpdate =>
            Forall (fun tech => needsUpdate tech = true <-> behind_latest tech)
              (technologies repoUpdate))
    (repositoryUpdates m) /\
  (forall repoIndex technology reply,
     detected reply = None ->
     record_detection repoIndex technology reply (repositoryUpdates m) =
     repositoryUpdates m) /\
  (forall technology v,
     needs_update technology v = true <->
     In v (versions_of technology) /\
     v <> latest_of (versions_of technology)) /\
  (exists results,
     snd (scanAllRepositories repositories detect m) = Some results /\
     Forall sound_result results) /\
  Forall sound_result
    (upgradeResults
       (repositoryUpdates (fst (scanAllRepositories repositories detect m)))).
Proof.
  intros m. destruct (after_scans_consistent repositories scans) as [Hc Hs].
  fold m in Hc, Hs. split; [|split; [|split; [|split]]].
  - eapply Forall_impl; [|exact Hc]. intros ru Hru. simpl.
    eapply Forall_impl; [|exact Hru]. intros t. apply consistent_flag.
  - intros repoIndex technology reply Hd. unfold record_detection.
    rewrite Hd. reflexivity.
  - apply needs_update_iff.
  - exists (upgradeResults (repositoryUpdates m)). split.
    + unfold scanAllRepositories. rewrite Hs. reflexivity.
    + apply upgradeResults_sound, Hc.
  - apply upgradeResults_sound.
    apply (scanAllRepositories_consistent repositories detect m Hc).
Qed.

Lemma update_flag_means_catalog_version_behind_latest_witness :
  List.map (fun tech => (name tech, currentVersion tech, needsUpdate tech))
    (flat_map technologies
       (repositoryUpdates (after_scans [widgets] [detector]))) =
  [("Java", Some "17.0.9", true); ("Angular", Some "19", false);
   ("Python", Some "3.12", false); ("TypeScript", None, false);
   ("Node.js", None, false); ("React", None, false)] /\
  needs_update "Angular" "19" = false.
Proof.
  destruct (update_flag_means_catalog_version_behind_latest [widgets]
              [detector] detector) as (_ & _ & H & _ & _).
  split; [vm_compute; reflexivity|].
  destruct (needs_update "Angular" "19") eqn:E; [|reflexivity].
  apply H in E. destruct E as [E _]. vm_compute in E.
  repeat (destruct E as [E|E]; [discriminate|]). destruct E.
Defined.

End VersionFacts.

(** * Further properties of the code *)

(** ** The metrics of the Vulnerabilities page *)

Module SecurityMetricsFacts.

Import Vulnerabilities SecurityMetrics.

Lemma count_severity_nonneg s l : (0 <= count_severity s l)%Z.
Proof. unfold count_severity. lia. Qed.

Lemma count_severity_cons s v l :
  count_severity s (v :: l) =
  ((if String.eqb (severity v) s then 1 else 0) + count_severity s l)%Z.
Proof.
  unfold count_severity. simpl. destruct (String.eqb (severity v) s); simpl; lia.
Qed.

(** X1: the security score lies between 0 and 100, a finding more never
    makes it higher, and a finding whose severity is none of [critical],
    [high], [medium], [low] leaves it as it is. *)
Theorem security_score_bounded_and_antitone v l :
  (0 <= securityScore l <= 100)%Z /\
  (securityScore (v :: l) <= securityScore l)%Z /\
  (existsb (String.eqb (severity v)) ["critical"; "high"; "medium"; "low"]
     = false ->
   securityScore (v :: l) = securityScore l).
Proof.
  unfold securityScore. cbv zeta. rewrite !count_severity_cons.
  pose proof (count_severity_nonneg "critical" l).
  pose proof (count_severity_nonneg "high" l).
  pose proof (count_severity_nonneg "medium" l).
  pose proof (count_severity_nonneg "low" l).
  split; [lia|]. split.
  - case_ifs; lia.
  - simpl. intros Hs. rewrite !orb_false_r in Hs.
    apply orb_false_elim in Hs. destruct Hs as [-> Hs].
    apply orb_false_elim in Hs. destruct Hs as [-> Hs].
    apply orb_false_elim in Hs. destruct Hs as [-> ->]. lia.
Qed.

Lemma security_score_bounded_and_antitone_witness :
  let v := Scenario.finding "GHSA-1" "r1" "open" in
  let odd :=
    with_status "open"
      {| vuln_id := "GHSA-2"; title := "t"; severity := "Critical";
         cvss := 91; repository := "r1"; repositoryId := "r1";
         platform := "GitHub"; package := "p"; version := "1";
         fixedIn := "2"; status := "open"; discoveredDate := "2024-08-04";
         description := "d" |} in
  securityScore [odd; v] = 70%Z.
Proof.
  cbv zeta.
  destruct (security_score_bounded_and_antitone
    (with_status "open"
      {| vuln_id := "GHSA-2"; title := "t"; severity := "Critical";
         cvss := 91; repository := "r1"; repositoryId := "r1";
         platform := "GitHub"; package := "p"; version := "1";
         fixedIn := "2"; status := "open"; discoveredDate := "2024-08-04";
         description := "d" |})
    [Scenario.finding "GHSA-1" "r1" "open"]) as (_ & _ & H).
  rewrite H by reflexivity. reflexivity.
Defined.

Lemma getScoreGrade_antitone s1 s2 :
  (s1 <= s2)%Z ->
  grade_rank (getScoreGrade s2) <= grade_rank (getScoreGrade s1).
Proof.
  intros H. unfold getScoreGrade.
  repeat match goal with
         | |- context [(?a <=? ?b)%Z] => destruct (Z.leb_spec a b)
         end; vm_compute; lia.
Qed.

(** X2: a finding more never gives a better grade, and from three
    critical findings on the grade is [F], whatever else is in the list. *)
Theorem grade_never_improves v l :
  grade_rank (getScoreGrade (securityScore l)) <=
  grade_rank (getScoreGrade (securityScore (v :: l))) /\
  ((3 <= count_severity "critical" l)%Z ->
   getScoreGrade (securityScore l) = "F").
Proof.
  pose proof (count_severity_nonneg "critical" l).
  pose proof (count_severity_nonneg "high" l).
  pose proof (count_severity_nonneg "medium" l).
  pose proof (count_severity_nonneg "low" l).
  split.
  - apply getScoreGrade_antitone.
    unfold securityScore. cbv zeta. rewrite !count_severity_cons.
    case_ifs; lia.
  - intros H3.
    assert (Hs : (securityScore l <= 10)%Z)
      by (unfold securityScore; cbv zeta; lia).
    unfold getScoreGrade.
    repeat match goal with
           | |- context [(?a <=? ?b)%Z] =>
               destruct (Z.leb_spec a b); [lia|]
           end.
    reflexivity.
Qed.

Lemma grade_never_improves_witness :
  let c := Scenario.finding "GHSA-1" "r1" "open" in
  getScoreGrade (securityScore [c; c; c]) = "F".
Proof.
  cbv zeta.
  apply (grade_never_improves (Scenario.finding "GHSA-1" "r1" "open")).
  vm_compute. discriminate.
Defined.

End SecurityMetricsFacts.

(** ** The security scan modal *)

Module ScanModalFacts.

Import Vulnerabilities Scenario ScanModal.

Lemma selected_in_iff prev rid : selected_in prev rid = true <-> In rid prev.
Proof.
  unfold selected_in. rewrite existsb_exists. split.
  - intros (x & Hx & Heq). apply String.eqb_eq in Heq. subst x. exact Hx.
  - intros H. exists rid. split; [exact H|apply String.eqb_refl].
Qed.

Lemma filter_not_in (rid : string) prev :
  ~ In rid prev ->
  List.filter (fun i => negb (String.eqb i rid)) prev = prev.
Proof.
  induction prev as [|x prev IH]; simpl; [reflexivity|]. intros H.
  destruct (String.eqb x rid) eqn:E.
  - apply String.eqb_eq in E. subst x. tauto.
  - simpl. rewrite IH by tauto. reflexivity.
Qed.

(** X3: a toggle flips the membership of the toggled repository and of no
    other one, never introduces a repetition, and toggling twice a
    repository that was not selected gives the selection back. *)
Theorem toggle_flips_one_membership rid prev :
  (In rid (handleRepositoryToggle rid prev) <-> ~ In rid prev) /\
  (forall other, other <> rid ->
     (In other (handleRepositoryToggle rid prev) <-> In other prev)) /\
  (List.NoDup prev -> List.NoDup (handleRepositoryToggle rid prev)) /\
  (~ In rid prev ->
   handleRepositoryToggle rid (handleRepositoryToggle rid prev) = prev).
Proof.
  unfold handleRepositoryToggle.
  destruct (selected_in prev rid) eqn:Hsel.
  - apply selected_in_iff in Hsel. split; [|split; [|split]].
    + split; [|tauto]. intros H Hin. apply filter_In in H.
      destruct H as [_ H]. rewrite String.eqb_refl in H. discriminate.
    + intros other Hne. rewrite filter_In. split; [tauto|].
      intros H. split; [exact H|].
      apply negb_true_iff, String.eqb_neq. assumption.
    + intros Hnd. apply List.NoDup_filter, Hnd.
    + tauto.
  - assert (Hnot : ~ In rid prev).
    { intros H. apply selected_in_iff in H. congruence. }
    split; [|split; [|split]].
    + split; [tauto|]. intros _. apply in_or_app. right. left. reflexivity.
    + intros other Hne. rewrite in_app_iff. simpl. split; [|tauto].
      intros [H|[H|[]]]; [exact H|congruence].
    + intros Hnd. apply NoDup_ListNoDup, list.NoDup_app.
      split; [apply NoDup_ListNoDup, Hnd|]. split.
      * intros x Hx Hx'. apply list_elem_of_In in Hx.
        apply list_elem_of_In in Hx'. destruct Hx' as [<-|[]]. tauto.
      * apply NoDup_singleton.
    + intros _.
      assert (selected_in (prev ++ [rid]) rid = true) as ->.
      { apply selected_in_iff, in_or_app. right. left. reflexivity. }
      rewrite List.filter_app. simpl. rewrite String.eqb_refl. simpl.
      rewrite app_nil_r. apply filter_not_in, Hnot.
Qed.

Lemma toggle_flips_one_membership_witness :
  handleRepositoryToggle "r2" (handleRepositoryToggle "r2" ["r1"; "r3"]) =
  ["r1"; "r3"].
Proof.
  destruct (toggle_flips_one_membership "r2" ["r1"; "r3"]) as (_ & _ & _ & H).
  apply H. intros [E|[E|[]]]; discriminate.
Defined.











(** X5: every finding of a batch carries the identity of the repository
    whose scan returned it: its [repositoryId] and [repository] are the id
    and the name of a connected, selected repository, and its platform is
    GitHub, whatever the scanner wrote into these fields. *)
Theorem batch_rows_are_tagged repositories scan selected run :
  startSecurityScan repositories scan selected = Some run ->
  Forall (fun v =>
            platform v = "GitHub" /\
            In (repositoryId v) selected /\
            exists r, In r repositories /\
                      repositoryId v = repo_id r /\
                      repository v = repo_name r)
    (allResults run).
Proof.
  intros Hrun.
  rewrite (ScanFacts.startSecurityScan_results _ _ _ _ Hrun).
  apply Forall_forall. intros v Hv. apply in_flat_map in Hv.
  destruct Hv as (rid & Hrid & Hv). unfold batch_of in Hv.
  destruct (find_repo repositories rid) as [r|] eqn:Hfind; [|contradiction].
  apply find_some in Hfind. destruct Hfind as [Hr Heq].
  apply String.eqb_eq in Heq.
  destruct (scan r) as [[[[] [vulns|]]|]|message]; try contradiction.
  apply in_map_iff in Hv. destruct Hv as (v0 & <- & _). simpl.
  split; [reflexivity|]. split; [rewrite Heq; exact Hrid|].
  exists r. auto.
Qed.

Lemma batch_rows_are_tagged_witness :
  exists run,
    startSecurityScan [repo "r1"]
      (scanner "r1" [finding "CVE-2024-1001" "elsewhere" "open"]) ["r1"] =
    Some run /\
    List.map (fun v => (repositoryId v, platform v)) (allResults run) =
    [("r1", "GitHub")] /\
    Forall (fun v => platform v = "GitHub") (allResults run).
Proof.
  eexists. split; [reflexivity|]. split; [reflexivity|].
  eapply Forall_impl;
    [|apply (batch_rows_are_tagged [repo "r1"]
               (scanner "r1" [finding "CVE-2024-1001" "elsewhere" "open"])
               ["r1"] _ eq_refl)].
  intros v H. apply H.
Defined.

End ScanModalFacts.

(** ** Runs of the fix workflow *)

Module FixRunsFacts.

Import Vulnerabilities Scenario FixRuns.

Lemma fix_settle_rows repositories vuln reply p :
  scannedVulnerabilities (fix_settle repositories vuln reply p) =
  if succeeded reply
  then mark_in_progress vuln (scannedVulnerabilities p)
  else scannedVulnerabilities p.
Proof.
  unfold fix_settle, succeeded, failure_message.
  destruct reply as [r|m]; [|reflexivity].
  destruct (fix_data r) as [d|]; [|reflexivity].
  destruct (fix_success d); reflexivity.
Qed.

Lemma mark_in_progress_kept vuln rows :
  Forall2 kept_or_in_progress rows (mark_in_progress vuln rows).
Proof.
  unfold mark_in_progress. induction rows as [|v rows IH]; simpl.
  - constructor.
  - constructor; [|exact IH]. unfold kept_or_in_progress.
    destruct (String.eqb _ _); auto.
Qed.

Lemma kept_refl rows : Forall2 kept_or_in_progress rows rows.
Proof.
  induction rows; constructor; [left; reflexivity|assumption].
Qed.

Lemma kept_trans l1 : forall l2 l3,
  Forall2 kept_or_in_progress l1 l2 -> Forall2 kept_or_in_progress l2 l3 ->
  Forall2 kept_or_in_progress l1 l3.
Proof.
  induction l1 as [|a l1 IH]; intros l2 l3 H12 H23.
  - inversion H12; subst. inversion H23; subst. constructor.
  - inversion H12 as [|? b ? l2' Hab H12']; subst.
    inversion H23 as [|? c ? l3' Hbc H23']; subst.
    constructor; [|eapply IH; eassumption].
    unfold kept_or_in_progress in *.
    destruct Hab as [->| ->], Hbc as [->| ->]; auto.
Qed.

Lemma step_rows repositories s e :
  is_scan e = false ->
  Forall2 kept_or_in_progress (scannedVulnerabilities (page s))
    (scannedVulnerabilities (page (step repositories s e))).
Proof.
  intros He. destruct e as [row|request reply|results];
    [| |discriminate]; unfold step.
  - destruct (scannedVulnerabilities (page s) !! row) as [vuln|];
      [|apply kept_refl].
    destruct (clickable (page s) vuln); apply kept_refl.
  - destruct (in_flight s !! request) as [vuln|]; [|apply kept_refl].
    cbn [page]. rewrite fix_settle_rows.
    destruct (succeeded reply); [apply mark_in_progress_kept|apply kept_refl].
Qed.

(** X6: whatever the clicks and the answers of the collaborator, and in
    whatever order they come, as long as no scan reports in between the
    fix workflow keeps the rows of the list, their order and every field but
    the status, and the only status it ever writes is [in-progress]. *)
Theorem fix_workflow_only_writes_in_progress repositories es : forall s,
  Forall (fun e => is_scan e = false) es ->
  Forall2 kept_or_in_progress (scannedVulnerabilities (page s))
    (scannedVulnerabilities (page (run repositories s es))).
Proof.
  induction es as [|e es IH]; intros s Hes; simpl.
  - apply kept_refl.
  - inversion Hes as [|? ? He Hes']; subst.
    eapply kept_trans; [apply step_rows, He|]. apply IH, Hes'.
Qed.

Lemma fix_workflow_only_writes_in_progress_witness :
  let A := finding "CVE-2024-1001" "r1" "open" in
  let B := finding "CVE-2024-1002" "r1" "resolved" in
  Forall2 kept_or_in_progress [A; B]
    (scannedVulnerabilities
       (page (run [repo "r1"] (session_with [A; B])
                [Click 0; Click 1; Settle 0 pr42; Click 0]))).
Proof.
  cbv zeta.
  apply (fix_workflow_only_writes_in_progress [repo "r1"]
           [Click 0; Click 1; Settle 0 pr42; Click 0]
           (session_with [finding "CVE-2024-1001" "r1" "open";
                          finding "CVE-2024-1002" "r1" "resolved"])).
  repeat constructor.
Defined.

Lemma step_failed_rows repositories s e :
  is_failed_settle e = true ->
  scannedVulnerabilities (page (step repositories s e)) =
  scannedVulnerabilities (page s).
Proof.
  intros He. destruct e as [row|request reply|results];
    [| |discriminate]; unfold step.
  - destruct (scannedVulnerabilities (page s) !! row) as [vuln|];
      [|reflexivity].
    destruct (clickable (page s) vuln); reflexivity.
  - destruct (in_flight s !! request) as [vuln|]; [|reflexivity].
    cbn [page]. rewrite fix_settle_rows.
    cbn [is_failed_settle] in He.
    apply negb_true_iff in He. rewrite He. reflexivity.
Qed.

(** X7: requests that fail never touch the list: after any sequence of
    clicks and failed answers the list of findings is exactly what it
    was. *)
Theorem failed_requests_leave_the_list repositories es : forall s,
  Forall (fun e => is_failed_settle e = true) es ->
  scannedVulnerabilities (page (run repositories s es)) =
  scannedVulnerabilities (page s).
Proof.
  induction es as [|e es IH]; intros s Hes; simpl; [reflexivity|].
  inversion Hes as [|? ? He Hes']; subst.
  rewrite IH by exact Hes'. apply step_failed_rows, He.
Qed.

Lemma failed_requests_leave_the_list_witness :
  let A := finding "CVE-2024-1001" "r1" "open" in
  List.map status
    (scannedVulnerabilities
       (page (run [repo "r1"] (session_with [A])
                [Click 0; Settle 0 forbidden; Click 0; Settle 0 forbidden])))
  = ["open"].
Proof.
  cbv zeta.
  rewrite (failed_requests_leave_the_list [repo "r1"]
             [Click 0; Settle 0 forbidden; Click 0; Settle 0 forbidden]
             (session_with [finding "CVE-2024-1001" "r1" "open"])).
  - reflexivity.
  - repeat constructor.
Defined.

End FixRunsFacts.

(** ** The error dialog *)

Module ErrorDialogFacts.

Import ErrorDialog.

(** X8: the dialog has four answers.  The answer [Repository Access
    Denied] of the source is never given: an error that mentions the
    personal access token is already answered as a permission failure. *)
Theorem access_denied_answer_is_never_given error repositoryName :
  let t := title (getErrorDetails error repositoryName) in
  t <> "Repository Access Denied" /\
  (t = "Cannot Fix External Repository" \/
   t = "GitHub Token Permissions Error" \/
   t = "Pull Request Creation Failed" \/
   t = "Vulnerability Fix Failed").
Proof.
  unfold getErrorDetails.
  destruct (includes error "Failed to create branch: Forbidden") eqn:E1;
  destruct (includes error
              "Resource not accessible by personal access token") eqn:E2;
  simpl; case_ifs; simpl; split; try discriminate; auto.
Qed.

End ErrorDialogFacts.

(** ** More on the recent-activity hook *)

Module FeedUpdatesFacts.

Import RecentActivity FeedScenario FeedUpdates.

(** What [formatTimeAgo] writes for a date less than, or at least, a minute
    before the clock reading. *)
Lemma formatTimeAgo_written now date :
  ((now - date < 60000)%Z -> formatTimeAgo now date = "Just now") /\
  ((60000 <= now - date)%Z ->
   includes (formatTimeAgo now date) "ago" = true).
Proof.
  assert (Hlt : ((now - date) / (1000 * 60) <? 1)%Z = true <->
                (now - date < 60000)%Z).
  { rewrite Z.ltb_lt. change (1000 * 60)%Z with 60000%Z.
    split; intros H; Z.div_mod_to_equations; lia. }
  split; intros H; unfold formatTimeAgo.
  - apply Hlt in H. rewrite H. reflexivity.
  - destruct ((now - date) / (1000 * 60) <? 1)%Z eqn:E.
    + destruct Hlt as [Hlt _]. specialize (Hlt eq_refl). lia.
    + case_ifs; repeat (apply FeedFacts.includes_app_r); reflexivity.
Qed.

(** X10: [formatTimeAgo] writes [Just now] exactly when less than a minute
    lies between the date and the clock reading (a date in the future
    included); in every other case the text ends in a unit and [ago]. *)
Theorem just_now_means_under_a_minute now date :
  (formatTimeAgo now date = "Just now" <-> (now - date < 60000)%Z) /\
  ((60000 <= now - date)%Z -> includes (formatTimeAgo now date) "ago" = true).
Proof.
  assert (Hlt : ((now - date) / (1000 * 60) <? 1)%Z = true <->
                (now - date < 60000)%Z).
  { rewrite Z.ltb_lt. change (1000 * 60)%Z with 60000%Z.
    split; intros H; Z.div_mod_to_equations; lia. }
  assert (Hago : (60000 <= now - date)%Z ->
                 includes (formatTimeAgo now date) "ago" = true).
  { intros H. unfold formatTimeAgo.
    destruct ((now - date) / (1000 * 60) <? 1)%Z eqn:E.
    - destruct Hlt as [Hlt _]. specialize (Hlt eq_refl). lia.
    - case_ifs; repeat (apply FeedFacts.includes_app_r); reflexivity. }
  split; [|exact Hago]. split.
  - intros H. destruct (Z.lt_ge_cases (now - date) 60000) as [Hl|Hg];
      [exact Hl|].
    apply Hago in Hg. rewrite H in Hg. vm_compute in Hg. discriminate.
  - intros H. unfold formatTimeAgo. apply Hlt in H. rewrite H. reflexivity.
Qed.

Lemma just_now_means_under_a_minute_witness :
  formatTimeAgo noon (noon - 59999) = "Just now" /\
  formatTimeAgo noon (noon - 60000) = "1 minute ago" /\
  formatTimeAgo noon (noon + 5000) = "Just now".
Proof.
  destruct (just_now_means_under_a_minute noon (noon - 59999)) as [[_ H1] _].
  destruct (just_now_means_under_a_minute noon (noon + 5000)) as [[_ H3] _].
  split; [apply H1; unfold noon; lia|].
  split; [reflexivity|apply H3; unfold noon; lia].
Defined.

(** X11: a scan result without [scan_type] is shown with the status
    [pending] whatever its severity, coverage or state, while its type is
    still chosen by its severity: [security] when it has one, [version]
    otherwise. *)
Theorem untyped_result_is_pending now scanResult repositoryName src :
  truthy (scan_type scanResult) = false ->
  let a :=
    generateActivityFromScanResult now scanResult repositoryName src in
  status a = pending /\
  type a = (if truthy (sr_severity scanResult)
            then type_security else type_version).
Proof.
  intros Hs. cbv zeta.
  assert (Hstatus : getStatusFromScanResult scanResult = pending).
  { unfold getStatusFromScanResult, str_is.
    destruct (scan_type scanResult) as [t|]; [|reflexivity].
    simpl in Hs. apply negb_false_iff, String.eqb_eq in Hs. subst t.
    reflexivity. }
  assert (Hkind : or_else (scan_type scanResult)
                    (if truthy (sr_severity scanResult)
                     then "security" else "version") =
                  if truthy (sr_severity scanResult)
                  then "security" else "version").
  { unfold or_else. destruct (scan_type scanResult) as [t|]; [|reflexivity].
    simpl in Hs. apply negb_false_iff in Hs. rewrite Hs. reflexivity. }
  unfold generateActivityFromScanResult. rewrite Hkind, Hstatus.
  destruct (truthy (sr_severity scanResult)); split; reflexivity.
Qed.

Lemma untyped_result_is_pending_witness :
  let a := generateActivityFromScanResult noon stored_critical
             (Some "widgets") local in
  status a = pending /\ title a = "Critical vulnerability detected".
Proof.
  cbv zeta. split; [|reflexivity].
  apply (untyped_result_is_pending noon stored_critical (Some "widgets")
           local eq_refl).
Defined.

Lemma generated_source now scanResult repositoryName src :
  source (generateActivityFromScanResult now scanResult repositoryName src) =
  Some src /\
  act_id (generateActivityFromScanResult now scanResult repositoryName src) =
  sr_id scanResult.
Proof.
  unfold generateActivityFromScanResult. case_ifs; split; reflexivity.
Qed.

Lemma upgrade_activity now upgrade :
  let a := generateActivityFromScanResult now
             (upgrade_scan_result now upgrade) (up_repository upgrade)
             local in
  timestamp a = "Just now" /\ type a = type_version.
Proof.
  cbv zeta. unfold generateActivityFromScanResult, upgrade_scan_result.
  cbn [created_at scan_type sr_severity or_else truthy].
  assert (formatTimeAgo now now = "Just now") as Hnow.
  { apply formatTimeAgo_written. lia. }
  split; [rewrite Hnow|]; reflexivity.
Qed.

(** X12: what the hook reads from local storage.  When the JSON of either
    key is corrupt, nothing is read at all, also from the other key.
    Otherwise there is one activity per stored finding followed by one per
    stored upgrade, all marked [local]; an upgrade's activity has the id
    [upgrade-<repositoryId>-<technology>], the type [version] and always
    the timestamp [Just now], whenever the upgrade was found. *)
Theorem persisted_data_is_all_or_nothing now ls :
  ((exists m, scannedVulnerabilities ls = Some (Threw m)) \/
   (exists m, scannedUpgrades ls = Some (Threw m)) ->
   loadPersistedData now ls = []) /\
  (forall vs us,
     scannedVulnerabilities ls = Some (Returned vs) ->
     scannedUpgrades ls = Some (Returned us) ->
     let loaded := loadPersistedData now ls in
     List.map act_id loaded =
       (List.map sr_id vs ++ List.map upgrade_id us)%list /\
     Forall (fun a => source a = Some local) loaded /\
     Forall (fun a => timestamp a = "Just now" /\ type a = type_version)
       (drop (length vs) loaded)).
Proof.
  split.
  - unfold loadPersistedData. intros [[m H]|[m H]]; rewrite H.
    + reflexivity.
    + destruct (scannedVulnerabilities ls) as [[vs|m']|]; reflexivity.
  - intros vs us Hv Hu. cbv zeta. unfold loadPersistedData.
    rewrite Hv, Hu. split; [|split].
    + rewrite map_app, !List.map_map. f_equal; apply List.map_ext; intros x;
        apply generated_source.
    + apply Forall_app. split; apply Forall_forall; intros a Ha;
        apply in_map_iff in Ha; destruct Ha as (x & <- & _);
        apply generated_source.
    + rewrite drop_app_length'; [|symmetry; apply length_map].
      apply Forall_forall. intros a Ha. apply in_map_iff in Ha.
      destruct Ha as (u & <- & _). apply upgrade_activity.
Qed.

Lemma persisted_data_is_all_or_nothing_witness :
  loadPersistedData noon
    {| scannedVulnerabilities := Some (Returned [stored_critical]);
       scannedUpgrades := Some (Threw "Unexpected token") |} = [].
Proof.
  apply (persisted_data_is_all_or_nothing noon).
  right. exists "Unexpected token". reflexivity.
Defined.

(** X13: whatever the user, the storage, the answer of the query and the
    feed before, a pass leaves a feed of at most 20 entries; and when the
    pass of a signed-in user fails the feed is never empty. *)
Theorem feed_never_exceeds_twenty now Date_parse user ls reply before :
  let after := fetchRecentActivity now Date_parse user ls reply before in
  length (activities after) <= feed_length /\
  loading after = false /\
  (user <> None -> query_failed reply = true -> activities after <> []).
Proof.
  cbv zeta. unfold fetchRecentActivity, fetch_catch, feed_length.
  assert (Hcatch :
    length match loadPersistedData now ls with
           | [] => [sample_activity]
           | _ :: _ => take 20 (loadPersistedData now ls)
           end <= 20 /\
    match loadPersistedData now ls with
    | [] => [sample_activity]
    | _ :: _ => take 20 (loadPersistedData now ls)
    end <> []).
  { destruct (loadPersistedData now ls) as [|a l] eqn:E.
    - split; [simpl; lia|discriminate].
    - split; [rewrite length_take; lia|]. cbn [take]. discriminate. }
  destruct user as [u|].
  - destruct reply as [[rows [cause|]]|cause]; cbn [activities loading].
    + split; [apply Hcatch|]. split; [reflexivity|]. intros _ _.
      apply Hcatch.
    + split; [|split; [reflexivity|intros _; discriminate]].
      unfold sortedActivities. rewrite length_take. lia.
    + split; [apply Hcatch|]. split; [reflexivity|]. intros _ _.
      apply Hcatch.
  - cbn [activities loading].
    split; [|split; [reflexivity|congruence]].
    rewrite length_take. lia.
Qed.

Lemma feed_never_exceeds_twenty_witness :
  activities
    (fetchRecentActivity noon no_date (Some "u1") empty_storage
       (Threw "database is locked") (idle [])) <> [].
Proof.
  apply (feed_never_exceeds_twenty noon no_date (Some "u1") empty_storage
           (Threw "database is locked") (idle []));
    [discriminate|reflexivity].
Defined.

(** X14: when a new scan result arrives over the subscription, its
    activity is put at the head of the feed, every older entry with the same
    id is removed, the other entries keep their order, and the feed is cut
    to 20 entries; ids that were distinct stay distinct.  When the
    repository lookup finds nothing the feed is left as it is. *)
Theorem inserted_activity_heads_the_feed now payload repositoryName prev :
  let a := generateActivityFromScanResult now payload repositoryName
             database in
  let feed := on_insert now payload (Some repositoryName) prev in
  feed = a :: take 19 (List.filter
                         (fun b => negb (String.eqb (act_id b) (sr_id payload)))
                         prev) /\
  length feed <= 20 /\
  (forall b, In b (tl feed) -> act_id b <> sr_id payload /\ In b prev) /\
  (List.NoDup (List.map act_id prev) ->
   List.NoDup (List.map act_id feed)) /\
  on_insert now payload None prev = prev.
Proof.
  cbv zeta. unfold on_insert.
  destruct (generated_source now payload repositoryName database) as [_ Hid].
  rewrite Hid.
  set (a := generateActivityFromScanResult now payload repositoryName
              database) in *.
  set (rest := List.filter
                 (fun b => negb (String.eqb (act_id b) (sr_id payload))) prev).
  assert (Hrest : forall b, In b (take 19 rest) ->
                    act_id b <> sr_id payload /\ In b prev).
  { intros b Hb. apply list_elem_of_In, elem_of_take in Hb.
    destruct Hb as (i & Hi & _). apply list_elem_of_lookup_2 in Hi.
    apply list_elem_of_In, filter_In in Hi. destruct Hi as [Hin Hne].
    apply negb_true_iff, String.eqb_neq in Hne. auto. }
  change (take 20 (a :: rest)) with (a :: take 19 rest).
  split; [reflexivity|]. split; [|split; [exact Hrest|split; [|reflexivity]]].
  - cbn [length]. rewrite length_take. lia.
  - intros Hnd. cbn [List.map]. constructor.
    + rewrite Hid. intros Hin. apply in_map_iff in Hin.
      destruct Hin as (b & Hb & Hin). apply Hrest in Hin. tauto.
    + apply NoDup_ListNoDup. apply NoDup_ListNoDup in Hnd.
      change (List.map act_id (take 19 rest)) with (act_id <$> take 19 rest).
      rewrite fmap_take.
      eapply sublist_NoDup; [|apply sublist_take].
      subst rest. clear -Hnd. induction prev as [|x prev IH]; simpl.
      * constructor.
      * apply list.NoDup_cons in Hnd. destruct Hnd as [Hx Hnd].
        destruct (negb (String.eqb (act_id x) (sr_id payload))); simpl;
          [|apply IH, Hnd].
        apply list.NoDup_cons. split; [|apply IH, Hnd].
        intros Hin. apply Hx. apply list_elem_of_In in Hin.
        apply list_elem_of_In. apply in_map_iff in Hin.
        destruct Hin as (b & Hb & Hin). apply filter_In in Hin.
        rewrite <- Hb. apply in_map. tauto.
Qed.

Lemma inserted_activity_heads_the_feed_witness :
  let old := generateActivityFromScanResult noon (row "s1" (noon - 300000))
               (Some "widgets") database in
  let other := generateActivityFromScanResult noon (row "s2" (noon - 300000))
                 (Some "widgets") database in
  List.map (fun a => (act_id a, timestamp a))
    (on_insert noon (row "s1" noon) (Some (Some "widgets")) [other; old]) =
  [("s1", "Just now"); ("s2", "5 minutes ago")].
Proof.
  cbv zeta.
  destruct (inserted_activity_heads_the_feed noon (row "s1" noon)
    (Some "widgets")
    [generateActivityFromScanResult noon (row "s2" (noon - 300000))
       (Some "widgets") database;
     generateActivityFromScanResult noon (row "s1" (noon - 300000))
       (Some "widgets") database]) as (H & _).
  rewrite H. vm_compute. reflexivity.
Defined.

Lemma winner_database k l a d :
  winner k l = Some a -> In d l -> act_id d = k -> from_database d = true ->
  (forall x, In x l -> from_local x = true \/ from_database x = true) ->
  from_database a = true.
Proof.
  unfold winner. intros Hw Hd Hk Hdb Hall.
  destruct (List.find (has_id k) l) as [first|] eqn:Hfirst; [|discriminate].
  destruct (from_local first) eqn:Hloc.
  - destruct (List.find (fun x => has_id k x && from_database x) l)
      as [d'|] eqn:Hd'.
    + injection Hw as <-. apply find_some in Hd'.
      destruct Hd' as [_ Hd']. apply andb_prop in Hd'. tauto.
    + exfalso. pose proof (find_none _ _ Hd' d Hd) as Hn. simpl in Hn.
      apply FeedFacts.has_id_true in Hk. rewrite Hk, Hdb in Hn. discriminate.
  - injection Hw as <-. apply find_some in Hfirst.
    destruct (Hall first (proj1 Hfirst)); congruence.
Qed.

(** X15: when a successful pass finds an id both in local storage and among
    the rows of the query, the feed shows the entry made from the query's
    row, not the local one. *)
Theorem database_version_is_shown now Date_parse user ls rows before a :
  let feed :=
    activities
      (fetchRecentActivity now Date_parse (Some user) ls
         (Returned {| data := rows; scanError := None |}) before) in
  In a feed ->
  In (act_id a) (List.map act_id (database_activities now rows)) ->
  source a = Some database /\ In a (database_activities now rows).
Proof.
  cbv zeta. cbn [fetchRecentActivity activities]. unfold sortedActivities.
  fold (database_activities now rows).
  set (l := (loadPersistedData now ls ++ database_activities now rows)%list).
  intros Ha Hid.
  assert (Hu : In a (uniqueActivities l)).
  { apply (Permutation_in a (FeedFacts.sort_perm now Date_parse _)).
    apply list_elem_of_In, elem_of_take in Ha. destruct Ha as (i & Hi & _).
    eapply list_elem_of_In, list_elem_of_lookup_2, Hi. }
  destruct (FeedFacts.uniqueActivities_deduplicated l) as [_ Hwin _].
  pose proof (Hwin a Hu) as Hw.
  apply in_map_iff in Hid. destruct Hid as (d & Hd & Hdin).
  assert (Hsrc : forall x, In x l ->
            (In x (loadPersistedData now ls) /\ from_local x = true) \/
            (In x (database_activities now rows) /\ from_database x = true)).
  { intros x Hx. apply in_app_or in Hx. destruct Hx as [Hx|Hx].
    - left. split; [exact Hx|]. unfold from_local.
      assert (source x = Some local) as ->; [|reflexivity].
      revert Hx. unfold loadPersistedData.
      destruct (scannedVulnerabilities ls) as [[vs|m]|];
        destruct (scannedUpgrades ls) as [[us|m']|];
        try contradiction; intros Hx;
        apply in_app_or in Hx; destruct Hx as [Hx|Hx];
        apply in_map_iff in Hx; destruct Hx as (y & <- & _);
        apply generated_source.
    - right. split; [exact Hx|]. unfold from_database.
      apply in_map_iff in Hx. destruct Hx as (y & <- & _).
      destruct (generated_source now (fst y) (snd y) database) as [-> _].
      reflexivity. }
  assert (Hdb : from_database a = true).
  { apply (winner_database (act_id a) l a d Hw).
    - apply in_or_app. right. exact Hdin.
    - exact Hd.
    - destruct (Hsrc d (in_or_app _ _ d (or_intror Hdin))) as [[_ Hl]|[_ Hr]];
        [|exact Hr].
      apply in_map_iff in Hdin. destruct Hdin as (y & <- & _).
      unfold from_database.
      destruct (generated_source now (fst y) (snd y) database) as [-> _].
      reflexivity.
    - intros x Hx. destruct (Hsrc x Hx) as [[_ H]|[_ H]]; auto. }
  split.
  - unfold from_database in Hdb. destruct (source a) as [[]|];
      [reflexivity|discriminate..].
  - destruct (Hsrc a (FeedFacts.uniqueActivities_subset l a Hu))
      as [[_ Hl]|[Hin _]]; [|exact Hin].
    unfold from_local, from_database in *.
    destruct (source a) as [[]|]; discriminate.
Qed.

Lemma database_version_is_shown_witness :
  let stored :=
    {| scannedVulnerabilities := Some (Returned [row "s1" (noon - 300000)]);
       scannedUpgrades := None |} in
  List.map source
    (activities
       (fetchRecentActivity noon no_date (Some "u1") stored
          (Returned {| data := Some [(row "s1" (noon - 300000), Some "widgets")];
                       scanError := None |}) (idle []))) =
  [Some database].
Proof.
  cbv zeta.
  pose proof (fun a => database_version_is_shown noon no_date "u1"
    {| scannedVulnerabilities := Some (Returned [row "s1" (noon - 300000)]);
       scannedUpgrades := None |}
    (Some [(row "s1" (noon - 300000), Some "widgets")]) (idle []) a) as H.
  cbv zeta in H.
  assert (Hfeed : exists a,
    activities
      (fetchRecentActivity noon no_date (Some "u1")
         {| scannedVulnerabilities :=
              Some (Returned [row "s1" (noon - 300000)]);
            scannedUpgrades := None |}
         (Returned {| data := Some [(row "s1" (noon - 300000),
                                     Some "widgets")];
                      scanError := None |}) (idle [])) = [a]).
  { eexists. vm_compute. reflexivity. }
  destruct Hfeed as [a Ha]. rewrite Ha in *.
  destruct (H a (or_introl eq_refl)) as [Hs _].
  - assert (act_id a = "s1") as ->.
    { apply (f_equal (List.map act_id)) in Ha. vm_compute in Ha.
      injection Ha as Ha. symmetry. exact Ha. }
    left. reflexivity.
  - simpl. rewrite Hs. reflexivity.
Defined.

(** X16: the comparator of the feed's sort never looks at how old two
    entries are.  For timestamps written by [formatTimeAgo], in an engine
    for which [Just now] is no date, its result is [NaN] when one of the two
    entries is less than a minute old and otherwise the difference of the
    two clock readings it takes, whatever the dates.  So when the two
    readings are equal it separates no two entries, and when the clock
    advances between them the result is positive whichever of two older
    entries stands first: each is told to come after the other. *)
Theorem comparator_ignores_the_age_of_entries
    Date_parse nowA nowB dateA dateB readA readB a b :
  Date_parse "Just now" = None ->
  timestamp a = formatTimeAgo nowA dateA ->
  timestamp b = formatTimeAgo nowB dateB ->
  compare_at Date_parse readA readB a b =
    (if (60000 <=? nowA - dateA)%Z && (60000 <=? nowB - dateB)%Z
     then Some (readB - readA)%Z else None) /\
  (readA = readB ->
   compare_at Date_parse readA readB a b = Some 0%Z \/
   compare_at Date_parse readA readB a b = None) /\
  ((60000 <= nowA - dateA)%Z -> (60000 <= nowB - dateB)%Z ->
   (readA < readB)%Z ->
   exists d d', compare_at Date_parse readA readB a b = Some d /\
                compare_at Date_parse readA readB b a = Some d' /\
                (0 < d)%Z /\ (0 < d')%Z).
Proof.
  intros Hjn Ha Hb.
  assert (Htime : forall now date reading,
            time_at Date_parse reading (formatTimeAgo now date) =
            if (60000 <=? now - date)%Z then Some reading else None).
  { intros now date reading. unfold time_at.
    destruct (formatTimeAgo_written now date) as [Hnew Hold].
    destruct (Z.leb_spec 60000 (now - date)) as [H|H].
    - rewrite (Hold H). reflexivity.
    - rewrite (Hnew H). change (includes "Just now" "ago") with false.
      cbv iota. exact Hjn. }
  assert (Hcmp : forall x y nx dx ny dy,
            timestamp x = formatTimeAgo nx dx ->
            timestamp y = formatTimeAgo ny dy ->
            compare_at Date_parse readA readB x y =
            if (60000 <=? nx - dx)%Z && (60000 <=? ny - dy)%Z
            then Some (readB - readA)%Z else None).
  { intros x y nx dx ny dy Hx Hy. unfold compare_at.
    rewrite Hx, Hy, !Htime.
    destruct (60000 <=? nx - dx)%Z, (60000 <=? ny - dy)%Z; reflexivity. }
  split; [apply (Hcmp a b _ _ _ _ Ha Hb)|]. split.
  - intros <-. rewrite (Hcmp a b _ _ _ _ Ha Hb), Z.sub_diag.
    destruct (_ && _); auto.
  - intros HA HB Hlt.
    exists (readB - readA)%Z, (readB - readA)%Z.
    rewrite (Hcmp a b _ _ _ _ Ha Hb), (Hcmp b a _ _ _ _ Hb Ha).
    apply Z.leb_le in HA, HB. rewrite HA, HB.
    repeat split; lia.
Qed.

Lemma comparator_ignores_the_age_of_entries_witness :
  let week := generateActivityFromScanResult noon
                (row "old" (noon - 604800000)) (Some "widgets") database in
  let hour := generateActivityFromScanResult noon
                (row "new" (noon - 3600000)) (Some "widgets") database in
  compare_at no_date noon (noon + 1) week hour = Some 1%Z /\
  compare_at no_date noon (noon + 1) hour week = Some 1%Z /\
  compare_at no_date noon noon week hour = Some 0%Z.
Proof.
  cbv zeta.
  destruct (comparator_ignores_the_age_of_entries no_date noon noon
              (noon - 604800000) (noon - 3600000) noon (noon + 1)
              (generateActivityFromScanResult noon
                 (row "old" (noon - 604800000)) (Some "widgets") database)
              (generateActivityFromScanResult noon
                 (row "new" (noon - 3600000)) (Some "widgets") database)
              eq_refl eq_refl eq_refl) as (H & _ & _).
  rewrite H. repeat split; vm_compute; reflexivity.
Defined.

End FeedUpdatesFacts.

(** ** The bulk coverage function: its results and its test files *)

Module CoverageFacts.

Import ImproveCoverage CoverageScenario CoverageResults.

(** X17: with a bonus of 0 to 14, as [Math.floor(Math.random() * 15)] gives
    it, the estimate is at most 95; it is the current coverage plus 15 to 29
    as long as that stays under the cap, exactly 95 from a current coverage
    of 80 on, and so below the current coverage of a repository that is
    already above 95. *)
Theorem estimate_is_capped gh repo :
  (0 <= random_bonus gh < 15)%Z ->
  (estimate gh repo <= 95)%Z /\
  ((currentCoverage repo <= 66)%Z ->
   (currentCoverage repo + 15 <= estimate gh repo <= currentCoverage repo + 29)%Z) /\
  ((80 <= currentCoverage repo)%Z -> estimate gh repo = 95%Z) /\
  ((95 < currentCoverage repo)%Z ->
   (estimate gh repo < currentCoverage repo)%Z).
Proof.
  intros H. unfold estimate. repeat split; intros; lia.
Qed.

Lemma estimate_is_capped_witness :
  estimate (cooperative 7) widgets = 79%Z /\
  estimate (cooperative 7)
    {| id := "r9"; name := "core"; full_name := "acme/core";
       language := "Java"; currentCoverage := 98 |} = 95%Z.
Proof.
  pose proof (estimate_is_capped (cooperative 7) widgets) as H1.
  pose proof (estimate_is_capped (cooperative 7)
                {| id := "r9"; name := "core"; full_name := "acme/core";
                   language := "Java"; currentCoverage := 98 |}) as H2.
  destruct H1 as (_ & H1 & _); [simpl; lia|].
  destruct H2 as (_ & _ & H2 & _); [simpl; lia|].
  split; [|apply H2; simpl; lia].
  vm_compute. reflexivity.
Defined.

(** The entry a repository gets is a success with its branch, its number of
    tests and its estimate, or a failure with its error and nothing else. *)
Lemma alone_well_formed gh repo r :
  alone gh repo = [r] -> well_formed r.
Proof.
  unfold alone, process, try_catch, bind, await, push.
  assert (Hf : forall m, well_formed (failed repo m)).
  { intros m. unfold well_formed, failed. simpl. eauto 10. }
  destruct (get_repo gh) as [repoResponse|m]; simpl;
    [|intros [= <-]; apply Hf].
  destruct (repo_ok repoResponse); simpl; [|intros [= <-]; apply Hf].
  destruct (default_branch repoResponse) as [defaultBranch|m]; simpl;
    [|intros [= <-]; apply Hf].
  destruct (get_base_sha gh defaultBranch) as [baseSha|m]; simpl;
    [|intros [= <-]; apply Hf].
  destruct (create_branch gh _ baseSha) as [[]|m]; simpl;
    [|intros [= <-]; apply Hf].
  destruct (ImproveCoverage.generateTestFiles gh) as [testFiles|m]; simpl;
    [|intros [= <-]; apply Hf].
  rewrite !BulkFacts.upload_all_eq.
  destruct (uploaded gh _ testFiles) as [[]|m]; simpl;
    [|intros [= <-]; apply Hf].
  destruct (create_pull_request gh _ defaultBranch) as [prResponse|m];
    simpl; [|intros [= <-]; apply Hf].
  destruct (pr_ok prResponse); simpl; [|intros [= <-]; apply Hf].
  destruct (pr_data prResponse) as [prData|m]; simpl;
    [|intros [= <-]; apply Hf].
  intros [= <-]. unfold well_formed. simpl.
  split; [reflexivity|]. split; [eauto|]. split; [eauto|].
  eexists. split; [reflexivity|]. unfold estimate. lia.
Qed.

(** A successful entry counts the test files that were generated. *)
Lemma alone_suggested gh repo r :
  alone gh repo = [r] -> success r = true ->
  exists testFiles,
    ImproveCoverage.generateTestFiles gh = Returned testFiles /\
    suggestedTests r = Some (length testFiles).
Proof.
  unfold alone, process, try_catch, bind, await, push.
  destruct (get_repo gh) as [repoResponse|m]; simpl;
    [|intros [= <-]; discriminate].
  destruct (repo_ok repoResponse); simpl; [|intros [= <-]; discriminate].
  destruct (default_branch repoResponse) as [defaultBranch|m]; simpl;
    [|intros [= <-]; discriminate].
  destruct (get_base_sha gh defaultBranch) as [baseSha|m]; simpl;
    [|intros [= <-]; discriminate].
  destruct (create_branch gh _ baseSha) as [[]|m]; simpl;
    [|intros [= <-]; discriminate].
  destruct (ImproveCoverage.generateTestFiles gh) as [testFiles|m]; simpl;
    [|intros [= <-]; discriminate].
  rewrite !BulkFacts.upload_all_eq.
  destruct (uploaded gh _ testFiles) as [[]|m]; simpl;
    [|intros [= <-]; discriminate].
  destruct (create_pull_request gh _ defaultBranch) as [prResponse|m];
    simpl; [|intros [= <-]; discriminate].
  destruct (pr_ok prResponse); simpl; [|intros [= <-]; discriminate].
  destruct (pr_data prResponse) as [prData|m]; simpl;
    [|intros [= <-]; discriminate].
  intros [= <-] _. exists testFiles. split; reflexivity.
Qed.

(** The entries of the loop, looked up by position. *)
Lemma process_all_lookup world repositories i r :
  process_all world 0 repositories [] !! i = Some r ->
  exists repo, repositories !! i = Some repo /\ alone (world i) repo = [r].
Proof.
  destruct (BulkFacts.process_all_results world repositories 0 [])
    as (added & -> & Hids & Hnth). simpl. intros Hi.
  assert (Hlen : length added = length repositories).
  { rewrite <- (length_map repositoryId added), Hids. apply length_map. }
  destruct (lookup_lt_is_Some_2 repositories i) as [repo Hrepo].
  { rewrite <- Hlen. eapply lookup_lt_Some. exact Hi. }
  exists repo. split; [exact Hrepo|].
  destruct (Hnth i repo Hrepo) as (r' & Hr' & Ha).
  simpl in Ha. congruence.
Qed.

(** X18: the function answers with results only to a request that is not
    a preflight, lists at least one repository and finds a non-empty token
    in the environment; the answer then has one entry per repository, in
    the order of the request, and every entry is either a success with no
    error, a branch, a number of tests and an estimate of at most 95, or a
    failure with an error message and none of the other fields. *)
Theorem answer_has_one_well_formed_entry_per_repository
    method body githubToken world results :
  serve method body githubToken world = Ok results ->
  method <> "OPTIONS" /\
  truthy githubToken = true /\
  exists repositories,
    body = Returned (Some repositories) /\ repositories <> [] /\
    List.map repositoryId results = List.map id repositories /\
    Forall well_formed results.
Proof.
  unfold serve. destruct (String.eqb method "OPTIONS") eqn:Em; [discriminate|].
  destruct body as [[[|repo rest]|]|m]; try discriminate.
  destruct (truthy githubToken) eqn:Et; [|discriminate].
  intros [= <-]. split.
  { intros ->. discriminate. }
  split; [reflexivity|].
  exists (repo :: rest). split; [reflexivity|]. split; [discriminate|].
  split.
  - destruct (BulkFacts.process_all_results world (repo :: rest) 0 [])
      as (added & Hadd & Hids & _).
    rewrite <- Hids. f_equal. exact Hadd.
  - apply Forall_lookup. intros i r Hi.
    destruct (process_all_lookup world (repo :: rest) i r Hi)
      as (repo' & _ & Ha).
    eapply alone_well_formed. exact Ha.
Qed.

Lemma answer_has_one_well_formed_entry_per_repository_witness :
  exists results,
    serve "POST" (Returned (Some [widgets; gadgets])) (Some "ghp_token")
      first_fails = Ok results /\
    List.map repositoryId results = ["r1"; "r2"] /\
    Forall well_formed results.
Proof.
  eexists. split; [reflexivity|].
  destruct (answer_has_one_well_formed_entry_per_repository
              "POST" (Returned (Some [widgets; gadgets])) (Some "ghp_token")
              first_fails _ eq_refl)
    as (_ & _ & repositories & [= <-] & _ & Hids & Hwf).
  split; [exact Hids | exact Hwf].
Defined.

(** The test files of a JavaScript or TypeScript repository. *)
Lemma js_test_files names :
  let files := List.map js_test_file (take 3 (List.filter testable names)) in
  length files <= 3 /\
  Forall (fun f =>
            path f = "tests/" ++ component f ++ ".test.js" /\
            exists name, In name names /\
              component f = strip_extension name /\
              includes name "test" = false /\
              includes name "spec" = false) files.
Proof.
  intros files. subst files. split.
  - rewrite length_map, length_take. lia.
  - apply List.Forall_forall. intros f Hf.
    apply in_map_iff in Hf. destruct Hf as (name & <- & Hin).
    split; [reflexivity|]. exists name.
    assert (Hin' : In name (List.filter testable names)).
    { apply list_elem_of_In. apply list_elem_of_In in Hin.
      eapply (subseteq_take 3). exact Hin. }
    apply filter_In in Hin'. destruct Hin' as [Hn Ht].
    split; [exact Hn|]. split; [reflexivity|].
    unfold testable in Ht.
    apply andb_prop in Ht. destruct Ht as [Ht Hs].
    apply andb_prop in Ht. destruct Ht as [_ Ht].
    split; [destruct (includes name "test") | destruct (includes name "spec")];
      simpl in *; congruence.
Qed.

Lemma generated_files_length language contentsResponse files :
  generateTestFiles language contentsResponse = Returned files ->
  length files <= 3.
Proof.
  unfold generateTestFiles.
  destruct contentsResponse as [response|m]; [|discriminate].
  destruct (contents_ok response); simpl; [|intros [= <-]; simpl; lia].
  destruct (contents response) as [names|m]; [|discriminate].
  destruct (String.eqb language "JavaScript" ||
            String.eqb language "TypeScript").
  - intros [= <-]. apply js_test_files.
  - destruct (String.eqb language "Python");
      [|destruct (String.eqb language "Java")];
      intros [= <-]; simpl; lia.
Qed.

(** X19: [generateTestFiles] makes at most three test files.  For a
    JavaScript or TypeScript repository each one is
    [tests/<component>.test.js], a JavaScript test also for a TypeScript
    source, where the component is the name, without a closing [.js] or
    [.ts], of a listed entry whose name contains neither [test] nor [spec];
    for every other language it is exactly one fixed file, whatever the
    repository contains.  A listing that is not ok gives no file and no
    error. *)
Theorem at_most_three_test_files language contentsResponse files :
  generateTestFiles language contentsResponse = Returned files ->
  length files <= 3 /\
  exists response, contentsResponse = Returned response /\
    (contents_ok response = false -> files = []) /\
    (contents_ok response = true ->
     exists names, contents response = Returned names /\
       if String.eqb language "JavaScript" || String.eqb language "TypeScript"
       then Forall (fun f =>
                      path f = "tests/" ++ component f ++ ".test.js" /\
                      exists name, In name names /\
                        component f = strip_extension name /\
                        includes name "test" = false /\
                        includes name "spec" = false) files
       else length files = 1).
Proof.
  unfold generateTestFiles.
  destruct contentsResponse as [response|m]; [|discriminate].
  destruct (contents_ok response) eqn:Eok; simpl.
  2:{ intros [= <-]. split; [simpl; lia|]. exists response.
      split; [reflexivity|]. split; [reflexivity | intros ?; congruence]. }
  destruct (contents response) as [names|m] eqn:Ec; [|discriminate].
  destruct (String.eqb language "JavaScript" ||
            String.eqb language "TypeScript") eqn:Ejs.
  - intros [= <-]. destruct (js_test_files names) as [Hlen Hall].
    split; [exact Hlen|]. exists response. split; [reflexivity|].
    split; [intros ?; congruence|]. intros _. exists names. split; [exact Ec|].
    exact Hall.
  - intros H.
    assert (Hone : length files = 1).
    { destruct (String.eqb language "Python");
        [|destruct (String.eqb language "Java")];
        injection H as <-; reflexivity. }
    split; [lia|]. exists response. split; [reflexivity|].
    split; [intros ?; congruence|]. intros _. exists names. split; [exact Ec|].
    exact Hone.
Qed.

Lemma at_most_three_test_files_witness :
  exists files,
    generateTestFiles "JavaScript" listing = Returned files /\
    List.map path files =
      ["tests/index.test.js"; "tests/src.test.js"; "tests/app.test.js"] /\
    length files <= 3.
Proof.
  eexists. split; [reflexivity|]. split; [vm_compute; reflexivity|].
  apply (at_most_three_test_files "JavaScript" listing _ eq_refl).
Defined.

(** X20: when the test files of every repository come from
    [generateTestFiles], no successful entry of the answer suggests more
    than three tests. *)
Theorem at_most_three_tests_are_suggested world repositories replies :
  generates world repositories replies ->
  Forall (fun r => success r = true ->
            exists n, suggestedTests r = Some n /\ n <= 3)
    (process_all world 0 repositories []).
Proof.
  intros Hgen. apply Forall_lookup. intros i r Hi Hs.
  destruct (process_all_lookup world repositories i r Hi)
    as (repo & Hrepo & Ha).
  destruct (alone_suggested _ _ _ Ha Hs) as (testFiles & Hfiles & ->).
  exists (length testFiles). split; [reflexivity|].
  rewrite (Hgen i repo Hrepo) in Hfiles.
  apply (generated_files_length _ _ _ Hfiles).
Qed.

Lemma at_most_three_tests_are_suggested_witness :
  generates (fun _ => listed) [dashboard] (fun _ => listing) /\
  List.map suggestedTests (process_all (fun _ => listed) 0 [dashboard] []) =
    [Some 3] /\
  Forall (fun r => success r = true ->
            exists n, suggestedTests r = Some n /\ n <= 3)
    (process_all (fun _ => listed) 0 [dashboard] []).
Proof.
  assert (H : generates (fun _ => listed) [dashboard] (fun _ => listing)).
  { intros [|i] repo Hi; simpl in Hi; [|discriminate].
    injection Hi as <-. reflexivity. }
  split; [exact H|]. split; [vm_compute; reflexivity|].
  apply (at_most_three_tests_are_suggested _ _ _ H).
Defined.

End CoverageFacts.

(** ** The update scan, row by row *)

Module ScanRowsFacts.

Import Vulnerabilities ScanUpdates VersionScenario ScanRows.

Lemma at_row_lookup i f st k :
  at_row i f st !! k =
  (fun item => if Nat.eqb k i then f item else item) <$> st !! k.
Proof. unfold at_row. apply list_lookup_imap. Qed.

Lemma at_row_same i st : at_row i (fun item => item) st = st.
Proof.
  apply list_eq. intros k. rewrite at_row_lookup.
  destruct (st !! k); simpl; [|reflexivity].
  destruct (Nat.eqb k i); reflexivity.
Qed.

Lemma at_row_at_row i f g st :
  at_row i f (at_row i g st) = at_row i (fun item => f (g item)) st.
Proof.
  apply list_eq. intros k. rewrite !at_row_lookup.
  destruct (st !! k); simpl; [|reflexivity].
  destruct (Nat.eqb k i); reflexivity.
Qed.

Lemma record_detection_at_row i t reply st :
  record_detection i t reply st = at_row i (row_record t reply) st.
Proof.
  unfold record_detection, row_record.
  destruct (detected reply) as [v|]; [reflexivity|].
  symmetry. apply at_row_same.
Qed.

Lemma detections_at_row (detect : Detector) i repo st ts : forall g,
  fold_left (fun st technology =>
               record_detection i technology (detect i repo technology) st)
    ts (at_row i g st) =
  at_row i (fun item =>
              fold_left (fun r technology =>
                           row_record technology (detect i repo technology) r)
                ts (g item)) st.
Proof.
  induction ts as [|t ts IH]; intros g; simpl; [reflexivity|].
  rewrite record_detection_at_row, at_row_at_row. apply IH.
Qed.

Lemma scan_repository_at_row detect st i repo :
  scan_repository detect st (i, repo) = at_row i (row_scan detect i repo) st.
Proof.
  unfold scan_repository, row_scan.
  change (set_scanning i st) with (at_row i start st).
  rewrite detections_at_row.
  change (set_scanned i ?l) with (at_row i finish l).
  apply at_row_at_row.
Qed.

(** The detections of a row change its technologies only. *)
Lemma row_records (detect : Detector) i repo ts : forall item,
  fold_left (fun r technology =>
               row_record technology (detect i repo technology) r) ts item =
  {| repository := repository item;
     technologies :=
       fold_left (tech_step (fun t => detected (detect i repo t))) ts
         (technologies item);
     isScanning := isScanning item;
     scanned := scanned item |}.
Proof.
  induction ts as [|t ts IH]; intros item; simpl.
  - destruct item; reflexivity.
  - rewrite IH. unfold row_record, tech_step.
    destruct (detected (detect i repo t)); reflexivity.
Qed.

Lemma existsb_eqb_In x ts :
  existsb (String.eqb x) ts = true <-> In x ts.
Proof.
  rewrite existsb_exists. split.
  - intros (y & Hy & E). apply String.eqb_eq in E. subst y. exact Hy.
  - intros H. exists x. split; [exact H | apply String.eqb_refl].
Qed.

(** One detection after the other, each touching the technology of its
    name, comes to one pass over the technologies. *)
Lemma tech_steps d ts : forall techs,
  List.NoDup ts ->
  fold_left (tech_step d) ts techs =
  List.map (fun tech =>
              if existsb (String.eqb (name tech)) ts
              then match d (name tech) with
                   | Some v =>
                       {| name := name tech;
                          currentVersion := Some v;
                          availableVersions := availableVersions tech;
                          latestVersion := latestVersion tech;
                          needsUpdate := needs_update (name tech) v |}
                   | None => tech
                   end
              else tech) techs.
Proof.
  induction ts as [|t ts IH]; intros techs Hnd; simpl.
  - symmetry. apply map_id.
  - inversion Hnd as [|? ? Hnotin Hnd']; subst.
    rewrite (IH _ Hnd'). unfold tech_step.
    assert (Hts : existsb (String.eqb t) ts = false).
    { destruct (existsb (String.eqb t) ts) eqn:E; [|reflexivity].
      apply existsb_eqb_In in E. contradiction. }
    destruct (d t) as [v|] eqn:Ed.
    + rewrite List.map_map. apply List.map_ext. intros tech. unfold upd.
      destruct (String.eqb (name tech) t) eqn:En; simpl.
      * apply String.eqb_eq in En. rewrite En, Hts, Ed. reflexivity.
      * reflexivity.
    + apply List.map_ext. intros tech.
      destruct (String.eqb (name tech) t) eqn:En; simpl; [|reflexivity].
      apply String.eqb_eq in En. rewrite En, Ed.
      destruct (existsb (String.eqb t) ts); reflexivity.
Qed.

Lemma relevantTechnologies_NoDup : List.NoDup relevantTechnologies.
Proof.
  unfold relevantTechnologies.
  repeat (constructor; [simpl; intuition discriminate|]). constructor.
Qed.

(** The turn of a row whose technologies are the six relevant ones. *)
Lemma row_scan_scanned_row detect i item :
  List.map name (technologies item) = relevantTechnologies ->
  row_scan detect i (repository item) item = scanned_row detect i item.
Proof.
  intros Hnames. unfold row_scan, scanned_row, finish.
  rewrite row_records. cbn [repository technologies isScanning scanned start].
  f_equal. rewrite (tech_steps _ _ _ relevantTechnologies_NoDup).
  apply List.map_ext_in. intros tech Hin.
  assert (Hn : existsb (String.eqb (name tech)) relevantTechnologies = true).
  { apply existsb_eqb_In. rewrite <- Hnames. apply in_map. exact Hin. }
  rewrite Hn. reflexivity.
Qed.

(** The loop over the repositories, looked up by row. *)
Lemma scan_loop_lookup detect repositories : forall n st k,
  fold_left (scan_repository detect)
    (imap (fun j repo => (n + j, repo)) repositories) st !! k =
  match repositories !! (k - n) with
  | Some repo =>
      if Nat.leb n k then row_scan detect k repo <$> st !! k else st !! k
  | None => st !! k
  end.
Proof.
  induction repositories as [|r repositories IH]; intros n st k.
  - reflexivity.
  - cbn [imap fold_left].
    rewrite (imap_ext _ (fun j repo => (S n + j, repo)) repositories).
    2:{ intros j x _. simpl. f_equal. lia. }
    rewrite IH, Nat.add_0_r, scan_repository_at_row, at_row_lookup.
    destruct (Nat.leb_spec n k) as [Hle|Hlt].
    + destruct (Nat.eqb_spec k n) as [->|Hne].
      * replace (n - n) with 0 by lia. replace (n - S n) with 0 by lia.
        cbn [lookup list_lookup].
        destruct (Nat.leb_spec (S n) n) as [?|_]; [lia|].
        destruct (repositories !! 0); reflexivity.
      * replace (k - n) with (S (k - S n)) by lia.
        cbn [lookup list_lookup].
        destruct (Nat.leb_spec (S n) k) as [_|?]; [|lia].
        destruct (st !! k); destruct (repositories !! (k - S n)); reflexivity.
    + replace (k - n) with 0 by lia. replace (k - S n) with 0 by lia.
      cbn [lookup list_lookup].
      destruct (Nat.leb_spec (S n) k) as [?|_]; [lia|].
      destruct (Nat.eqb_spec k n) as [?|_]; [lia|].
      destruct (st !! k); destruct (repositories !! 0); reflexivity.
Qed.

(** A scan, started on rows that belong to the repositories, is one pass
    over the rows. *)
Lemma scan_loop_rows detect repositories st :
  shaped repositories st ->
  fold_left (scan_repository detect)
    (imap (fun i repo => (i, repo)) repositories) st =
  imap (scanned_row detect) st.
Proof.
  intros [Hrepos Hnames]. apply list_eq. intros k.
  pose proof (scan_loop_lookup detect repositories 0 st k) as Hk.
  cbn [Nat.add Nat.leb] in Hk. rewrite Hk.
  rewrite Nat.sub_0_r, list_lookup_imap.
  rewrite <- Hrepos.
  change (List.map repository st) with (repository <$> st).
  rewrite list_lookup_fmap.
  destruct (st !! k) as [item|] eqn:Ek; simpl; [|reflexivity].
  f_equal. apply row_scan_scanned_row.
  rewrite list.Forall_lookup in Hnames. exact (Hnames k item Ek).
Qed.

Lemma scanned_rows_shaped detect repositories st :
  shaped repositories st -> shaped repositories (imap (scanned_row detect) st).
Proof.
  intros [Hrepos Hnames]. split.
  - rewrite <- Hrepos. apply list_eq. intros k.
    change (List.map repository ?l) with (repository <$> l).
    rewrite !list_lookup_fmap, list_lookup_imap.
    destruct (st !! k); reflexivity.
  - apply list.Forall_lookup. intros k item Hk.
    rewrite list_lookup_imap in Hk.
    destruct (st !! k) as [item0|] eqn:Ek; [|discriminate].
    injection Hk as <-. cbn [scanned_row technologies].
    rewrite list.Forall_lookup in Hnames.
    rewrite <- (Hnames k item0 Ek), List.map_map.
    apply List.map_ext. intros tech. unfold scanned_technology.
    destruct (detected _); reflexivity.
Qed.

Lemma initializeScan_shaped repositories :
  shaped repositories (initializeScan repositories).
Proof.
  unfold shaped, initializeScan. split.
  - rewrite List.map_map. apply map_id.
  - apply List.Forall_forall. intros item Hin.
    apply in_map_iff in Hin. destruct Hin as (r & <- & _). reflexivity.
Qed.

Lemma after_scans_shaped repositories scans :
  shaped repositories (repositoryUpdates (after_scans repositories scans)) /\
  modal_isScanning (after_scans repositories scans) = false.
Proof.
  unfold after_scans.
  assert (H0 : shaped repositories (repositoryUpdates (opened repositories)) /\
               modal_isScanning (opened repositories) = false).
  { split; [apply initializeScan_shaped | reflexivity]. }
  revert H0. generalize (opened repositories).
  induction scans as [|detect scans IH]; intros m [Hsh Hs]; simpl.
  - split; assumption.
  - apply IH. unfold scanAllRepositories. rewrite Hs. simpl.
    split; [|reflexivity].
    rewrite (scan_loop_rows detect repositories _ Hsh).
    apply scanned_rows_shaped, Hsh.
Qed.

(** X21: a scan of the update modal is one pass over its rows.  Every row
    stays with its repository and its six technologies and ends up marked
    as scanned; a technology for which the detection delivers a version gets
    that version and the flag computed from it; a technology for which it
    delivers none (an error, no success, no version) keeps the version and
    the flag an earlier scan left there. *)
Theorem scan_is_one_pass_over_the_rows repositories scans detect :
  let m := after_scans repositories scans in
  let m' := fst (scanAllRepositories repositories detect m) in
  repositoryUpdates m' = imap (scanned_row detect) (repositoryUpdates m) /\
  List.map repository (repositoryUpdates m') = repositories /\
  Forall (fun item =>
            scanned item = true /\ isScanning item = false /\
            List.map name (technologies item) = relevantTechnologies)
    (repositoryUpdates m') /\
  (forall reply tech,
     detected reply = None -> scanned_technology reply tech = tech).
Proof.
  intros m m'. destruct (after_scans_shaped repositories scans) as [Hsh Hs].
  fold m in Hsh, Hs.
  assert (Hrows : repositoryUpdates m' =
                  imap (scanned_row detect) (repositoryUpdates m)).
  { subst m'. unfold scanAllRepositories. rewrite Hs. simpl.
    apply scan_loop_rows, Hsh. }
  destruct (scanned_rows_shaped detect repositories _ Hsh) as [Hrepos Hnames].
  rewrite <- Hrows in Hrepos, Hnames.
  split; [exact Hrows|]. split; [exact Hrepos|]. split.
  - apply list.Forall_lookup. intros k item Hk.
    rewrite list.Forall_lookup in Hnames.
    split; [|split; [|exact (Hnames k item Hk)]].
    + rewrite Hrows, list_lookup_imap in Hk.
      destruct (repositoryUpdates m !! k); [|discriminate].
      injection Hk as <-. reflexivity.
    + rewrite Hrows, list_lookup_imap in Hk.
      destruct (repositoryUpdates m !! k); [|discriminate].
      injection Hk as <-. reflexivity.
  - intros reply tech Hd. unfold scanned_technology. rewrite Hd. reflexivity.
Qed.

Lemma scan_is_one_pass_over_the_rows_witness :
  List.map (fun tech => (name tech, currentVersion tech, needsUpdate tech))
    (flat_map technologies
       (repositoryUpdates
          (fst (scanAllRepositories [widgets] offline
                  (after_scans [widgets] [detector]))))) =
  [("Java", Some "17.0.9", true); ("Angular", Some "19", false);
   ("Python", Some "3.12", false); ("TypeScript", None, false);
   ("Node.js", None, false); ("React", None, false)] /\
  List.map repository
    (repositoryUpdates
       (fst (scanAllRepositories [widgets] offline
               (after_scans [widgets] [detector])))) = [widgets].
Proof.
  destruct (scan_is_one_pass_over_the_rows [widgets] [detector] offline)
    as (Hrows & Hrepos & _ & _).
  split; [|exact Hrepos].
  rewrite Hrows. vm_compute. reflexivity.
Defined.

Lemma sum_fold {A} (f : A -> nat) l : forall n,
  fold_left (fun total x => total + f x) l n = n + list_sum (List.map f l).
Proof.
  induction l as [|x l IH]; intros n; simpl; [lia|].
  rewrite IH. lia.
Qed.

(** No version of the catalog is the empty string. *)
Lemma catalog_versions_not_empty technology v :
  In v (versions_of technology) -> v <> "".
Proof.
  unfold versions_of.
  destruct (List.find _ technologyVersions) as [kv|] eqn:E; [|intros []].
  apply find_some in E. destruct E as [Hkv _]. intros Hv.
  assert (Hall : forallb (fun kv => forallb (fun v => negb (String.eqb v ""))
                                      (snd kv)) technologyVersions = true)
    by (vm_compute; reflexivity).
  rewrite forallb_forall in Hall. specialize (Hall kv Hkv).
  rewrite forallb_forall in Hall. specialize (Hall v Hv).
  intros ->. discriminate.
Qed.

(** Of a row whose technologies are consistent, every flagged technology
    gives one upgrade result. *)
Lemma flagged_give_results (item : RepositoryUpdate) :
  Forall consistent (technologies item) ->
  length (upgradeResults [item]) =
  length (List.filter needsUpdate (technologies item)).
Proof.
  unfold upgradeResults. simpl. rewrite app_nil_r.
  generalize (repository item). intros repo.
  induction (technologies item) as [|tech techs IH]; intros Hc; simpl;
    [reflexivity|].
  inversion Hc as [|? ? (_ & _ & Hflag) Hc']; subst.
  rewrite length_app, (IH Hc').
  destruct (currentVersion tech) as [v|] eqn:Ev.
  - destruct (needsUpdate tech) eqn:En; simpl; [|reflexivity].
    symmetry in Hflag. apply VersionFacts.needs_update_iff in Hflag.
    destruct Hflag as [Hin _].
    apply catalog_versions_not_empty in Hin.
    destruct (String.eqb_spec v "") as [?|_]; [contradiction|]. reflexivity.
  - rewrite Hflag. reflexivity.
Qed.

Lemma upgradeResults_cons item st :
  upgradeResults (item :: st) =
  (upgradeResults [item] ++ upgradeResults st)%list.
Proof. unfold upgradeResults. simpl. rewrite app_nil_r. reflexivity. Qed.

Lemma total_is_results st :
  all_consistent st ->
  getTotalUpdatesAvailable st = length (upgradeResults st).
Proof.
  unfold getTotalUpdatesAvailable. rewrite sum_fold. simpl.
  induction st as [|item st IH]; intros Hc; [reflexivity|].
  inversion Hc as [|? ? Hitem Hc']; subst.
  rewrite upgradeResults_cons, length_app, (flagged_give_results _ Hitem).
  simpl. rewrite (IH Hc'). reflexivity.
Qed.

Lemma repositories_with_updates_bound st :
  getRepositoriesWithUpdates st <= getTotalUpdatesAvailable st /\
  getRepositoriesWithUpdates st <= length st.
Proof.
  unfold getRepositoriesWithUpdates, getTotalUpdatesAvailable.
  rewrite sum_fold. simpl.
  induction st as [|item st [IH1 IH2]]; simpl; [lia|].
  destruct (existsb needsUpdate (technologies item)) eqn:E; simpl; [|lia].
  split; [|lia].
  assert (1 <= length (List.filter needsUpdate (technologies item))); [|lia].
  apply existsb_exists in E. destruct E as (tech & Hin & Hn).
  assert (Hf : In tech (List.filter needsUpdate (technologies item)))
    by (apply filter_In; auto).
  destruct (List.filter needsUpdate (technologies item));
    [destruct Hf | simpl; lia].
Qed.

(** X22: in every state the update modal reaches, the number of updates it
    announces is the number of upgrade results that state gives the page,
    and the number of repositories it announces is at most that number and
    at most the number of repositories. *)
Theorem announced_updates_are_the_upgrade_results repositories scans :
  let st := repositoryUpdates (after_scans repositories scans) in
  getTotalUpdatesAvailable st = length (upgradeResults st) /\
  getRepositoriesWithUpdates st <= getTotalUpdatesAvailable st /\
  getRepositoriesWithUpdates st <= length repositories.
Proof.
  intros st.
  destruct (VersionFacts.after_scans_consistent repositories scans)
    as [Hc _].
  destruct (after_scans_shaped repositories scans) as [[Hrepos _] _].
  fold st in Hc, Hrepos.
  destruct (repositories_with_updates_bound st) as [H1 H2].
  split; [apply total_is_results, Hc|]. split; [exact H1|].
  rewrite <- Hrepos, length_map. exact H2.
Qed.

Lemma initializeScan_no_results repositories :
  upgradeResults (initializeScan repositories) = [].
Proof.
  unfold initializeScan.
  induction repositories as [|r repositories IH]; [reflexivity|].
  cbn [List.map]. rewrite upgradeResults_cons, IH. reflexivity.
Qed.

(** X23: a scan hands the page the updates that were flagged before it
    started, not the ones it finds.  The first scan after the modal is
    opened hands over an empty list, whatever it detects; a later scan
    hands over what the scan before it left in the rows, whatever it
    detects itself. *)
Theorem scan_reports_what_the_previous_scan_found
    repositories scans detect later :
  snd (scanAllRepositories repositories detect (opened repositories)) =
    Some [] /\
  let m := after_scans repositories scans in
  let m' := fst (scanAllRepositories repositories detect m) in
  snd (scanAllRepositories repositories detect m) =
    Some (upgradeResults (repositoryUpdates m)) /\
  snd (scanAllRepositories repositories later m') =
    Some (upgradeResults (imap (scanned_row detect) (repositoryUpdates m))).
Proof.
  split.
  - unfold scanAllRepositories, opened. simpl.
    rewrite initializeScan_no_results. reflexivity.
  - intros m m'.
    destruct (after_scans_shaped repositories scans) as [Hsh Hs].
    fold m in Hsh, Hs.
    assert (Hm' : m' = {| repositoryUpdates :=
                            imap (scanned_row detect) (repositoryUpdates m);
                          modal_isScanning := false |}).
    { subst m'. unfold scanAllRepositories. rewrite Hs. simpl.
      rewrite (scan_loop_rows detect repositories _ Hsh). reflexivity. }
    split.
    + unfold scanAllRepositories. rewrite Hs. reflexivity.
    + rewrite Hm'. reflexivity.
Qed.

End ScanRowsFacts.

(** ** The metric cards of the versions page *)

Module VersionMetricsFacts.

Import ScanUpdates SecurityMetrics VersionMetrics.

Lemma set_size_positive x ids : (0 < set_size (x :: ids))%Z.
Proof.
  unfold set_size. simpl. destruct (decide_rel elem_of x ids) as [Hin|_].
  - assert (Hx : x ∈ remove_dups ids) by (apply elem_of_remove_dups, Hin).
    destruct (remove_dups ids); [inversion Hx | simpl; lia].
  - simpl. lia.
Qed.

(** X24: whatever upgrades the page holds, its last card reads 0 per cent
    up to date, none of the scanned repositories, and shows no trend: the
    repositories that need no update are counted as the scanned ones minus
    the ones with an upgrade, and both are the same set.  The three cards
    before it count the upgrades of Java, Angular and Python, with a
    warning exactly when there is one. *)
Theorem up_to_date_card_always_reads_zero percent scannedUpgrades :
  (forall n, (0 < n)%Z -> percent 0%Z n = 0%Z) ->
  (exists text,
     calculateMetrics percent scannedUpgrades !! 3 =
     Some {| title := "Up-to-date"; value := Str "0%"; description := text;
             variant := None; trend := None |} /\
     (scannedUpgrades <> [] ->
      text = "0 of " ++
             show (set_size (List.map ur_repositoryId scannedUpgrades)) ++
             " scanned repositories")) /\
  (scannedUpgrades <> [] ->
   List.map (fun card => (value card, variant card))
     (take 3 (calculateMetrics percent scannedUpgrades)) =
   List.map (fun technology =>
               let n := upgrades_of technology scannedUpgrades in
               (Num (Z.of_nat n),
                Some (if Nat.ltb 0 n then "warning" else "success")))
     ["Java"; "Angular"; "Python"]).
Proof.
  intros Hround. destruct scannedUpgrades as [|u rest].
  - split; [|intros H; contradiction].
    eexists. split; [reflexivity|]. intros H. contradiction.
  - set (l := u :: rest). split.
    + eexists. split; [|intros _; reflexivity].
      unfold calculateMetrics. cbv zeta. fold l.
      cbn [lookup list_lookup].
      pose proof (set_size_positive (ur_repositoryId u)
                    (List.map ur_repositoryId rest)) as Hpos.
      change (ur_repositoryId u :: List.map ur_repositoryId rest)
        with (List.map ur_repositoryId l) in Hpos.
      rewrite Z.sub_diag.
      destruct (Z.ltb_spec 0 (set_size (List.map ur_repositoryId l)));
        [|lia].
      rewrite (Hround _ Hpos). reflexivity.
    + intros _. unfold calculateMetrics. cbv zeta. fold l.
      cbn [take List.map]. unfold technology_card, upgrades_of.
      cbn [value variant].
      repeat match goal with
             | |- context [Nat.ltb 0 ?n] =>
                 destruct (Nat.ltb_spec 0 n);
                 destruct (Z.ltb_spec 0 (Z.of_nat n)); try lia
             end; reflexivity.
Qed.

Lemma up_to_date_card_always_reads_zero_witness :
  calculateMetrics exact_percent
    (upgradeResults
       (repositoryUpdates
          (after_scans [VersionScenario.widgets]
             [VersionScenario.detector]))) !! 3 =
  Some {| title := "Up-to-date"; value := Str "0%";
          description := "0 of 1 scanned repositories";
          variant := None; trend := None |}.
Proof.
  pose proof (up_to_date_card_always_reads_zero exact_percent
                (upgradeResults
                   (repositoryUpdates
                      (after_scans [VersionScenario.widgets]
                         [VersionScenario.detector])))) as H.
  destruct H as [(text & H3 & Htext) _].
  { intros n Hn. unfold exact_percent. apply Z.div_small. lia. }
  rewrite H3, Htext by (vm_compute; discriminate).
  vm_compute. reflexivity.
Defined.

End VersionMetricsFacts.

(** ** The detection of the current version *)

Module DetectVersionFacts.

Import JS ScanUpdates DetectVersion.

Lemma has_dot_before_dot s : has_dot (before_dot s) = false.
Proof.
  unfold has_dot. induction s as [|c s IH]; [reflexivity|].
  cbn [before_dot].
  destruct (Ascii.eqb_spec c "."%char) as [->|Hc]; [reflexivity|].
  cbn [String.list_ascii_of_string existsb]. rewrite IH.
  destruct (Ascii.eqb_spec "."%char c) as [E|_];
    [symmetry in E; contradiction | reflexivity].
Qed.

Lemma remove_first_length class s :
  String.length s <= S (String.length (remove_first class s)).
Proof.
  induction s as [|c s IH]; simpl; [lia|].
  destruct (class c); simpl; lia.
Qed.

(** What the scan flags for a technology is one of the catalog's versions
    behind the first. *)
Lemma flagged_versions technology v :
  needs_update technology v = true ->
  In v (List.tl (versions_of technology)).
Proof.
  intros H. apply VersionFacts.needs_update_iff in H. destruct H as [Hin Hne].
  destruct (versions_of technology) as [|latest rest]; [destruct Hin|].
  simpl in *. destruct Hin as [<-|Hin]; [contradiction | exact Hin].
Qed.

Section Engine.

Variable getFileContent : string -> option string.
Variable JSON_parse : string -> completion PackageJson.
Variable match_group : Pattern -> string -> option string.
Variable packageFile : string.
Variable packageJson : PackageJson.
Hypothesis package_found : getFileContent "package.json" = Some packageFile.
Hypothesis package_not_empty : packageFile <> "".
Hypothesis package_parsed : JSON_parse packageFile = Returned packageJson.

Lemma in_package_read read :
  in_package getFileContent JSON_parse read = read packageJson.
Proof.
  unfold in_package. rewrite package_found. unfold truthy.
  destruct (String.eqb_spec packageFile "") as [?|_]; [contradiction|].
  simpl. rewrite package_parsed. reflexivity.
Qed.

(** X25: for Node.js the function returns the [engines.node] entry of
    [package.json] without its first range character, and only without
    that one: [>=18] comes back as [=18].  The scan flags Node.js only when
    what comes back is exactly [18], [16] or [14], so no entry that starts
    with [>=] or [<=] is ever flagged. *)
Theorem node_range_loses_one_character s :
  engines_node packageJson = Text s -> s <> "" ->
  let v := remove_first is_range_character s in
  detectCurrentVersion getFileContent JSON_parse match_group "Node.js" =
    Some v /\
  String.length s <= S (String.length v) /\
  (needs_update "Node.js" v = true -> In v ["18"; "16"; "14"]) /\
  (forall rest, s = ">=" ++ rest \/ s = "<=" ++ rest ->
     v = "=" ++ rest /\ needs_update "Node.js" v = false).
Proof.
  intros Hs Hne v. split; [|split; [|split]].
  - unfold detectCurrentVersion, detection.
    change (String.eqb "Node.js" "Java") with false.
    change (String.eqb "Node.js" "TypeScript") with false.
    change (String.eqb "Node.js" "Angular") with false.
    change (String.eqb "Node.js" "Node.js") with true. cbv iota.
    rewrite in_package_read. unfold cleaned. rewrite Hs. simpl.
    destruct (String.eqb_spec s "") as [?|_]; [contradiction|]. reflexivity.
  - apply remove_first_length.
  - intros H. apply flagged_versions in H. exact H.
  - intros rest Hrest.
    assert (Hv : v = "=" ++ rest).
    { subst v. destruct Hrest as [-> | ->]; reflexivity. }
    split; [exact Hv|].
    destruct (needs_update "Node.js" v) eqn:E; [|reflexivity].
    apply flagged_versions in E. rewrite Hv in E. simpl in E.
    destruct E as [E|[E|[E|[]]]]; discriminate.
Qed.

(** X26: for Angular the function returns the major version only, what
    stands before the first dot of the [@angular/core] entry without its
    first caret or tilde; for React it returns the whole entry without its
    first caret or tilde, and the scan, whose catalog knows React by major
    versions, flags none that still has a dot in it. *)
Theorem angular_by_major_react_in_full :
  (forall s, dependencies_angular_core packageJson = Text s -> s <> "" ->
     let v := before_dot (remove_first is_caret_or_tilde s) in
     detectCurrentVersion getFileContent JSON_parse match_group "Angular" =
       Some v /\
     has_dot v = false) /\
  (forall s, dependencies_react packageJson = Text s -> s <> "" ->
     let v := remove_first is_caret_or_tilde s in
     detectCurrentVersion getFileContent JSON_parse match_group "React" =
       Some v /\
     (has_dot v = true -> needs_update "React" v = false)).
Proof.
  split; intros s Hs Hne v.
  - split; [|apply has_dot_before_dot].
    unfold detectCurrentVersion, detection.
    change (String.eqb "Angular" "Java") with false.
    change (String.eqb "Angular" "TypeScript") with false.
    change (String.eqb "Angular" "Angular") with true. cbv iota.
    rewrite in_package_read. rewrite Hs. simpl.
    destruct (String.eqb_spec s "") as [?|_]; [contradiction|]. reflexivity.
  - split.
    + unfold detectCurrentVersion, detection.
      change (String.eqb "React" "Java") with false.
      change (String.eqb "React" "TypeScript") with false.
      change (String.eqb "React" "Angular") with false.
      change (String.eqb "React" "Node.js") with false.
      change (String.eqb "React" "Python") with false.
      change (String.eqb "React" "React") with true. cbv iota.
      rewrite in_package_read. unfold cleaned. rewrite Hs. simpl.
      destruct (String.eqb_spec s "") as [?|_]; [contradiction|]. reflexivity.
    + intros Hdot. destruct (needs_update "React" v) eqn:E; [|reflexivity].
      apply flagged_versions in E. simpl in E.
      destruct E as [E|[E|[]]]; rewrite <- E in Hdot; discriminate.
Qed.

End Engine.

Lemma node_range_loses_one_character_witness :
  detectCurrentVersion only_package (fun _ => Returned frontend) no_match
    "Node.js" = Some "=18" /\
  needs_update "Node.js" "=18" = false.
Proof.
  destruct (node_range_loses_one_character only_package
              (fun _ => Returned frontend) no_match "{ ... }" frontend
              eq_refl ltac:(discriminate) eq_refl ">=18" eq_refl
              ltac:(discriminate)) as (Hv & _ & _ & Hrest).
  split; [exact Hv|].
  destruct (Hrest "18" (or_introl eq_refl)) as [_ H]. exact H.
Defined.

Lemma angular_by_major_react_in_full_witness :
  detectCurrentVersion only_package (fun _ => Returned frontend) no_match
    "Angular" = Some "17" /\
  detectCurrentVersion only_package (fun _ => Returned frontend) no_match
    "React" = Some "17.0.2" /\
  needs_update "Angular" "17" = true /\
  needs_update "React" "17.0.2" = false.
Proof.
  destruct (angular_by_major_react_in_full only_package
              (fun _ => Returned frontend) no_match "{ ... }" frontend
              eq_refl ltac:(discriminate) eq_refl) as [Ha Hr].
  destruct (Ha "^17.3.1" eq_refl ltac:(discriminate)) as [Hav _].
  destruct (Hr "^17.0.2" eq_refl ltac:(discriminate)) as [Hrv Hrf].
  split; [exact Hav|]. split; [exact Hrv|]. split; [reflexivity|].
  apply Hrf. reflexivity.
Defined.

(** X27: the function knows the six technologies the scan asks for and no
    other: for every other technology, among them the fifteen others the
    upgrade dialog offers, it returns no version, whatever the repository
    contains, and the scan records nothing for such an answer. *)
Theorem other_technologies_are_never_detected
    getFileContent JSON_parse match_group technology :
  existsb (String.eqb technology) relevantTechnologies = false ->
  detectCurrentVersion getFileContent JSON_parse match_group technology =
    None /\
  detected (answer getFileContent JSON_parse match_group technology) = None.
Proof.
  intros H. unfold relevantTechnologies in H. cbn [existsb] in H.
  rewrite orb_false_r in H.
  repeat (apply orb_false_elim in H; destruct H as [? H]).
  assert (Hd : detectCurrentVersion getFileContent JSON_parse match_group
                 technology = None).
  { unfold detectCurrentVersion, detection.
    repeat match goal with
           | E : String.eqb technology _ = false |- _ => rewrite E; clear E
           end.
    reflexivity. }
  split; [exact Hd|]. unfold answer, detected. rewrite Hd. reflexivity.
Qed.

Lemma other_technologies_are_never_detected_witness :
  List.length
    (List.filter
       (fun kv => negb (existsb (String.eqb (fst kv)) relevantTechnologies))
       technologyVersions) = 15 /\
  detectCurrentVersion only_package (fun _ => Returned frontend) no_match
    "Vue.js" = None.
Proof.
  split; [vm_compute; reflexivity|].
  apply (other_technologies_are_never_detected only_package
           (fun _ => Returned frontend) no_match "Vue.js" eq_refl).
Defined.

End DetectVersionFacts.

(** ** The security scan function *)

Module SecurityScanFacts.

Import JS SecurityScan.

Lemma table_ids today :
  List.map id (allVulns today) =
  ["CVE-2024-1001"; "CVE-2024-1002"; "CVE-2024-1003"; "CVE-2024-2001";
   "CVE-2024-2002"; "CVE-2024-3001"; "CVE-2024-4001"; "CVE-2024-4002"].
Proof. reflexivity. Qed.

Lemma table_ids_NoDup today : List.NoDup (List.map id (allVulns today)).
Proof.
  rewrite table_ids.
  repeat (constructor; [simpl; intuition discriminate|]). constructor.
Qed.

(** The findings of a language are a stretch of the whole table. *)
Lemma known_in_table today language :
  exists before after,
    allVulns today = (before ++ known today language ++ after)%list.
Proof.
  destruct language as [l|]; [|exists [], (allVulns today); reflexivity].
  unfold known, mockVulnerabilities. cbn [assoc].
  destruct (String.eqb "Java" l).
  { exists []. eexists. reflexivity. }
  destruct (String.eqb "TypeScript" l).
  { eexists (take 3 (allVulns today)), _. reflexivity. }
  destruct (String.eqb "JavaScript" l).
  { eexists (take 5 (allVulns today)), _. reflexivity. }
  destruct (String.eqb "Python" l).
  { eexists (take 6 (allVulns today)), []. reflexivity. }
  exists [], (allVulns today). reflexivity.
Qed.

Lemma known_NoDup today language :
  List.NoDup (List.map id (known today language)).
Proof.
  destruct (known_in_table today language) as (before & after & H).
  pose proof (table_ids_NoDup today) as Hnd. rewrite H in Hnd.
  rewrite !map_app in Hnd.
  apply NoDup_app_remove_l in Hnd. apply NoDup_app_remove_r in Hnd.
  exact Hnd.
Qed.

Lemma known_incl today language v :
  In v (known today language) -> In v (allVulns today).
Proof.
  destruct (known_in_table today language) as (before & after & H).
  rewrite H. intros Hv. apply in_or_app. right. apply in_or_app. left.
  exact Hv.
Qed.

Lemma table_open today :
  Forall (fun m => status m = "open" /\
                   In (severity m) ["critical"; "high"; "medium"; "low"])
    (allVulns today).
Proof. repeat constructor; simpl; tauto. Qed.

(** What is chosen from the language, when nothing is thrown: as many of
    its findings as the dice say, in the order of the shuffle. *)
Lemma ofLanguage_chosen dice today language found :
  ofLanguage dice today language = Returned found ->
  found = take (numVulns dice) (shuffled dice (known today language)) \/
  found = [].
Proof.
  unfold ofLanguage, known.
  destruct (truthy language); [|intros [= <-]; auto].
  destruct language as [l|]; [|intros [= <-]; auto].
  destruct (assoc l (mockVulnerabilities today)) as [languageVulns|].
  - destruct (Nat.ltb 0 (length languageVulns)); intros [= <-]; auto.
  - destruct (assoc l inherited) as [n|]; [|intros [= <-]; auto].
    destruct (Nat.ltb 0 n); [discriminate | intros [= <-]; auto].
Qed.

Lemma count_sum (l : list Finding) :
  Forall (fun v => In (severity v) ["critical"; "high"; "medium"; "low"]) l ->
  length l = count "critical" l + count "high" l + count "medium" l +
             count "low" l.
Proof.
  unfold count. induction l as [|v l IH]; intros H; [reflexivity|].
  inversion H as [|? ? Hv Hl]; subst. specialize (IH Hl). cbn [List.filter].
  destruct Hv as [E|[E|[E|[E|[]]]]]; rewrite <- E; simpl; lia.
Qed.

(** X28: whatever the dice, as long as the shuffle only reorders, a
    successful answer of the scan function never lists an id twice; every
    finding is an open finding of the table, as it is or marked as a
    dependency; there is at most one finding more than the table has for
    the repository's language; and the summary adds up: the total is the
    number of findings and the sum of the four severities. *)
Theorem scan_answer_is_sound dice today method request answer :
  (forall l, Permutation (shuffled dice l) l) ->
  serve dice today method (Returned request) = Ok answer ->
  List.NoDup (List.map id (vulnerabilities answer)) /\
  Forall (fun v => status v = "open" /\ from_table today v)
    (vulnerabilities answer) /\
  length (vulnerabilities answer) <=
    S (length (known today (language request))) /\
  total (summary answer) = length (vulnerabilities answer) /\
  total (summary answer) =
    critical (summary answer) + high (summary answer) +
    medium (summary answer) + low (summary answer).
Proof.
  intros Hperm. unfold serve.
  destruct (String.eqb method "OPTIONS"); [discriminate|].
  destruct (ofLanguage dice today (language request)) as [found|m] eqn:Hfound;
    [|discriminate].
  intros [= <-]. cbn [vulnerabilities summary total critical high medium low].
  set (own := known today (language request)).
  assert (Hsub : forall v, In v found -> In v own).
  { intros v Hv. apply ofLanguage_chosen in Hfound.
    destruct Hfound as [-> | ->]; [|destruct Hv].
    apply list_elem_of_In in Hv. apply (subseteq_take (numVulns dice)) in Hv.
    apply list_elem_of_In in Hv.
    apply (Permutation_in _ (Hperm own) Hv). }
  assert (Hnd : List.NoDup (List.map id found)).
  { apply ofLanguage_chosen in Hfound.
    destruct Hfound as [-> | ->]; [|constructor].
    apply NoDup_ListNoDup.
    change (List.map id ?l) with (id <$> l). rewrite fmap_take.
    eapply sublist_NoDup; [|apply sublist_take].
    apply NoDup_ListNoDup.
    apply (Permutation_NoDup
             (Permutation_sym (Permutation_map id (Hperm own)))).
    apply known_NoDup. }
  assert (Hlen : length found <= length own).
  { apply ofLanguage_chosen in Hfound.
    destruct Hfound as [-> | ->]; [|simpl; lia].
    rewrite length_take.
    pose proof (Permutation_length (Hperm own)) as Hp. subst own. lia. }
  assert (Hfrom : Forall (fun v => status v = "open" /\ from_table today v /\
                            In (severity v)
                              ["critical"; "high"; "medium"; "low"]) found).
  { apply List.Forall_forall. intros v Hv.
    apply Hsub, known_incl in Hv.
    pose proof (table_open today) as Ht.
    rewrite List.Forall_forall in Ht. destruct (Ht v Hv) as [Ho Hs].
    split; [exact Ho|]. split; [|exact Hs]. exists v. auto. }
  assert (Hall : List.NoDup (List.map id (withOther dice today found)) /\
                 Forall (fun v => status v = "open" /\ from_table today v /\
                           In (severity v)
                             ["critical"; "high"; "medium"; "low"])
                   (withOther dice today found) /\
                 length (withOther dice today found) <= S (length own)).
  { unfold withOther. destruct (occasionally dice); [|auto].
    destruct (allVulns today !! randomIndex dice) as [randomVuln|] eqn:Hr;
      [|auto].
    destruct (existsb _ found) eqn:He; cbn [negb]; [auto|].
    split; [|split].
    - rewrite map_app. apply NoDup_ListNoDup, list.NoDup_app.
      split; [apply NoDup_ListNoDup, Hnd|]. split; [|apply NoDup_singleton].
      intros x Hx Hx'. apply list_elem_of_In in Hx.
      apply list_elem_of_In in Hx'. destruct Hx' as [<-|[]].
      apply in_map_iff in Hx. destruct Hx as (v & Hid & Hv).
      assert (Ht : existsb (fun v => String.eqb (id v) (id randomVuln)) found
                   = true).
      { apply existsb_exists. exists v. split; [exact Hv|].
        apply String.eqb_eq. exact Hid. }
      congruence.
    - apply Forall_app. split; [exact Hfrom|]. constructor; [|constructor].
      apply list_elem_of_lookup_2, list_elem_of_In in Hr.
      pose proof (table_open today) as Ht.
      rewrite List.Forall_forall in Ht. destruct (Ht _ Hr) as [Ho Hs].
      split; [exact Ho|]. split; [|exact Hs]. exists randomVuln. auto.
    - rewrite length_app. simpl. lia. }
  destruct Hall as (Hnd' & Hfrom' & Hlen').
  split; [exact Hnd'|]. split; [|split; [exact Hlen'|split; [reflexivity|]]].
  - eapply Forall_impl; [|exact Hfrom']. intros v (Ho & Ht & _). auto.
  - apply count_sum. eapply Forall_impl; [|exact Hfrom'].
    intros v (_ & _ & Hs). exact Hs.
Qed.

Lemma scan_answer_is_sound_witness :
  exists answer,
    serve loaded "2024-08-04" "POST" (Returned java_request) = Ok answer /\
    List.map (fun v => (id v, package v)) (vulnerabilities answer) =
      [("CVE-2024-1003", "commons-io"); ("CVE-2024-1002", "jackson-databind");
       ("CVE-2024-4002", "pickle-dep")] /\
    List.NoDup (List.map id (vulnerabilities answer)).
Proof.
  eexists. split; [reflexivity|]. split; [reflexivity|].
  apply (scan_answer_is_sound loaded "2024-08-04" "POST" java_request _).
  - intros l. apply Permutation_sym, Permutation_rev.
  - reflexivity.
Defined.

End SecurityScanFacts.
